(** * MCP adapter servers (BigQuery, Google Ads, Meta Ads): dispatch layer

    A shallow embedding of the request dispatchers, tool handlers,
    credential loaders and transport selection of the three servers

      - [src/index.ts]                       (BigQuery server)
      - [packages/google-ads/src/index.ts]   (Google Ads server)
      - [packages/meta-ads/src/index.ts]     (Meta Ads server)
      - [packages/shared/src/base-server.ts] (shared base class)

    JavaScript values are an inductive type, the vendor SDKs are an oracle
    whose invocations are recorded in a log, and [try]/[catch] is an error
    monad over that log. *)

From Stdlib Require Import ZArith String Ascii List Bool Lia DecimalString.
From stdpp Require Import base gmap strings.
Import ListNotations.

Local Open Scope string_scope.
Local Open Scope Z_scope.
Local Set Warnings "-register-all".

(** ** JavaScript strings

    Strings are sequences of code units in the range 0..255 (ASCII and
    Latin-1); code units above 255 are outside the model. *)
Module JsString.

Definition code (c : ascii) : N := N_of_ascii c.

(** White space and line terminators removed by [String.prototype.trim]:
    TAB, LF, VT, FF, CR, SPACE and NBSP. *)
Definition isWhiteSpace (c : ascii) : bool :=
  let n := code c in
  ((9 <=? n) && (n <=? 13) || (n =? 32) || (n =? 160))%N.

Definition isUpperAZ (c : ascii) : bool :=
  let n := code c in ((65 <=? n) && (n <=? 90))%N.

Definition isLowerAZ (c : ascii) : bool :=
  let n := code c in ((97 <=? n) && (n <=? 122))%N.

(** Upper-case letters of Latin-1 other than A-Z: U+00C0..U+00DE
    without the multiplication sign U+00D7. *)
Definition isUpperLatin1 (c : ascii) : bool :=
  let n := code c in ((192 <=? n) && (n <=? 222) && negb (n =? 215))%N.

Definition lowerChar (c : ascii) : ascii :=
  if isUpperAZ c || isUpperLatin1 c
  then ascii_of_N (code c + 32)
  else c.

(** On the field names it is applied to (ASCII identifiers) upper-casing
    only moves a-z. *)
Definition upperChar (c : ascii) : ascii :=
  if isLowerAZ c then ascii_of_N (code c - 32) else c.

Fixpoint map (f : ascii -> ascii) (s : string) : string :=
  match s with
  | EmptyString => EmptyString
  | String c s' => String (f c) (map f s')
  end.

Definition toLowerCase (s : string) : string := map lowerChar s.
Definition toUpperCase (s : string) : string := map upperChar s.

Definition startsWith (s p : string) : bool := String.prefix p s.

(** [s.includes(needle)] *)
Fixpoint includes (s needle : string) : bool :=
  String.prefix needle s ||
  match s with
  | EmptyString => false
  | String _ s' => includes s' needle
  end.

Fixpoint trimStart (s : string) : string :=
  match s with
  | EmptyString => EmptyString
  | String c s' => if isWhiteSpace c then trimStart s' else s
  end.

Fixpoint trimEnd (s : string) : string :=
  match s with
  | EmptyString => EmptyString
  | String c s' =>
      match trimEnd s' with
      | EmptyString => if isWhiteSpace c then EmptyString else String c EmptyString
      | t => String c t
      end
  end.

Definition trim (s : string) : string := trimEnd (trimStart s).

(** [s.split(sep)] for a one-character separator. *)
Fixpoint split (sep : ascii) (s : string) : list string :=
  match s with
  | EmptyString => [EmptyString]
  | String c s' =>
      if Ascii.eqb c sep then EmptyString :: split sep s'
      else match split sep s' with
           | [] => [String c EmptyString]
           | h :: t => String c h :: t
           end
  end.

(** [s.replace(/([A-Z])/g, "_$1")] *)
Fixpoint underscoreCapitals (s : string) : string :=
  match s with
  | EmptyString => EmptyString
  | String c s' =>
      if isUpperAZ c then String "_" (String c (underscoreCapitals s'))
      else String c (underscoreCapitals s')
  end.

(** [xs.join(sep)] on strings. *)
Fixpoint join (sep : string) (xs : list string) : string :=
  match xs with
  | [] => EmptyString
  | [x] => x
  | x :: rest => x +:+ sep +:+ join sep rest
  end.

(** Decimal rendering of an integer-valued number: the number-to-string
    conversion of the code on the safe integers (magnitude at most
    2^53 - 1). Beyond them the conversion rounds and, from 1e21, uses
    exponent notation, so a statement about the text of a caller's number
    is made for safe integers only. *)
Definition ofZ (z : Z) : string := NilZero.string_of_int (Z.to_int z).

End JsString.

(** ** JavaScript values

    Numbers are the integer-valued ones of magnitude below 10^21 (the JSON
    numbers a limit can sensibly be, rendered by [String] as their decimal
    digits); [NaN], fractions and infinities are outside the model.
    Objects are association lists of own properties; [JError] is an
    instance of [Error] with its message. *)
Inductive jsval : Type :=
| JUndefined
| JNull
| JBool (b : bool)
| JNum (z : Z)
| JStr (s : string)
| JArr (elems : list jsval)
| JObj (fields : list (string * jsval))
| JError (message : string).

Definition truthy (v : jsval) : bool :=
  match v with
  | JUndefined | JNull => false
  | JBool b => b
  | JNum z => negb (z =? 0)
  | JStr s => negb (String.eqb s "")
  | JArr _ | JObj _ | JError _ => true
  end.

(** [a || b] *)
Definition js_or (a b : jsval) : jsval := if truthy a then a else b.

Fixpoint lookup_field (k : string) (fs : list (string * jsval)) : jsval :=
  match fs with
  | [] => JUndefined
  | (k', v) :: rest => if String.eqb k k' then v else lookup_field k rest
  end.

(** [v.k] on a value that is neither [null] nor [undefined], for the
    property names the servers read (none of them lives on a prototype). *)
Definition get (v : jsval) (k : string) : jsval :=
  match v with
  | JObj fs => lookup_field k fs
  | JError m => if String.eqb k "message" then JStr m else JUndefined
  | _ => JUndefined
  end.

(** [v?.k] *)
Definition opt_get (v : jsval) (k : string) : jsval :=
  match v with
  | JUndefined | JNull => JUndefined
  | _ => get v k
  end.

Definition has_field (v : jsval) (k : string) : bool :=
  match v with
  | JObj fs => existsb (fun kv => String.eqb k (fst kv)) fs
  | _ => false
  end.

(** [o.k = x] on an object literal under construction. *)
Definition set_field (v : jsval) (k : string) (x : jsval) : jsval :=
  match v with
  | JObj fs => JObj (fs ++ [(k, x)])%list
  | _ => v
  end.

Definition isArray (v : jsval) : bool :=
  match v with JArr _ => true | _ => false end.

(** The elements of an array value. *)
Definition elements (v : jsval) : list jsval :=
  match v with JArr l => l | _ => [] end.

Definition isNullish (v : jsval) : bool :=
  match v with JUndefined | JNull => true | _ => false end.

(** [v instanceof Error] *)
Definition instanceofError (v : jsval) : bool :=
  match v with JError _ => true | _ => false end.

(** [String(v)], also the conversion applied by template literals. Array
    elements are joined with a comma, [null] and [undefined] elements
    rendering as the empty string. *)
Fixpoint js_String (v : jsval) : string :=
  match v with
  | JUndefined => "undefined"
  | JNull => "null"
  | JBool true => "true"
  | JBool false => "false"
  | JNum z => JsString.ofZ z
  | JStr s => s
  | JArr l =>
      JsString.join ","
        (List.map (fun e => if isNullish e then "" else js_String e) l)
  | JObj _ => "[object Object]"
  | JError m => if String.eqb m "" then "Error" else "Error: " +:+ m
  end.

(** The element conversion of [Array.prototype.join]. *)
Definition join_elem (v : jsval) : string :=
  if isNullish v then "" else js_String v.

Definition ofOption (o : option string) : jsval :=
  match o with Some s => JStr s | None => JUndefined end.

(** ** Vendor SDK invocations

    Every method of a vendor SDK object that goes to the remote service is
    one constructor; the object it is invoked on is part of the call. The
    static [Fields] tables of the Facebook SDK are modelled by the names of
    their members. *)
Inductive FBClass : Type := AdAccountCls | CampaignCls | AdSetCls | AdCls.

Inductive VendorCall : Type :=
| FB_read (cls : FBClass) (id : jsval) (fields : list string)
| FB_getCampaigns (id : jsval) (fields : list string) (params : jsval)
| FB_getAdSets (id : jsval) (fields : list string) (params : jsval)
| FB_getAds (id : jsval) (fields : list string) (params : jsval)
| FB_getInsights (cls : FBClass) (id : jsval) (fields : jsval) (params : jsval)
| GA_query (customer_id refresh_token : jsval) (gaql : string)
| BQ_getDatasets
| BQ_getTables (datasetId : jsval)
| BQ_table_getMetadata (datasetId tableId : jsval)
| BQ_createQueryJob (options : jsval)
| BQ_job_getMetadata (job : jsval)
| BQ_job_getQueryResults (job : jsval) (options : jsval).

(** ** Effects: a log of vendor invocations and thrown values *)
Inductive outcome (A : Type) : Type :=
| Returned (a : A)
| Thrown (e : jsval).
Arguments Returned {A} a.
Arguments Thrown {A} e.

Definition M (A : Type) : Type :=
  list VendorCall -> outcome A * list VendorCall.

Definition ret {A} (a : A) : M A := fun log => (Returned a, log).

Definition throw {A} (e : jsval) : M A := fun log => (Thrown e, log).

Definition bind {A B} (m : M A) (k : A -> M B) : M B :=
  fun log =>
    match m log with
    | (Returned a, log') => k a log'
    | (Thrown e, log') => (Thrown e, log')
    end.

(** [try { body } catch (error) { handler }] *)
Definition try_catch {A} (body : M A) (handler : jsval -> M A) : M A :=
  fun log =>
    match body log with
    | (Returned a, log') => (Returned a, log')
    | (Thrown e, log') => handler e log'
    end.

Notation "'let!' x ':=' m 'in' k" := (bind m (fun x => k))
  (at level 10, x name, m at level 200, k at level 200).

(** [new Error(msg)] *)
Definition Error (msg : string) : jsval := JError msg.

(** A property read that raises a [TypeError] on [null] and [undefined]. *)
Definition prop (v : jsval) (k : string) : M jsval :=
  if isNullish v
  then throw (Error ("Cannot read properties of " +:+ js_String v))
  else ret (get v k).

Fixpoint mapM {A B} (f : A -> M B) (l : list A) : M (list B) :=
  match l with
  | [] => ret []
  | x :: rest =>
      let! y := f x in
      let! ys := mapM f rest in
      ret (y :: ys)
  end.

(** Strict equality of a value with a string literal, as in a [case]
    label or [=== "lit"]. *)
Definition is_str (v : jsval) (lit : string) : bool :=
  match v with JStr s => String.eqb s lit | _ => false end.

(** [{ content: [{ type: "text", text }] }] *)
Definition text_content (text : string) : jsval :=
  JObj [("content", JArr [JObj [("type", JStr "text"); ("text", JStr text)]])].

(** The oracle standing for the remote services: given the invocations so
    far and the next one, it resolves with a value or rejects with one. *)
Definition Vendor : Type := list VendorCall -> VendorCall -> outcome jsval.

Definition await (vendor : Vendor) (c : VendorCall) : M jsval :=
  fun log => (vendor log c, (log ++ [c])%list).

(** ** [packages/shared/src/base-server.ts] *)
Module BaseServer.

Record ServerConfig : Type := {
  name : string;
  version : string;
  description : string
}.

(** [args.indexOf(x)]: the first position holding [x], or -1. *)
Fixpoint indexOf (x : string) (args : list string) : Z :=
  match args with
  | [] => -1
  | a :: rest =>
      if String.eqb a x then 0
      else let i := indexOf x rest in if i <? 0 then -1 else i + 1
  end.

(** [xs[i]]: [undefined] outside the array. *)
Definition at_index (xs : list string) (i : Z) : jsval :=
  if i <? 0 then JUndefined else ofOption (nth_error xs (Z.to_nat i)).

(** [getTransportMode], with [process.argv] as argument. *)
Definition getTransportMode (argv : list string) : string :=
  let args := skipn 2 argv in
  let transportArg :=
    ofOption (List.find (fun arg => JsString.startsWith arg "--transport") args) in
  if truthy transportArg then
    if JsString.includes (js_String transportArg) "=" then
      let mode := at_index (JsString.split "=" (js_String transportArg)) 1 in
      if is_str mode "http" then "http" else "stdio"
    else
      let index := indexOf (js_String transportArg) args in
      let mode := at_index args (index + 1) in
      if is_str mode "http" then "http" else "stdio"
  else if existsb (fun arg => JsString.startsWith arg "--port"
                              || String.eqb arg "http") args
  then "http"
  else "stdio".

Section Port.
(** [parseInt] on an array slot; [None] is [NaN]. *)
Variable parseInt : jsval -> option Z.

Definition or3000 (n : option Z) : Z :=
  match n with
  | Some z => if z =? 0 then 3000 else z
  | None => 3000
  end.

Definition getPort (argv : list string) : Z :=
  let args := skipn 2 argv in
  let portArg :=
    ofOption (List.find (fun arg => JsString.startsWith arg "--port") args) in
  if truthy portArg then
    if JsString.includes (js_String portArg) "=" then
      or3000 (parseInt (at_index (JsString.split "=" (js_String portArg)) 1))
    else
      let index := indexOf (js_String portArg) args in
      or3000 (parseInt (at_index args (index + 1)))
  else 3000.

(** What [run] ends up doing. *)
Inductive Started : Type :=
| RunStdio
| RunHTTP (port : Z)
| ExitUnknownTransport (mode : string).

Definition run (argv : list string) : Started :=
  let transport := getTransportMode argv in
  let port := getPort argv in
  if String.eqb transport "stdio" then RunStdio
  else if String.eqb transport "http" then RunHTTP port
  else ExitUnknownTransport transport.
End Port.

(** The abstract methods a concrete server supplies. *)
Class Handlers (S : Type) : Type := {
  config : S -> ServerConfig;
  handleToolsList : S -> jsval -> M jsval;
  handleToolCall : S -> jsval -> M jsval
}.

(** What the [/mcp] route writes: one server-sent event carrying the
    response envelope, or the 500 of the outer [catch]. *)
Inductive HttpReply : Type :=
| EventStream (response : jsval)
| InternalServerError (details : jsval).

Definition error_details (error : jsval) : jsval :=
  if instanceofError error then get error "message"
  else JStr (js_String error).

(** The [app.post("/mcp", ...)] callback of [runHTTP]; [body] is
    [req.body]. *)
Definition mcp_post {S} `{Handlers S} (this : S) (body : jsval) : M HttpReply :=
  try_catch
    (let request := body in
     let! method := prop request "method" in
     let! response :=
       if is_str method "initialize" then
         ret (JObj [("jsonrpc", JStr "2.0");
                    ("result",
                     JObj [("protocolVersion", JStr "2024-11-05");
                           ("capabilities",
                            JObj [("tools", JObj [("listChanged", JBool true)])]);
                           ("serverInfo",
                            JObj [("name", JStr (name (config this)));
                                  ("version", JStr (version (config this)))])]);
                    ("id", get request "id")])
       else if is_str method "tools/list" then handleToolsList this request
       else if is_str method "tools/call" then handleToolCall this request
       else
         ret (JObj [("jsonrpc", JStr "2.0");
                    ("error", JObj [("code", JNum (-32601));
                                    ("message", JStr "Method not found")]);
                    ("id", get request "id")]) in
     ret (EventStream response))
    (fun error => ret (InternalServerError (error_details error))).

End BaseServer.

(** ** Process environment and required-field checks shared by the
    credential loaders *)
Definition Env : Type := gmap string string.

(** [process.env.NAME] *)
Definition getenv (env : Env) (name : string) : option string := env !! name.

(** Truthiness of an optional configuration string: absent and empty are
    both falsy. *)
Definition present (o : option string) : bool := truthy (ofOption o).

(** ** [packages/meta-ads/src/index.ts] *)
Module MetaAds.

Record MetaAdsConfig : Type := {
  accessToken : option string;
  appId : option string;
  appSecret : option string;
  accountId : option string
}.

(** The fields of the server object that request handling reads: [api]
    is [true] when [this.api] holds a handle and [false] when it is
    [null]. *)
Record MetaAdsMCPServer : Type := {
  api : bool;
  adsConfig : MetaAdsConfig
}.

(** [this.adsConfig[field as keyof MetaAdsConfig]] *)
Definition config_field (c : MetaAdsConfig) (field : string) : option string :=
  if String.eqb field "accessToken" then accessToken c
  else if String.eqb field "appId" then appId c
  else if String.eqb field "appSecret" then appSecret c
  else if String.eqb field "accountId" then accountId c
  else None.

Definition requiredFields : list string := ["accessToken"; "appId"; "appSecret"].

Definition env_var_name (field : string) : string :=
  "META_ADS_" +:+ JsString.toUpperCase (JsString.underscoreCapitals field).

Definition read_config (env : Env) : MetaAdsConfig :=
  {| accessToken := getenv env "META_ADS_ACCESS_TOKEN";
     appId := getenv env "META_ADS_APP_ID";
     appSecret := getenv env "META_ADS_APP_SECRET";
     accountId := getenv env "META_ADS_ACCOUNT_ID" |}.

Definition missingFields (c : MetaAdsConfig) : list string :=
  List.filter (fun field => negb (present (config_field c field))) requiredFields.

Definition newline : string := String (ascii_of_N 10) EmptyString.

Definition missing_message (missing : list string) : string :=
  "Missing required Meta Ads configuration. Please set the following environment variables:"
  +:+ newline
  +:+ JsString.join newline (List.map (fun field => "- " +:+ env_var_name field) missing).

(** [initializeMetaAds]: the server fields it leaves behind, or the
    thrown error. *)
Definition initializeMetaAds (env : Env) : outcome MetaAdsMCPServer :=
  let adsConfig := read_config env in
  let missingFields := missingFields adsConfig in
  if (0 <? Z.of_nat (List.length missingFields))
  then Thrown (Error (missing_message missingFields))
  else Returned {| api := true; adsConfig := adsConfig |}.

(** [initialize]: logs and rethrows. *)
Definition initialize (env : Env) : outcome MetaAdsMCPServer :=
  match initializeMetaAds env with
  | Thrown error => Thrown error
  | Returned s => Returned s
  end.

(** [new MetaAdsMCPServer()]: [super(...)] runs [initialize] and
    [setupTools] from the base constructor; the property initializers of
    the subclass ([api = null], [adsConfig = {}]) take effect once
    [super] has returned. *)
Definition construct (env : Env) : outcome MetaAdsMCPServer :=
  match initialize env with
  | Thrown error => Thrown error
  | Returned _ =>
      Returned {| api := false;
                  adsConfig := {| accessToken := None; appId := None;
                                  appSecret := None; accountId := None |} |}
  end.

(** [main]: a throw from the constructor rejects [main], whose [catch]
    exits with status 1 before [run] is reached. *)
Inductive Process : Type :=
| Serving (server : MetaAdsMCPServer) (mode : BaseServer.Started)
| Exit1 (fatal : jsval).

Definition main (parseInt : jsval -> option Z) (env : Env) (argv : list string) : Process :=
  match construct env with
  | Thrown error => Exit1 error
  | Returned server => Serving server (BaseServer.run parseInt argv)
  end.

(** *** Tool catalogue (the literal of [handleToolsList]) *)
Definition string_prop (description : string) : jsval :=
  JObj [("type", JStr "string"); ("description", JStr description)].

Definition number_prop (description : string) : jsval :=
  JObj [("type", JStr "number"); ("description", JStr description)].

Definition enum_prop (values : list string) (description : string) : jsval :=
  JObj [("type", JStr "string");
        ("enum", JArr (List.map JStr values));
        ("description", JStr description)].

Definition statuses : list string := ["ACTIVE"; "PAUSED"; "DELETED"; "ARCHIVED"].

Definition datePresets : list string :=
  ["today"; "yesterday"; "this_week"; "last_week"; "this_month";
   "last_month"; "lifetime"].

Definition tool (name description : string)
    (properties : list (string * jsval)) (required : option (list string)) : jsval :=
  JObj [("name", JStr name);
        ("description", JStr description);
        ("inputSchema",
         JObj ([("type", JStr "object"); ("properties", JObj properties)]
               ++ match required with
                  | Some r => [("required", JArr (List.map JStr r))]
                  | None => []
                  end)%list)].

Definition tools : list jsval :=
  [ tool "get_account_info" "Get information about the Meta Ads account"
      [("accountId", string_prop "Account ID (uses default if not provided)")]
      None;
    tool "list_campaigns" "List campaigns in the Meta Ads account"
      [("accountId", string_prop "Account ID (uses default if not provided)");
       ("limit", number_prop "Maximum number of campaigns to return (default: 25)");
       ("status", enum_prop statuses "Filter by campaign status")]
      None;
    tool "get_campaign" "Get detailed information about a specific campaign"
      [("campaignId", string_prop "The campaign ID to get details for")]
      (Some ["campaignId"]);
    tool "list_adsets" "List ad sets for a campaign"
      [("campaignId", string_prop "The campaign ID to list ad sets for");
       ("limit", number_prop "Maximum number of ad sets to return (default: 25)");
       ("status", enum_prop statuses "Filter by ad set status")]
      (Some ["campaignId"]);
    tool "list_ads" "List ads for an ad set"
      [("adSetId", string_prop "The ad set ID to list ads for");
       ("limit", number_prop "Maximum number of ads to return (default: 25)");
       ("status", enum_prop statuses "Filter by ad status")]
      (Some ["adSetId"]);
    tool "get_insights" "Get performance insights for campaigns, ad sets, or ads"
      [("objectId",
        string_prop "The ID of the campaign, ad set, or ad to get insights for");
       ("objectType",
        enum_prop ["campaign"; "adset"; "ad"] "The type of object to get insights for");
       ("datePreset", enum_prop datePresets "Date preset for the insights");
       ("timeRange",
        JObj [("type", JStr "object");
              ("properties",
               JObj [("since", string_prop "Start date (YYYY-MM-DD)");
                     ("until", string_prop "End date (YYYY-MM-DD)")]);
              ("description", JStr "Custom date range (alternative to datePreset)")]);
       ("metrics",
        JObj [("type", JStr "array");
              ("items", JObj [("type", JStr "string")]);
              ("description", JStr "Specific metrics to retrieve")])]
      (Some ["objectId"; "objectType"]) ].

(** The names under which tools are registered. *)
Definition toolNames : list string :=
  List.map (fun t => js_String (get t "name")) tools.

(** The [required] list a tool declares in its input schema. *)
Definition requiredOf (t : jsval) : list string :=
  match get (get t "inputSchema") "required" with
  | JArr rs => List.map js_String rs
  | _ => []
  end.

(** *** Field lists passed to the SDK *)
Definition accountFields : list string :=
  ["id"; "name"; "account_status"; "currency"; "timezone_name"; "spend_cap";
   "amount_spent"; "balance"].

Definition campaignListFields : list string :=
  ["id"; "name"; "status"; "objective"; "created_time"; "updated_time";
   "start_time"; "stop_time"; "daily_budget"; "lifetime_budget";
   "budget_remaining"; "spend_cap"].

Definition campaignReadFields : list string :=
  (campaignListFields ++ ["bid_strategy"; "buying_type"; "can_use_spend_cap"])%list.

Definition adSetFields : list string :=
  ["id"; "name"; "status"; "created_time"; "updated_time"; "start_time";
   "end_time"; "daily_budget"; "lifetime_budget"; "budget_remaining";
   "bid_amount"; "billing_event"; "optimization_goal"].

Definition adFields : list string :=
  ["id"; "name"; "status"; "created_time"; "updated_time"; "creative";
   "tracking_specs"; "conversion_specs"].

Definition defaultMetrics : jsval :=
  JArr (List.map JStr
    ["impressions"; "clicks"; "spend"; "reach"; "frequency"; "cpm"; "cpc";
     "ctr"; "cost_per_result"; "results"]).

(** [params.filtering = [{ field: "status", operator: "IN", value: [status] }]] *)
Definition with_status_filter (params status : jsval) : jsval :=
  if truthy status then
    set_field params "filtering"
      (JArr [JObj [("field", JStr "status");
                   ("operator", JStr "IN");
                   ("value", JArr [status])]])
  else params.

(** The [{ limit: args.limit || 25 }] literal followed by the optional
    status filter. *)
Definition list_params (args : jsval) : jsval :=
  with_status_filter
    (JObj [("limit", js_or (get args "limit") (JNum 25))])
    (get args "status").

(** The date selection of [get_insights]. *)
Definition insight_params (args : jsval) : jsval :=
  if truthy (get args "datePreset") then
    set_field (JObj []) "date_preset" (get args "datePreset")
  else if truthy (get args "timeRange") then
    set_field (JObj []) "time_range" (get args "timeRange")
  else
    set_field (JObj []) "date_preset" (JStr "lifetime").

(** The [switch (objectType)] that picks the SDK class. *)
Definition insight_object (objectType : jsval) : M FBClass :=
  if is_str objectType "campaign" then ret CampaignCls
  else if is_str objectType "adset" then ret AdSetCls
  else if is_str objectType "ad" then ret AdCls
  else throw (Error "Invalid object type").

Definition error_message (error : jsval) : jsval :=
  if instanceofError error then get error "message"
  else JStr (js_String error).

Definition error_text (pre : string) (error : jsval) : jsval :=
  text_content (pre +:+ js_String (error_message error)).

Definition serverConfig : BaseServer.ServerConfig :=
  {| BaseServer.name := "meta-ads-mcp-server";
     BaseServer.version := "1.0.0";
     BaseServer.description := "MCP server for Meta Ads (Facebook Ads) API operations" |}.

Section Handlers.
Context (vendor : Vendor) (JSON_stringify : jsval -> string).

Definition no_account : string :=
  "No account ID provided and no default account ID configured".

Definition not_initialized : string := "Meta Ads API not initialized".

(** *** Tool handlers registered with [this.server.tool] *)

Definition list_campaigns_tool (this : MetaAdsMCPServer) (args : jsval) : M jsval :=
  if negb (api this) then throw (Error not_initialized) else
  try_catch
    (let accountId :=
       js_or (get args "accountId") (ofOption (accountId (adsConfig this))) in
     if negb (truthy accountId) then throw (Error no_account) else
     let account := JStr ("act_" +:+ js_String accountId) in
     let params := list_params args in
     let! campaigns := await vendor (FB_getCampaigns account campaignListFields params) in
     ret (text_content (JSON_stringify campaigns)))
    (fun error => ret (error_text "Error listing campaigns: " error)).

Definition list_adsets_tool (this : MetaAdsMCPServer) (args : jsval) : M jsval :=
  if negb (api this) then throw (Error not_initialized) else
  try_catch
    (let campaign := get args "campaignId" in
     let params := list_params args in
     let! adSets := await vendor (FB_getAdSets campaign adSetFields params) in
     ret (text_content (JSON_stringify adSets)))
    (fun error => ret (error_text "Error listing ad sets: " error)).

Definition list_ads_tool (this : MetaAdsMCPServer) (args : jsval) : M jsval :=
  if negb (api this) then throw (Error not_initialized) else
  try_catch
    (let adSet := get args "adSetId" in
     let params := list_params args in
     let! ads := await vendor (FB_getAds adSet adFields params) in
     ret (text_content (JSON_stringify ads)))
    (fun error => ret (error_text "Error listing ads: " error)).

Definition get_insights_tool (this : MetaAdsMCPServer) (args : jsval) : M jsval :=
  if negb (api this) then throw (Error not_initialized) else
  try_catch
    (let! object := insight_object (get args "objectType") in
     let params := insight_params args in
     let! insights :=
       await vendor (FB_getInsights object (get args "objectId")
                       (js_or (get args "metrics") defaultMetrics) params) in
     ret (text_content (JSON_stringify insights)))
    (fun error => ret (error_text "Error getting insights: " error)).

(** *** The HTTP handlers *)

Definition handleToolsList (this : MetaAdsMCPServer) (request : jsval) : M jsval :=
  ret (JObj [("jsonrpc", JStr "2.0");
             ("result", JObj [("tools", JArr tools)]);
             ("id", get request "id")]).

(** The body of the [switch (toolName)]: the tool result, or a throw. *)
Definition call_tool (this : MetaAdsMCPServer) (toolName toolArgs : jsval) : M jsval :=
  if is_str toolName "get_account_info" then
    if negb (api this) then throw (Error not_initialized) else
    let accountId :=
      js_or (get toolArgs "accountId") (ofOption (accountId (adsConfig this))) in
    if negb (truthy accountId) then throw (Error no_account) else
    let account := JStr ("act_" +:+ js_String accountId) in
    let! accountInfo := await vendor (FB_read AdAccountCls account accountFields) in
    ret (text_content (JSON_stringify accountInfo))
  else if is_str toolName "list_campaigns" then
    if negb (api this) then throw (Error not_initialized) else
    let campaignAccountId :=
      js_or (get toolArgs "accountId") (ofOption (accountId (adsConfig this))) in
    if negb (truthy campaignAccountId) then throw (Error no_account) else
    let campaignAccount := JStr ("act_" +:+ js_String campaignAccountId) in
    let campaignParams := list_params toolArgs in
    let! campaigns :=
      await vendor (FB_getCampaigns campaignAccount campaignListFields campaignParams) in
    ret (text_content (JSON_stringify campaigns))
  else if is_str toolName "get_campaign" then
    if negb (api this) then throw (Error not_initialized) else
    let campaign := get toolArgs "campaignId" in
    let! campaignData := await vendor (FB_read CampaignCls campaign campaignReadFields) in
    ret (text_content (JSON_stringify campaignData))
  else if is_str toolName "list_adsets" then
    if negb (api this) then throw (Error not_initialized) else
    let adsetCampaign := get toolArgs "campaignId" in
    let adsetParams := list_params toolArgs in
    let! adSets := await vendor (FB_getAdSets adsetCampaign adSetFields adsetParams) in
    ret (text_content (JSON_stringify adSets))
  else if is_str toolName "list_ads" then
    if negb (api this) then throw (Error not_initialized) else
    let adSet := get toolArgs "adSetId" in
    let adParams := list_params toolArgs in
    let! ads := await vendor (FB_getAds adSet adFields adParams) in
    ret (text_content (JSON_stringify ads))
  else if is_str toolName "get_insights" then
    if negb (api this) then throw (Error not_initialized) else
    let! object := insight_object (get toolArgs "objectType") in
    let insightParams := insight_params toolArgs in
    let! insights :=
      await vendor (FB_getInsights object (get toolArgs "objectId")
                      (js_or (get toolArgs "metrics") defaultMetrics)
                      insightParams) in
    ret (text_content (JSON_stringify insights))
  else throw (Error ("Unknown tool: " +:+ js_String toolName)).

Definition handleToolCall (this : MetaAdsMCPServer) (request : jsval) : M jsval :=
  let toolName := opt_get (get request "params") "name" in
  let toolArgs := js_or (opt_get (get request "params") "arguments") (JObj []) in
  try_catch
    (let! toolResult := call_tool this toolName toolArgs in
     ret (JObj [("jsonrpc", JStr "2.0");
                ("result", toolResult);
                ("id", get request "id")]))
    (fun error =>
       let errorMessage := error_message error in
       ret (JObj [("jsonrpc", JStr "2.0");
                  ("error", JObj [("code", JNum (-32000));
                                  ("message", errorMessage)]);
                  ("id", get request "id")])).

#[export] Instance handlers : BaseServer.Handlers MetaAdsMCPServer := {
  BaseServer.config := fun _ => serverConfig;
  BaseServer.handleToolsList := handleToolsList;
  BaseServer.handleToolCall := handleToolCall
}.

(** [POST /mcp] on the Meta Ads server. *)
Definition mcp_post (this : MetaAdsMCPServer) (body : jsval) : M BaseServer.HttpReply :=
  BaseServer.mcp_post this body.

(** *** The remaining registered handlers *)

Definition get_campaign_tool (this : MetaAdsMCPServer) (args : jsval) : M jsval :=
  if negb (api this) then throw (Error not_initialized) else
  try_catch
    (let campaign := get args "campaignId" in
     let! campaignData := await vendor (FB_read CampaignCls campaign campaignReadFields) in
     ret (text_content (JSON_stringify campaignData)))
    (fun error => ret (error_text "Error getting campaign: " error)).

(** [if (!this.api) { this.initializeMetaAds(); }]: the server fields
    afterwards. When the initialization throws, the configuration has
    already been assigned from the environment. *)
Definition reinitialize (env : Env) (this : MetaAdsMCPServer)
    : outcome unit * MetaAdsMCPServer :=
  if negb (api this) then
    match initializeMetaAds env with
    | Returned initialized => (Returned tt, initialized)
    | Thrown error =>
        (Thrown error, {| api := api this; adsConfig := read_config env |})
    end
  else (Returned tt, this).

(** The handler of [get_account_info]: its outcome together with the
    server fields it leaves behind. *)
Definition get_account_info_tool (env : Env) (this : MetaAdsMCPServer) (args : jsval)
    (log : list VendorCall)
    : (outcome jsval * MetaAdsMCPServer) * list VendorCall :=
  match reinitialize env this with
  | (Thrown error, this') => ((Thrown error, this'), log)
  | (Returned _, this') =>
      let (result, log') :=
        try_catch
          (let accountId :=
             js_or (get args "accountId") (ofOption (accountId (adsConfig this'))) in
           if negb (truthy accountId) then throw (Error no_account) else
           let account := JStr ("act_" +:+ js_String accountId) in
           let! accountInfo := await vendor (FB_read AdAccountCls account accountFields) in
           ret (text_content (JSON_stringify accountInfo)))
          (fun error => ret (error_text "Error getting account info: " error))
          log in
      ((result, this'), log')
  end.

End Handlers.

End MetaAds.

(** ** [packages/google-ads/src/index.ts] *)
Module GoogleAds.

Record GoogleAdsConfig : Type := {
  customerId : option string;
  developerToken : option string;
  clientId : option string;
  clientSecret : option string;
  refreshToken : option string
}.

(** [googleAds] is [true] when [this.googleAds] holds a client and
    [false] when it is [null]. *)
Record GoogleAdsMCPServer : Type := {
  googleAds : bool;
  config : GoogleAdsConfig
}.

(** [this.config[field as keyof GoogleAdsConfig]] *)
Definition config_field (c : GoogleAdsConfig) (field : string) : option string :=
  if String.eqb field "customerId" then customerId c
  else if String.eqb field "developerToken" then developerToken c
  else if String.eqb field "clientId" then clientId c
  else if String.eqb field "clientSecret" then clientSecret c
  else if String.eqb field "refreshToken" then refreshToken c
  else None.

Definition requiredFields : list string :=
  ["customerId"; "developerToken"; "clientId"; "clientSecret"; "refreshToken"].

Definition env_var_name (field : string) : string :=
  "GOOGLE_ADS_" +:+ JsString.toUpperCase (JsString.underscoreCapitals field).

(** The configuration literal of the constructor. *)
Definition read_config (env : Env) : GoogleAdsConfig :=
  {| customerId := getenv env "GOOGLE_ADS_CUSTOMER_ID";
     developerToken := getenv env "GOOGLE_ADS_DEVELOPER_TOKEN";
     clientId := getenv env "GOOGLE_ADS_CLIENT_ID";
     clientSecret := getenv env "GOOGLE_ADS_CLIENT_SECRET";
     refreshToken := getenv env "GOOGLE_ADS_REFRESH_TOKEN" |}.

Definition missingFields (c : GoogleAdsConfig) : list string :=
  List.filter (fun field => negb (present (config_field c field))) requiredFields.

Definition newline : string := String (ascii_of_N 10) EmptyString.

Definition missing_message (missing : list string) : string :=
  "Missing required Google Ads configuration. Please set the following environment variables:"
  +:+ newline
  +:+ JsString.join newline (List.map (fun field => "- " +:+ env_var_name field) missing)
  +:+ newline +:+ newline
  +:+ "You can create a .env file in the root directory with these variables.".

(** [initializeGoogleAds] on the configuration read by the constructor. *)
Definition initializeGoogleAds (c : GoogleAdsConfig) : outcome GoogleAdsMCPServer :=
  let missingFields := missingFields c in
  if (0 <? Z.of_nat (List.length missingFields))
  then Thrown (Error (missing_message missingFields))
  else Returned {| googleAds := true; config := c |}.

(** [new GoogleAdsMCPServer()] *)
Definition construct (env : Env) : outcome GoogleAdsMCPServer :=
  initializeGoogleAds (read_config env).

(** [main]: a throw from the constructor is caught, reported, and the
    process exits with status 1; otherwise the server runs over stdio. *)
Inductive Process : Type :=
| Serving (server : GoogleAdsMCPServer)
| Exit1 (fatal : jsval).

Definition main (env : Env) : Process :=
  match construct env with
  | Thrown error => Exit1 error
  | Returned server => Serving server
  end.

(** [typeof v === "object"] *)
Definition typeof_object (v : jsval) : bool :=
  match v with
  | JNull | JArr _ | JObj _ | JError _ => true
  | _ => false
  end.

(** [e.message || "Unknown error"] inside the [map] callback; reading a
    property of a [null] or [undefined] element raises a [TypeError]. *)
Definition sub_message (e : jsval) : outcome jsval :=
  if isNullish e
  then Thrown (Error ("Cannot read properties of " +:+ js_String e))
  else Returned (js_or (get e "message") (JStr "Unknown error")).

Fixpoint map_outcome {A B} (f : A -> outcome B) (l : list A) : outcome (list B) :=
  match l with
  | [] => Returned []
  | x :: rest =>
      match f x with
      | Thrown e => Thrown e
      | Returned y =>
          match map_outcome f rest with
          | Thrown e => Thrown e
          | Returned ys => Returned (y :: ys)
          end
      end
  end.

Definition formatError (error : jsval) : outcome jsval :=
  if instanceofError error then Returned (get error "message")
  else if truthy error && typeof_object error then
    if truthy (get error "errors") && isArray (get error "errors") then
      match map_outcome sub_message (elements (get error "errors")) with
      | Thrown e => Thrown e
      | Returned messages =>
          Returned (JStr (JsString.join "; " (List.map join_elem messages)))
      end
    else if truthy (get error "message") then Returned (get error "message")
    else Returned (JStr (js_String error))
  else Returned (JStr (js_String error)).

Definition lift {A} (o : outcome A) : M A := fun log => (o, log).

(** The query text of [list_campaigns] around the interpolated limit. *)
Definition list_campaigns_gaql (limit : string) : string :=
  "
            SELECT 
              campaign.id,
              campaign.name,
              campaign.status,
              campaign.advertising_channel_type,
              campaign.start_date,
              campaign.end_date,
              campaign.serving_status
            FROM campaign
            ORDER BY campaign.name
            LIMIT " +:+ limit +:+ "
          ".

(** [s.trim()] on an arbitrary value: only strings have the method. *)
Definition js_trim (v : jsval) : M string :=
  match v with
  | JStr s => ret (JsString.trim s)
  | _ => throw (Error "args.query.trim is not a function")
  end.

Definition not_initialized : string := "Google Ads client not initialized".

Section Handlers.
Context (vendor : Vendor) (JSON_stringify : jsval -> string).

(** The [catch] blocks: an error text built with [formatError]. *)
Definition error_text (pre : string) (error : jsval) : M jsval :=
  let! message := lift (formatError error) in
  ret (text_content (pre +:+ js_String message)).

Definition list_campaigns_tool (this : GoogleAdsMCPServer) (args : jsval) : M jsval :=
  if negb (googleAds this) then throw (Error not_initialized) else
  let customerId := js_or (get args "customerId") (ofOption (customerId (config this))) in
  if negb (truthy customerId) then
    ret (text_content "Error: Customer ID is required. Please provide customerId parameter or set GOOGLE_ADS_CUSTOMER_ID environment variable.")
  else
  try_catch
    (let refresh_token := ofOption (refreshToken (config this)) in
     let limit := js_or (get args "limit") (JNum 50) in
     let! campaigns :=
       await vendor (GA_query customerId refresh_token
                       (list_campaigns_gaql (js_String limit))) in
     ret (text_content (JSON_stringify campaigns)))
    (fun error => error_text "Error listing campaigns: " error).

Definition execute_gaql_query_tool (this : GoogleAdsMCPServer) (args : jsval) : M jsval :=
  if negb (googleAds this) then throw (Error not_initialized) else
  if negb (truthy (get args "query")) then
    ret (text_content "Error: Query parameter is required")
  else
  try_catch
    (let customer_id := get args "customerId" in
     let refresh_token := ofOption (refreshToken (config this)) in
     let! finalQuery := js_trim (get args "query") in
     let limit := js_or (get args "limit") (JNum 100) in
     let finalQuery :=
       if negb (JsString.includes (JsString.toLowerCase finalQuery) "limit")
       then finalQuery +:+ " LIMIT " +:+ js_String limit
       else finalQuery in
     let! results := await vendor (GA_query customer_id refresh_token finalQuery) in
     ret (text_content (JSON_stringify results)))
    (fun error => error_text "Error executing GAQL query: " error).

(** *** [get_campaign_performance] *)

(** [v > 0] for the value of a [length] property; the numeric reading of a
    string is the parameter [positive_numeral]. *)
Definition gt_zero (positive_numeral : string -> bool) (v : jsval) : bool :=
  match v with
  | JNum z => 0 <? z
  | JBool b => b
  | JStr s => positive_numeral s
  | JArr _ => positive_numeral (js_String v)
  | _ => false
  end.

(** [v.length] on a truthy value. *)
Definition length_of (v : jsval) : jsval :=
  match v with
  | JArr l => JNum (Z.of_nat (List.length l))
  | JStr s => JNum (Z.of_nat (String.length s))
  | _ => get v "length"
  end.

(** The [WHERE] clause: the quoted ids when [campaignIds] is a non-empty
    list, the bare keyword otherwise. Only arrays have [map]. *)
Definition where_clause (positive_numeral : string -> bool) (campaignIds : jsval) : M string :=
  if truthy campaignIds && gt_zero positive_numeral (length_of campaignIds) then
    match campaignIds with
    | JArr ids =>
        let campaignIdList :=
          JsString.join "," (List.map (fun id => "'" +:+ js_String id +:+ "'") ids) in
        ret ("WHERE campaign.id IN (" +:+ campaignIdList +:+ ") AND")
    | _ => throw (Error "args.campaignIds.map is not a function")
    end
  else ret "WHERE".

(** The query text of [get_campaign_performance] around the interpolated
    clause and date range. *)
Definition performance_gaql (whereClause dateRange : string) : string :=
  "
            SELECT 
              campaign.id,
              campaign.name,
              campaign.status,
              metrics.impressions,
              metrics.clicks,
              metrics.ctr,
              metrics.average_cpc,
              metrics.cost_micros,
              metrics.conversions,
              metrics.conversion_rate,
              metrics.cost_per_conversion,
              segments.date
            FROM campaign
            " +:+ whereClause +:+ " segments.date DURING " +:+ dateRange +:+ "
            ORDER BY metrics.cost_micros DESC
            LIMIT 50
          ".

Definition get_campaign_performance_tool (positive_numeral : string -> bool)
    (this : GoogleAdsMCPServer) (args : jsval) : M jsval :=
  if negb (googleAds this) then throw (Error not_initialized) else
  try_catch
    (let customer_id := get args "customerId" in
     let refresh_token := ofOption (refreshToken (config this)) in
     let dateRange := js_or (get args "dateRange") (JStr "LAST_7_DAYS") in
     let! whereClause := where_clause positive_numeral (get args "campaignIds") in
     let! performance :=
       await vendor (GA_query customer_id refresh_token
                       (performance_gaql whereClause (js_String dateRange))) in
     ret (text_content (JSON_stringify performance)))
    (fun error => error_text "Error getting campaign performance: " error).

End Handlers.

End GoogleAds.

(** ** [src/index.ts] (BigQuery) *)
Module BigQuery.

Record BigQueryConfig : Type := {
  projectId : option string;
  keyFilename : option string;
  location : string
}.

(** [bigquery] is [true] when [this.bigquery] holds a client and [false]
    when it is [null]. *)
Record BigQueryMCPServer : Type := {
  bigquery : bool;
  config : BigQueryConfig
}.

(** A destructuring default, [{ k = d } = obj]: it applies to [undefined]
    only. *)
Definition or_default (v d : jsval) : jsval :=
  match v with JUndefined => d | _ => v end.

(** [v.length] *)
Definition js_length (v : jsval) : M jsval :=
  match v with
  | JArr l => ret (JNum (Z.of_nat (List.length l)))
  | JStr s => ret (JNum (Z.of_nat (String.length s)))
  | _ => prop v "length"
  end.

(** [v.map(f)]: only arrays have the method. *)
Definition js_map (f : jsval -> M jsval) (v : jsval) : M jsval :=
  match v with
  | JArr l => let! ys := mapM f l in ret (JArr ys)
  | _ => throw (Error "map is not a function")
  end.

Definition string_prop (description : string) : jsval :=
  JObj [("type", JStr "string"); ("description", JStr description)].

Definition typed_prop (type description : string) : jsval :=
  JObj [("type", JStr type); ("description", JStr description)].

Definition tool (name description : string)
    (properties : list (string * jsval)) (required : list string) : jsval :=
  JObj [("name", JStr name);
        ("description", JStr description);
        ("inputSchema",
         JObj [("type", JStr "object");
               ("properties", JObj properties);
               ("required", JArr (List.map JStr required))])].

(** The catalogue literal of the [tools/list] case. *)
Definition tools : list jsval :=
  [ tool "list_datasets" "List all datasets in the BigQuery project" [] [];
    tool "list_tables" "List all tables in a specific dataset"
      [("datasetId", string_prop "The dataset ID to list tables from")]
      ["datasetId"];
    tool "get_table_schema" "Get the schema of a specific table"
      [("datasetId", string_prop "The dataset ID containing the table");
       ("tableId", string_prop "The table ID to get schema for")]
      ["datasetId"; "tableId"];
    tool "execute_query" "Execute a BigQuery SQL query"
      [("query", string_prop "The SQL query to execute");
       ("dryRun",
        typed_prop "boolean" "If true, only validate the query without executing it");
       ("maxResults",
        typed_prop "number" "Maximum number of results to return (default: 100)")]
      ["query"];
    tool "get_query_results" "Get results from a previously executed query job"
      [("jobId", string_prop "The job ID of the query to get results for");
       ("maxResults",
        typed_prop "number" "Maximum number of results to return (default: 100)")]
      ["jobId"] ].

Definition toolNames : list string :=
  List.map (fun t => js_String (get t "name")) tools.

Definition requiredOf (t : jsval) : list string :=
  List.map js_String (elements (get (get t "inputSchema") "required")).

Definition not_initialized : string := "BigQuery client not initialized".

Definition error_message (error : jsval) : jsval :=
  if instanceofError error then get error "message"
  else JStr (js_String error).

(** The options literal handed to [createQueryJob]. *)
Definition query_options (this : BigQueryMCPServer) (query dryRun maxResults : jsval) : jsval :=
  JObj [("query", query);
        ("location", JStr (location (config this)));
        ("dryRun", dryRun);
        ("maxResults", maxResults)].

Section Handlers.
Context (vendor : Vendor) (JSON_stringify : jsval -> string).

(** A method invoked on a value obtained from the SDK: [null] and
    [undefined] have no methods. *)
Definition invoke (receiver : jsval) (c : VendorCall) : M jsval :=
  if isNullish receiver
  then throw (Error ("Cannot read properties of " +:+ js_String receiver))
  else await vendor c.

(** The part of [execute_query] after the destructuring, shared verbatim
    by the registered tool and the HTTP case. In [const [job] = await ...]
    the oracle's value stands for the first component. *)
Definition execute_query_body (this : BigQueryMCPServer) (args : jsval) : M jsval :=
  let query := get args "query" in
  let dryRun := or_default (get args "dryRun") (JBool false) in
  let maxResults := or_default (get args "maxResults") (JNum 100) in
  let options := query_options this query dryRun maxResults in
  let! job := await vendor (BQ_createQueryJob options) in
  if truthy dryRun then
    let! metadata := invoke job (BQ_job_getMetadata job) in
    let! jobId := prop job "id" in
    let! statistics := prop metadata "statistics" in
    ret (text_content (JSON_stringify
      (JObj [("jobId", jobId);
             ("valid", JBool true);
             ("totalBytesProcessed",
              js_or (opt_get (opt_get statistics "query") "totalBytesProcessed")
                    (JStr "0"));
             ("estimatedCost", JStr "Query is valid")])))
  else
    let! rows := invoke job (BQ_job_getQueryResults job (JObj [("maxResults", maxResults)])) in
    let! jobId := prop job "id" in
    let! totalRows := js_length rows in
    ret (text_content (JSON_stringify
      (JObj [("jobId", jobId); ("rows", rows); ("totalRows", totalRows)]))).

(** The handler registered for [execute_query] with [this.server.tool]. *)
Definition execute_query_tool (this : BigQueryMCPServer) (args : jsval) : M jsval :=
  if negb (bigquery this) then throw (Error not_initialized) else
  try_catch
    (execute_query_body this args)
    (fun error =>
       ret (text_content ("Error executing query: " +:+ js_String (error_message error)))).

Definition dataset_entry (dataset : jsval) : M jsval :=
  let! id := prop dataset "id" in
  let metadata := get dataset "metadata" in
  ret (JObj [("id", id);
             ("friendlyName", js_or (opt_get metadata "friendlyName") JNull);
             ("description", js_or (opt_get metadata "description") JNull);
             ("location", js_or (opt_get metadata "location") JNull);
             ("creationTime", js_or (opt_get metadata "creationTime") JNull)]).

Definition table_entry (table : jsval) : M jsval :=
  let! id := prop table "id" in
  let metadata := get table "metadata" in
  ret (JObj [("id", id);
             ("friendlyName", js_or (opt_get metadata "friendlyName") JNull);
             ("description", js_or (opt_get metadata "description") JNull);
             ("type", js_or (opt_get metadata "type") JNull);
             ("numRows", js_or (opt_get metadata "numRows") JNull);
             ("numBytes", js_or (opt_get metadata "numBytes") JNull);
             ("creationTime", js_or (opt_get metadata "creationTime") JNull);
             ("lastModifiedTime", js_or (opt_get metadata "lastModifiedTime") JNull)]).

(** The [switch (toolName)] of the [tools/call] case. *)
Definition call_tool (this : BigQueryMCPServer) (toolName toolArgs : jsval) : M jsval :=
  if is_str toolName "list_datasets" then
    if negb (bigquery this) then throw (Error not_initialized) else
    let! datasets := await vendor BQ_getDatasets in
    let! datasetList := js_map dataset_entry datasets in
    ret (text_content (JSON_stringify datasetList))
  else if is_str toolName "list_tables" then
    if negb (bigquery this) then throw (Error not_initialized) else
    let datasetId := get toolArgs "datasetId" in
    let! tables := await vendor (BQ_getTables datasetId) in
    let! tableList := js_map table_entry tables in
    ret (text_content (JSON_stringify tableList))
  else if is_str toolName "get_table_schema" then
    if negb (bigquery this) then throw (Error not_initialized) else
    let schemaDatasetId := get toolArgs "datasetId" in
    let tableId := get toolArgs "tableId" in
    let! metadata := await vendor (BQ_table_getMetadata schemaDatasetId tableId) in
    let! schema := prop metadata "schema" in
    ret (text_content (JSON_stringify
      (JObj [("tableId", tableId);
             ("datasetId", schemaDatasetId);
             ("schema", schema);
             ("numRows", get metadata "numRows");
             ("numBytes", get metadata "numBytes");
             ("creationTime", get metadata "creationTime");
             ("lastModifiedTime", get metadata "lastModifiedTime");
             ("friendlyName", get metadata "friendlyName");
             ("description", get metadata "description")])))
  else if is_str toolName "execute_query" then
    if negb (bigquery this) then throw (Error not_initialized) else
    execute_query_body this toolArgs
  else if is_str toolName "get_query_results" then
    if negb (bigquery this) then throw (Error not_initialized) else
    let jobId := get toolArgs "jobId" in
    let maxResultsForJob := or_default (get toolArgs "maxResults") (JNum 100) in
    let jobInstance := JObj [("id", jobId)] in
    let! rows :=
      await vendor (BQ_job_getQueryResults jobInstance
                      (JObj [("maxResults", maxResultsForJob)])) in
    let! totalRows := js_length rows in
    ret (text_content (JSON_stringify
      (JObj [("jobId", jobId); ("rows", rows); ("totalRows", totalRows)])))
  else throw (Error ("Unknown tool: " +:+ js_String toolName)).

(** The [tools/call] case of the [/mcp] route. *)
Definition tools_call (this : BigQueryMCPServer) (request : jsval) : M jsval :=
  let toolName := opt_get (get request "params") "name" in
  let toolArgs := js_or (opt_get (get request "params") "arguments") (JObj []) in
  try_catch
    (let! toolResult := call_tool this toolName toolArgs in
     ret (JObj [("jsonrpc", JStr "2.0");
                ("result", toolResult);
                ("id", get request "id")]))
    (fun error =>
       let errorMessage := error_message error in
       ret (JObj [("jsonrpc", JStr "2.0");
                  ("error", JObj [("code", JNum (-32000));
                                  ("message", errorMessage)]);
                  ("id", get request "id")])).

(** The [app.post("/mcp", ...)] callback of [runHTTP]. *)
Definition mcp_post (this : BigQueryMCPServer) (body : jsval) : M BaseServer.HttpReply :=
  try_catch
    (let request := body in
     let! method := prop request "method" in
     let! response :=
       if is_str method "initialize" then
         ret (JObj [("jsonrpc", JStr "2.0");
                    ("result",
                     JObj [("protocolVersion", JStr "2024-11-05");
                           ("capabilities",
                            JObj [("tools", JObj [("listChanged", JBool true)])]);
                           ("serverInfo",
                            JObj [("name", JStr "bigquery-mcp-server");
                                  ("version", JStr "1.0.0")])]);
                    ("id", get request "id")])
       else if is_str method "tools/list" then
         ret (JObj [("jsonrpc", JStr "2.0");
                    ("result", JObj [("tools", JArr tools)]);
                    ("id", get request "id")])
       else if is_str method "tools/call" then tools_call this request
       else
         ret (JObj [("jsonrpc", JStr "2.0");
                    ("error", JObj [("code", JNum (-32601));
                                    ("message", JStr "Method not found")]);
                    ("id", get request "id")]) in
     ret (BaseServer.EventStream response))
    (fun error => ret (BaseServer.InternalServerError (BaseServer.error_details error))).

(** *** The other handlers registered with [this.server.tool] *)

Definition list_datasets_tool (this : BigQueryMCPServer) : M jsval :=
  if negb (bigquery this) then
    ret (text_content "Error: BigQuery client not initialized")
  else
  try_catch
    (let! datasets := await vendor BQ_getDatasets in
     let! datasetList := js_map dataset_entry datasets in
     ret (text_content (JSON_stringify datasetList)))
    (fun error =>
       ret (text_content ("Error listing datasets: " +:+ js_String (error_message error)))).

Definition list_tables_tool (this : BigQueryMCPServer) (args : jsval) : M jsval :=
  if negb (bigquery this) then throw (Error not_initialized) else
  let datasetId := get args "datasetId" in
  try_catch
    (let! tables := await vendor (BQ_getTables datasetId) in
     let! tableList := js_map table_entry tables in
     ret (text_content (JSON_stringify tableList)))
    (fun error =>
       ret (text_content (("Error listing tables in dataset " +:+ js_String datasetId
                           +:+ ": ") +:+ js_String (error_message error)))).

Definition get_table_schema_tool (this : BigQueryMCPServer) (args : jsval) : M jsval :=
  if negb (bigquery this) then throw (Error not_initialized) else
  let datasetId := get args "datasetId" in
  let tableId := get args "tableId" in
  try_catch
    (let! metadata := await vendor (BQ_table_getMetadata datasetId tableId) in
     let! schema := prop metadata "schema" in
     ret (text_content (JSON_stringify
       (JObj [("tableId", tableId);
              ("datasetId", datasetId);
              ("schema", schema);
              ("numRows", get metadata "numRows");
              ("numBytes", get metadata "numBytes");
              ("creationTime", get metadata "creationTime");
              ("lastModifiedTime", get metadata "lastModifiedTime");
              ("friendlyName", get metadata "friendlyName");
              ("description", get metadata "description")]))))
    (fun error =>
       ret (text_content (("Error getting schema for table " +:+ js_String datasetId
                           +:+ "." +:+ js_String tableId +:+ ": ")
                          +:+ js_String (error_message error)))).

Definition get_query_results_tool (this : BigQueryMCPServer) (args : jsval) : M jsval :=
  if negb (bigquery this) then throw (Error not_initialized) else
  let jobId := get args "jobId" in
  let maxResults := or_default (get args "maxResults") (JNum 100) in
  try_catch
    (let job := JObj [("id", jobId)] in
     let! rows :=
       await vendor (BQ_job_getQueryResults job (JObj [("maxResults", maxResults)])) in
     let! totalRows := js_length rows in
     ret (text_content (JSON_stringify
       (JObj [("jobId", jobId); ("rows", rows); ("totalRows", totalRows)]))))
    (fun error =>
       ret (text_content (("Error getting query results for job " +:+ js_String jobId
                           +:+ ": ") +:+ js_String (error_message error)))).

End Handlers.

(** *** Transport selection of the BigQuery server

    Its own [getTransportMode] hands the value of the flag back as it is;
    [getPort] has the text of the base class. *)
Definition getTransportMode (argv : list string) : jsval :=
  let args := skipn 2 argv in
  let transportArg :=
    ofOption (List.find (fun arg => JsString.startsWith arg "--transport") args) in
  if truthy transportArg then
    if JsString.includes (js_String transportArg) "=" then
      BaseServer.at_index (JsString.split "=" (js_String transportArg)) 1
    else
      let index := BaseServer.indexOf (js_String transportArg) args in
      js_or (BaseServer.at_index args (index + 1)) (JStr "stdio")
  else if existsb (fun arg => JsString.startsWith arg "--port"
                              || String.eqb arg "http") args
  then JStr "http"
  else JStr "stdio".

Definition run (parseInt : jsval -> option Z) (argv : list string) : BaseServer.Started :=
  let transport := getTransportMode argv in
  let port := BaseServer.getPort parseInt argv in
  if is_str transport "stdio" then BaseServer.RunStdio
  else if is_str transport "http" then BaseServer.RunHTTP port
  else BaseServer.ExitUnknownTransport (js_String transport).

End BigQuery.

(** ** [packages/shared/src/auth/google-auth.ts] and [initializeBigQuery]

    The file system and [JSON.parse] are parameters: each resolves with a
    value or throws. *)
Module GoogleAuth.

(** Optional fields hold [undefined] when unset. *)
Record GoogleAuthConfig : Type := {
  projectId : jsval;
  keyFilename : jsval;
  location : jsval
}.

(** The configuration assigned by the constructor. *)
Definition initial : GoogleAuthConfig :=
  {| projectId := JUndefined; keyFilename := JUndefined; location := JStr "US" |}.

Definition newline : string := String (ascii_of_N 10) EmptyString.

Definition project_required : string :=
  "Project ID is required. Either:" +:+ newline
  +:+ "1. Set GOOGLE_APPLICATION_CREDENTIALS environment variable, or" +:+ newline
  +:+ "2. Set GOOGLE_CLOUD_PROJECT or BQ_PROJECT_ID environment variable".

(** [process.env.NAME] as a value. *)
Definition env_value (env : Env) (name : string) : jsval := ofOption (getenv env name).

(** [GOOGLE_CLOUD_PROJECT || BQ_PROJECT_ID || GCLOUD_PROJECT] *)
Definition project_from_env (env : Env) : jsval :=
  js_or (js_or (env_value env "GOOGLE_CLOUD_PROJECT") (env_value env "BQ_PROJECT_ID"))
        (env_value env "GCLOUD_PROJECT").

Section Files.
Context (readFileSync : string -> outcome string) (JSON_parse : string -> outcome jsval).

(** [JSON.parse(readFileSync(path, "utf8")).project_id], the body of the
    inner [try]. *)
Definition read_project_id (path : string) : outcome jsval :=
  match readFileSync path with
  | Thrown error => Thrown error
  | Returned text =>
      match JSON_parse text with
      | Thrown error => Thrown error
      | Returned serviceAccount =>
          if isNullish serviceAccount
          then Thrown (Error ("Cannot read properties of " +:+ js_String serviceAccount))
          else Returned (get serviceAccount "project_id")
      end
  end.

(** [initializeFromEnvironment] from the configuration the manager holds:
    what it returns or throws, and the configuration it leaves in the
    manager. *)
Definition initializeFromEnvironment (env : Env) (config : GoogleAuthConfig)
    : outcome GoogleAuthConfig * GoogleAuthConfig :=
  let serviceAccountPath := env_value env "GOOGLE_APPLICATION_CREDENTIALS" in
  let config :=
    if truthy serviceAccountPath then
      match read_project_id (js_String serviceAccountPath) with
      | Returned project_id =>
          {| projectId := project_id;
             keyFilename := serviceAccountPath;
             location := location config |}
      | Thrown _ => config
      end
    else config in
  let config :=
    if negb (truthy (projectId config)) then
      {| projectId := project_from_env env;
         keyFilename := keyFilename config;
         location := location config |}
    else config in
  let config :=
    {| projectId := projectId config;
       keyFilename := keyFilename config;
       location :=
         js_or (js_or (env_value env "BQ_LOCATION") (env_value env "GOOGLE_CLOUD_LOCATION"))
               (JStr "US") |} in
  if negb (truthy (projectId config))
  then (Thrown (Error project_required), config)
  else (Returned config, config).

End Files.

(** [createClientOptions] *)
Definition createClientOptions (config : GoogleAuthConfig) : jsval :=
  let options := JObj [("projectId", projectId config)] in
  let options :=
    if truthy (keyFilename config)
    then set_field options "keyFilename" (keyFilename config)
    else options in
  if truthy (location config)
  then set_field options "location" (location config)
  else options.

(** [validateAuth] *)
Definition validateAuth (env : Env) (config : GoogleAuthConfig) : bool :=
  truthy (projectId config)
  && (truthy (keyFilename config)
      || truthy (env_value env "GOOGLE_APPLICATION_CREDENTIALS")).

End GoogleAuth.

(** ** [initializeBigQuery] of [src/index.ts] *)
Module BigQueryInit.


Section Files.
Context (readFileSync : string -> outcome string) (JSON_parse : string -> outcome jsval).


End Files.

End BigQueryInit.

(** ** The stdio-only BigQuery server of [src/index.ts] (second program of
    the file, built on [Server.setRequestHandler]) *)
Module BigQueryLegacy.

Record Config : Type := {
  projectId : string;
  keyFilename : jsval;
  location : string
}.

(** [clientProject] is [this.bigquery.projectId]. *)
Record BigQueryMCPServer : Type := {
  config : Config;
  clientProject : jsval
}.

Definition newline : string := String (ascii_of_N 10) EmptyString.

(** The [name] and [required] entries of the catalogue returned for
    [ListToolsRequestSchema]. *)
Definition required : list (string * list string) :=
  [("list_datasets", []);
   ("list_tables", ["datasetId"]);
   ("get_table_schema", ["datasetId"; "tableId"]);
   ("execute_query", ["query"]);
   ("get_query_results", ["jobId"])].

(** The reply of the [catch] of the call handler. *)
Definition error_reply (error : jsval) : jsval :=
  let errorMessage :=
    if instanceofError error then get error "message" else JStr (js_String error) in
  JObj [("content",
         JArr [JObj [("type", JStr "text");
                     ("text", JStr ("Error: " +:+ js_String errorMessage))]]);
        ("isError", JBool true)].

(** [this.config.keyFilename || "default"] *)
Definition credentials (this : BigQueryMCPServer) : string :=
  js_String (js_or (keyFilename (config this)) (JStr "default")).

Section Handlers.
Context (vendor : Vendor) (JSON_stringify : jsval -> string).

Definition invoke (receiver : jsval) (c : VendorCall) : M jsval :=
  if isNullish receiver
  then throw (Error ("Cannot read properties of " +:+ js_String receiver))
  else await vendor c.

Definition dataset_entry (dataset : jsval) : M jsval :=
  let! id := prop dataset "id" in
  let metadata := get dataset "metadata" in
  ret (JObj [("id", id);
             ("friendlyName", opt_get metadata "friendlyName");
             ("description", opt_get metadata "description");
             ("location", opt_get metadata "location");
             ("creationTime", opt_get metadata "creationTime");
             ("lastModifiedTime", opt_get metadata "lastModifiedTime")]).

Definition table_entry (table : jsval) : M jsval :=
  let! id := prop table "id" in
  let metadata := get table "metadata" in
  ret (JObj [("id", id);
             ("friendlyName", opt_get metadata "friendlyName");
             ("description", opt_get metadata "description");
             ("type", opt_get metadata "type");
             ("creationTime", opt_get metadata "creationTime");
             ("lastModifiedTime", opt_get metadata "lastModifiedTime");
             ("numRows", opt_get metadata "numRows");
             ("numBytes", opt_get metadata "numBytes")]).

Definition listDatasets (this : BigQueryMCPServer) : M jsval :=
  try_catch
    (let! datasets := await vendor BQ_getDatasets in
     let! retrieved := BigQuery.js_length datasets in
     let! datasetList := BigQuery.js_map dataset_entry datasets in
     let! found := BigQuery.js_length datasetList in
     ret (text_content
       ("Project: " +:+ projectId (config this) +:+ newline
        +:+ "BigQuery Client Project: " +:+ js_String (clientProject this) +:+ newline
        +:+ "Credentials: " +:+ credentials this +:+ newline +:+ newline
        +:+ "Found " +:+ js_String found +:+ " datasets:" +:+ newline +:+ newline
        +:+ JSON_stringify datasetList)))
    (fun error =>
       ret (text_content
         ("Error listing datasets for project " +:+ projectId (config this)
          +:+ " (BigQuery client: " +:+ js_String (clientProject this) +:+ "):" +:+ newline
          +:+ js_String (BigQuery.error_message error) +:+ newline +:+ newline
          +:+ "Credentials: " +:+ credentials this))).

Definition listTables (this : BigQueryMCPServer) (datasetId : jsval) : M jsval :=
  if negb (truthy datasetId) then throw (Error "datasetId is required") else
  let! tables := await vendor (BQ_getTables datasetId) in
  let! tableList := BigQuery.js_map table_entry tables in
  let! found := BigQuery.js_length tableList in
  ret (text_content
    ("Found " +:+ js_String found +:+ " tables in dataset '" +:+ js_String datasetId
     +:+ "':" +:+ newline +:+ newline +:+ JSON_stringify tableList)).

Definition getTableSchema (this : BigQueryMCPServer) (datasetId tableId : jsval) : M jsval :=
  if negb (truthy datasetId) then throw (Error "datasetId is required") else
  if negb (truthy tableId) then throw (Error "tableId is required") else
  let! metadata := await vendor (BQ_table_getMetadata datasetId tableId) in
  let! id := prop metadata "id" in
  let schema :=
    JObj [("tableId", id);
          ("friendlyName", get metadata "friendlyName");
          ("description", get metadata "description");
          ("type", get metadata "type");
          ("schema", get metadata "schema");
          ("numRows", get metadata "numRows");
          ("numBytes", get metadata "numBytes");
          ("creationTime", get metadata "creationTime");
          ("lastModifiedTime", get metadata "lastModifiedTime");
          ("location", get metadata "location")] in
  ret (text_content
    ("Schema for table '" +:+ js_String datasetId +:+ "." +:+ js_String tableId
     +:+ "':" +:+ newline +:+ newline +:+ JSON_stringify schema)).

(** [job.metadata?.statistics?.query?.k] *)
Definition query_statistic (job : jsval) (k : string) : jsval :=
  opt_get (opt_get (opt_get (get job "metadata") "statistics") "query") k.

Definition executeQuery (this : BigQueryMCPServer) (query maxResults dryRun : jsval)
    : M jsval :=
  let maxResults := BigQuery.or_default maxResults (JNum 100) in
  let dryRun := BigQuery.or_default dryRun (JBool false) in
  if negb (truthy query) then throw (Error "query is required") else
  let options :=
    JObj [("query", query);
          ("location", JStr (location (config this)));
          ("maxResults", maxResults);
          ("dryRun", dryRun)] in
  if truthy dryRun then
    let! job := await vendor (BQ_createQueryJob options) in
    let! metadata := invoke job (BQ_job_getMetadata job) in
    let! statistics := prop metadata "statistics" in
    ret (text_content
      ("Query validation successful. Estimated bytes processed: "
       +:+ js_String (js_or (opt_get (opt_get statistics "query") "totalBytesProcessed")
                            (JStr "unknown"))))
  else
    let! job := await vendor (BQ_createQueryJob options) in
    let! rows := invoke job (BQ_job_getQueryResults job (JObj [("maxResults", maxResults)])) in
    let! rowCount := BigQuery.js_length rows in
    let result :=
      JObj [("jobId", get job "id");
            ("totalRows", query_statistic job "totalBytesProcessed");
            ("bytesProcessed", query_statistic job "totalBytesProcessed");
            ("cacheHit", query_statistic job "cacheHit");
            ("rows", rows);
            ("rowCount", rowCount)] in
    ret (text_content
      ("Query executed successfully. Job ID: " +:+ js_String (get job "id")
       +:+ newline +:+ newline +:+ "Results (" +:+ js_String rowCount +:+ " rows):"
       +:+ newline +:+ newline +:+ JSON_stringify result)).

Definition getQueryResults (this : BigQueryMCPServer) (jobId maxResults : jsval) : M jsval :=
  let maxResults := BigQuery.or_default maxResults (JNum 100) in
  if negb (truthy jobId) then throw (Error "jobId is required") else
  let job := JObj [("id", jobId)] in
  let! rows := await vendor (BQ_job_getQueryResults job (JObj [("maxResults", maxResults)])) in
  let! metadata := await vendor (BQ_job_getMetadata job) in
  let! status := prop metadata "status" in
  let statistic k := opt_get (opt_get (get metadata "statistics") "query") k in
  let! rowCount := BigQuery.js_length rows in
  let result :=
    JObj [("jobId", jobId);
          ("state", opt_get status "state");
          ("totalRows", statistic "totalBytesProcessed");
          ("bytesProcessed", statistic "totalBytesProcessed");
          ("cacheHit", statistic "cacheHit");
          ("rows", rows);
          ("rowCount", rowCount)] in
  ret (text_content
    ("Query results for job " +:+ js_String jobId +:+ " (" +:+ js_String rowCount
     +:+ " rows):" +:+ newline +:+ newline +:+ JSON_stringify result)).

(** The [switch (name)] of the call handler. *)
Definition dispatch (this : BigQueryMCPServer) (name args : jsval) : M jsval :=
  if is_str name "list_datasets" then listDatasets this
  else if is_str name "list_tables" then listTables this (opt_get args "datasetId")
  else if is_str name "get_table_schema" then
    getTableSchema this (opt_get args "datasetId") (opt_get args "tableId")
  else if is_str name "execute_query" then
    executeQuery this (opt_get args "query")
      (js_or (opt_get args "maxResults") (JNum 100))
      (js_or (opt_get args "dryRun") (JBool false))
  else if is_str name "get_query_results" then
    getQueryResults this (opt_get args "jobId")
      (js_or (opt_get args "maxResults") (JNum 100))
  else throw (Error ("Unknown tool: " +:+ js_String name)).

(** The handler set for [CallToolRequestSchema]; the destructuring of
    [request.params] comes before the [try]. *)
Definition callTool (this : BigQueryMCPServer) (request : jsval) : M jsval :=
  let! params := prop request "params" in
  if isNullish params
  then throw (Error ("Cannot destructure " +:+ js_String params))
  else
    let name := get params "name" in
    let args := get params "arguments" in
    try_catch (dispatch this name args) (fun error => ret (error_reply error)).

End Handlers.

End BigQueryLegacy.

(** ** Vocabulary of the properties *)

(** The two response shapes of JSON-RPC. *)
Definition result_envelope (result id : jsval) : jsval :=
  JObj [("jsonrpc", JStr "2.0"); ("result", result); ("id", id)].

Definition error_envelope (code : Z) (message id : jsval) : jsval :=
  JObj [("jsonrpc", JStr "2.0");
        ("error", JObj [("code", JNum code); ("message", message)]);
        ("id", id)].

(** The response object has the field, with a value other than
    [undefined] (so that [JSON.stringify] keeps it). *)
Definition carries (response : jsval) (k : string) : bool :=
  has_field response k
  && match get response k with JUndefined => false | _ => true end.

(** A response carries exactly one of [result] and [error]. *)
Definition exactly_one_of_result_error (response : jsval) : Prop :=
  xorb (carries response "result") (carries response "error") = true.

(** The tool name and arguments a dispatcher extracts from a request. *)
Definition toolNameOf (request : jsval) : jsval :=
  opt_get (get request "params") "name".

Definition toolArgsOf (request : jsval) : jsval :=
  js_or (opt_get (get request "params") "arguments") (JObj []).

(** The reply is one event whose envelope echoes the request id and has
    exactly one of [result] and [error]. *)
Definition correlated_reply (request : jsval) (r : outcome BaseServer.HttpReply) : Prop :=
  exists response,
    r = Returned (BaseServer.EventStream response)
    /\ get response "id" = get request "id"
    /\ exactly_one_of_result_error response.

(** The result bound a vendor invocation carries, when it carries one. *)
Definition bound_of (c : VendorCall) : option jsval :=
  match c with
  | FB_getCampaigns _ _ p | FB_getAdSets _ _ p | FB_getAds _ _ p =>
      Some (get p "limit")
  | BQ_createQueryJob o | BQ_job_getQueryResults _ o =>
      Some (get o "maxResults")
  | _ => None
  end.

(** The account or customer a call falls back to when the caller names
    none. *)
Definition meta_account (this : MetaAds.MetaAdsMCPServer) (args : jsval) : jsval :=
  js_or (get args "accountId") (ofOption (MetaAds.accountId (MetaAds.adsConfig this))).

Definition google_customer (this : GoogleAds.GoogleAdsMCPServer) (args : jsval) : jsval :=
  js_or (get args "customerId") (ofOption (GoogleAds.customerId (GoogleAds.config this))).

(** A [tools/call] request as it arrives on the [/mcp] route. *)
Definition tools_call_request (name : string) (arguments id : jsval) : jsval :=
  JObj [("jsonrpc", JStr "2.0");
        ("method", JStr "tools/call");
        ("params", JObj [("name", JStr name); ("arguments", arguments)]);
        ("id", id)].

(** The query text ends in the clause [LIMIT n] followed by the closing
    line break and indentation of the template. *)
Definition ends_with_limit (gaql n : string) : Prop :=
  exists before,
    gaql = before +:+ "LIMIT " +:+ n +:+ GoogleAds.newline +:+ "          ".

(** Every further invocation either carries no bound or carries [bound]. *)
Definition bounded_by (bound : jsval) (calls : list VendorCall) : Prop :=
  Forall (fun c => bound_of c = None \/ bound_of c = Some bound) calls.

(** [m] makes exactly one vendor invocation, and it carries the bound
    [d]. *)
Definition forwards_bound (m : M jsval) (log : list VendorCall) (d : jsval) : Prop :=
  exists c, snd (m log) = (log ++ [c])%list /\ bound_of c = Some d.

(** [m] makes exactly one vendor invocation, a query whose text satisfies
    [P]. *)
Definition forwards_gaql (m : M jsval) (log : list VendorCall) (P : string -> Prop) : Prop :=
  exists customer_id refresh_token gaql,
    snd (m log) = (log ++ [GA_query customer_id refresh_token gaql])%list /\ P gaql.

(** [args'] is [args] with the [limit] argument left out. *)
Definition limit_omitted_from (args args' : jsval) : Prop :=
  get args' "limit" = JUndefined
  /\ forall k, k <> "limit" -> get args' k = get args k.

(** A [datePreset] argument is supplied: it holds one of the declared
    presets. *)
Definition preset_supplied (args : jsval) (preset : string) : Prop :=
  get args "datePreset" = JStr preset /\ In preset MetaAds.datePresets.

(** A [timeRange] argument is supplied: it holds an object. *)
Definition range_supplied (args : jsval) (range : jsval) : Prop :=
  get args "timeRange" = range /\ exists fields, range = JObj fields.

(** [m] returns normally after exactly one [getInsights] invocation, whose
    date parameters are [params]. *)
Definition insights_requested_with (m : M jsval) (log : list VendorCall) (params : jsval) : Prop :=
  exists cls id fields response,
    m log = (Returned response, (log ++ [FB_getInsights cls id fields params])%list).

(** The object types [get_insights] accepts. *)
Definition objectTypes : list jsval := [JStr "campaign"; JStr "adset"; JStr "ad"].

(** The text names a limit: it contains "limit" in some letter case. *)
Definition contains_limit (text : string) : bool :=
  JsString.includes (JsString.toLowerCase text) "limit".

(** A vendor stub that resolves every invocation with an empty array, and
    a serializer stub. *)
Definition stub_vendor : Vendor := fun _ _ => Returned (JArr []).

Definition stub_stringify : jsval -> string := fun _ => "[]".

(** The message [formatError] takes from one sub-error. *)
Definition sub_error_text (e : jsval) : string :=
  if truthy (get e "message") then js_String (get e "message")
  else "Unknown error".

(** A plain object (not an [Error]) whose [errors] property is an array. *)
Definition carries_errors (error : jsval) (errors : list jsval) : Prop :=
  (exists fields, error = JObj fields) /\ get error "errors" = JArr errors.

(** A required field is missing when its environment variable is absent. *)
Definition google_missing (env : Env) (field : string) : Prop :=
  In field GoogleAds.requiredFields
  /\ getenv env (GoogleAds.env_var_name field) = None.

Definition meta_missing (env : Env) (field : string) : Prop :=
  In field MetaAds.requiredFields
  /\ getenv env (MetaAds.env_var_name field) = None.

(** No argument of the list starts with "--transport". *)
Definition no_transport_flag (args : list string) : Prop :=
  Forall (fun arg => JsString.startsWith arg "--transport" = false) args.

(** No character of the text is white space. *)
Fixpoint no_whitespace (n : string) : bool :=
  match n with
  | EmptyString => true
  | String a n' => negb (JsString.isWhiteSpace a) && no_whitespace n'
  end.

(** Sample servers and requests on which the properties are run. *)
Definition sample_meta : MetaAds.MetaAdsMCPServer :=
  {| MetaAds.api := true;
     MetaAds.adsConfig :=
       {| MetaAds.accessToken := Some "token";
          MetaAds.appId := Some "app";
          MetaAds.appSecret := Some "secret";
          MetaAds.accountId := Some "1001" |} |}.

Definition sample_google : GoogleAds.GoogleAdsMCPServer :=
  {| GoogleAds.googleAds := true;
     GoogleAds.config :=
       {| GoogleAds.customerId := Some "1234567890";
          GoogleAds.developerToken := Some "dev";
          GoogleAds.clientId := Some "client";
          GoogleAds.clientSecret := Some "secret";
          GoogleAds.refreshToken := Some "refresh" |} |}.

Definition sample_bigquery : BigQuery.BigQueryMCPServer :=
  {| BigQuery.bigquery := true;
     BigQuery.config :=
       {| BigQuery.projectId := Some "project";
          BigQuery.keyFilename := None;
          BigQuery.location := "US" |} |}.

Definition sample_gaql_args (limit : list (string * jsval)) : jsval :=
  JObj ([("customerId", JStr "1234567890");
         ("query", JStr "SELECT campaign.id FROM campaign")] ++ limit)%list.

Definition sample_insights_args : jsval :=
  JObj [("objectId", JStr "42"); ("objectType", JStr "campaign")].

Definition sample_sub_errors : list jsval :=
  [JObj [("message", JStr "Invalid customer")]; JObj [("code", JNum 3)]].

(** The [required] list that the catalogue declares for the tool called
    [name]. *)
Definition declared_required (tools : list jsval) (requiredOf : jsval -> list string)
    (name : string) : list string :=
  match List.find (fun t => is_str (get t "name") name) tools with
  | Some t => requiredOf t
  | None => []
  end.

(** An environment that sets one Google Ads variable and no Meta Ads
    variable. *)
Definition sample_env : Env := <["GOOGLE_ADS_CLIENT_ID" := "client"]> ∅.

(** ** Vocabulary of the further properties *)

(** No argument of the list starts with "--port". *)
Definition no_port_flag (args : list string) : Prop :=
  Forall (fun arg => JsString.startsWith arg "--port" = false) args.

(** The argument selects HTTP by itself: it starts with "--port" or is the
    word "http". *)
Definition http_hint (arg : string) : Prop :=
  JsString.startsWith arg "--port" = true \/ arg = "http".

(** A [parseInt] that reads the numerals "8080" and "0". *)
Definition sample_parseInt (v : jsval) : option Z :=
  if is_str v "8080" then Some 8080
  else if is_str v "0" then Some 0
  else None.

(** A file system holding one service-account file, and a parser for its
    text. *)
Definition sample_readFileSync (path : string) : outcome string :=
  if String.eqb path "/keys/sa.json" then Returned "{sa}"
  else Thrown (Error "ENOENT: no such file or directory").

Definition sample_JSON_parse (text : string) : outcome jsval :=
  if String.eqb text "{sa}"
  then Returned (JObj [("type", JStr "service_account");
                       ("project_id", JStr "file-project")])
  else Thrown (Error "Unexpected token").

Definition credentials_env : Env :=
  <["GOOGLE_APPLICATION_CREDENTIALS" := "/keys/sa.json"]>
    (<["GOOGLE_CLOUD_PROJECT" := "env-project"]> (<["BQ_LOCATION" := "EU"]> ∅)).

Definition broken_credentials_env : Env :=
  <["GOOGLE_APPLICATION_CREDENTIALS" := "/keys/missing.json"]>
    (<["BQ_PROJECT_ID" := "bq-project"]> ∅).

(** The project id comes from the file at [path]. *)
Definition project_in_file (readFileSync : string -> outcome string)
    (JSON_parse : string -> outcome jsval) (path : string) (project : jsval) : Prop :=
  GoogleAuth.read_project_id readFileSync JSON_parse path = Returned project
  /\ truthy project = true.


(** [BQ_LOCATION || GOOGLE_CLOUD_LOCATION || "US"] *)
Definition location_from_env (env : Env) : jsval :=
  js_or (js_or (GoogleAuth.env_value env "BQ_LOCATION")
               (GoogleAuth.env_value env "GOOGLE_CLOUD_LOCATION"))
        (JStr "US").

(** The message taken from a caught value:
    [error instanceof Error ? error.message : String(error)]. *)
Definition caught_message (error : jsval) : jsval :=
  if instanceofError error then get error "message" else JStr (js_String error).

(** A registered handler and the HTTP case of the same tool agree: from
    the same log they make the same vendor invocations, and either both
    deliver the same content, or the handler returns the text
    "<doing><message>" while the HTTP case returns the error -32000 with
    that message. *)
Definition transports_agree (tool http : M jsval) (doing : string) (id : jsval)
    (log : list VendorCall) : Prop :=
  exists log',
    (exists text,
        tool log = (Returned (text_content text), log')
        /\ http log = (Returned (result_envelope (text_content text) id), log'))
    \/ (exists error,
        tool log
        = (Returned (text_content (doing +:+ js_String (caught_message error))), log')
        /\ http log
           = (Returned (error_envelope (-32000) (caught_message error) id), log')).

(** The parameter object of a Meta Ads list invocation. *)
Definition params_of (c : VendorCall) : jsval :=
  match c with
  | FB_getCampaigns _ _ p | FB_getAdSets _ _ p | FB_getAds _ _ p => p
  | FB_getInsights _ _ _ p => p
  | _ => JUndefined
  end.

(** [m] makes exactly one vendor invocation, whose parameters satisfy
    [P]. *)
Definition forwards_params (m : M jsval) (log : list VendorCall) (P : jsval -> Prop) : Prop :=
  exists c, snd (m log) = (log ++ [c])%list /\ P (params_of c).

(** The filter object built for a status. *)
Definition status_filter (status : jsval) : jsval :=
  JArr [JObj [("field", JStr "status"); ("operator", JStr "IN");
              ("value", JArr [status])]].

(** [m] returns normally after exactly one [getInsights] invocation that
    asks for [fields]. *)
Definition insights_fields_requested (m : M jsval) (log : list VendorCall) (fields : jsval)
    : Prop :=
  exists cls id params response,
    m log = (Returned response, (log ++ [FB_getInsights cls id fields params])%list).

(** An environment with the three required Meta Ads variables and a
    default account. *)
Definition meta_env : Env :=
  <["META_ADS_ACCESS_TOKEN" := "token"]>
    (<["META_ADS_APP_ID" := "app"]>
       (<["META_ADS_APP_SECRET" := "secret"]>
          (<["META_ADS_ACCOUNT_ID" := "1001"]> ∅))).

(** The invocation fetches result rows. *)
Definition fetches_rows (c : VendorCall) : bool :=
  match c with BQ_job_getQueryResults _ _ => true | _ => false end.

(** The invocation reads job metadata. *)
Definition reads_job_metadata (c : VendorCall) : bool :=
  match c with BQ_job_getMetadata _ => true | _ => false end.

(** The invocations [m] adds to [log] are [calls]. *)
Definition adds_calls {A} (m : M A) (log calls : list VendorCall) : Prop :=
  snd (m log) = (log ++ calls)%list.

(** The keys of a dataset entry that are filled from the metadata. *)
Definition dataset_metadata_keys : list string :=
  ["friendlyName"; "description"; "location"; "creationTime"].

(** The entry listed for a dataset: its id, and for each metadata key the
    value when it is truthy and [null] otherwise. *)
Definition lists_dataset (dataset entry : jsval) : Prop :=
  get entry "id" = get dataset "id"
  /\ forall k, In k dataset_metadata_keys ->
       get entry k = js_or (opt_get (get dataset "metadata") k) JNull
       /\ get entry k <> JUndefined.

(** A vendor that resolves [getDatasets] with two datasets. *)
Definition two_datasets : list jsval :=
  [JObj [("id", JStr "sales");
         ("metadata", JObj [("friendlyName", JStr "Sales"); ("location", JStr "EU")])];
   JObj [("id", JStr "logs")]].

Definition datasets_vendor : Vendor := fun _ _ => Returned (JArr two_datasets).

(** Every character of the text is white space. *)
Fixpoint blank (s : string) : bool :=
  match s with
  | EmptyString => true
  | String c s' => JsString.isWhiteSpace c && blank s'
  end.

(** An environment with the five required Google Ads variables. *)
Definition google_env : Env :=
  <["GOOGLE_ADS_CUSTOMER_ID" := "1234567890"]>
    (<["GOOGLE_ADS_DEVELOPER_TOKEN" := "dev"]>
       (<["GOOGLE_ADS_CLIENT_ID" := "client"]>
          (<["GOOGLE_ADS_CLIENT_SECRET" := "secret"]>
             (<["GOOGLE_ADS_REFRESH_TOKEN" := "refresh"]> ∅)))).

(** One of the sub-errors is [null] or [undefined]. *)
Definition null_sub_error (errors : list jsval) : Prop :=
  Exists (fun e => isNullish e = true) errors.

(** A campaign id between single quotes, as it stands in the [IN] list. *)
Definition quoted (id : jsval) : string := "'" +:+ js_String id +:+ "'".

(** A vendor that rejects every invocation with [error]. *)
Definition rejecting_vendor (error : jsval) : Vendor := fun _ _ => Thrown error.

(** A numeric reading of strings that is never positive. *)
Definition sample_positive_numeral : string -> bool := fun _ => false.

(** The vendor rejects the invocation that follows [log] with [error]. *)
Definition rejects (vendor : Vendor) (log : list VendorCall) (error : jsval) : Prop :=
  forall c, vendor log c = Thrown error.

(** A [tools/call] request as the stdio-only server's handler receives
    it. *)
Definition call_tool_request (name arguments : jsval) : jsval :=
  JObj [("method", JStr "tools/call");
        ("params", JObj [("name", name); ("arguments", arguments)])].

(** The first of [fields] for which the arguments hold no truthy value. *)
Definition first_missing (fields : list string) (args : jsval) : option string :=
  List.find (fun field => negb (truthy (opt_get args field))) fields.

(** A reply flagged as an error, with its text. *)
Definition error_result (text : string) : jsval :=
  JObj [("content", JArr [JObj [("type", JStr "text"); ("text", JStr text)]]);
        ("isError", JBool true)].

(** [m] invokes the vendor at least once. *)
Definition reaches_vendor {A} (m : M A) (log : list VendorCall) : Prop :=
  exists c rest, adds_calls m log (c :: rest).

Definition sample_legacy : BigQueryLegacy.BigQueryMCPServer :=
  {| BigQueryLegacy.config :=
       {| BigQueryLegacy.projectId := "project";
          BigQueryLegacy.keyFilename := JUndefined;
          BigQueryLegacy.location := "US" |};
     BigQueryLegacy.clientProject := JStr "project" |}.

(** Every required Google Ads variable is set to a non-empty value. *)
Definition google_configured (env : Env) : Prop :=
  forall field, In field GoogleAds.requiredFields ->
    exists value, getenv env (GoogleAds.env_var_name field) = Some value /\ value <> "".

(** [Number.isSafeInteger]: the integers whose string form is their
    plain decimal digits, as [JsString.ofZ] writes them. *)
Definition isSafeInteger (n : Z) : bool := Z.abs n <=? 2 ^ 53 - 1.

(** * Properties *)

(** ** Basic facts about values *)

Lemma is_str_true (v : jsval) (lit : string) :
  is_str v lit = true <-> v = JStr lit.
Proof.
  destruct v; simpl; split; try discriminate.
  - intros H. apply String.eqb_eq in H. now subst.
  - intros H. injection H as ->. apply String.eqb_refl.
Qed.

Lemma is_str_false (v : jsval) (lit : string) :
  v <> JStr lit -> is_str v lit = false.
Proof.
  intros H. destruct (is_str v lit) eqn:E; [|reflexivity].
  apply is_str_true in E. contradiction.
Qed.

Lemma lookup_absent (k : string) (fs : list (string * jsval)) :
  existsb (fun kv => String.eqb k (fst kv)) fs = false ->
  lookup_field k fs = JUndefined.
Proof.
  induction fs as [|[k' v] fs IH]; simpl; [reflexivity|].
  intros H. apply orb_false_iff in H as [Hk Hrest].
  rewrite Hk. now apply IH.
Qed.

(** An omitted argument reads as [undefined]. *)
Lemma get_omitted (args : jsval) (k : string) :
  k <> "message" -> has_field args k = false -> get args k = JUndefined.
Proof.
  intros Hk H. destruct args; simpl in *; try reflexivity.
  - now apply lookup_absent.
  - destruct (String.eqb k "message") eqn:E; [|reflexivity].
    apply String.eqb_eq in E. contradiction.
Qed.

(** ** Unknown tools *)

Ltac not_registered H :=
  repeat match goal with
  | |- context [is_str ?v ?lit] =>
      rewrite (is_str_false v lit) by (apply H; vm_compute; tauto)
  end.

Lemma meta_call_unknown vendor stringify this (toolName toolArgs : jsval) log :
  (forall n, In n MetaAds.toolNames -> toolName <> JStr n) ->
  MetaAds.call_tool vendor stringify this toolName toolArgs log
  = (Thrown (Error ("Unknown tool: " +:+ js_String toolName)), log).
Proof.
  intros H. unfold MetaAds.call_tool. not_registered H. reflexivity.
Qed.

Lemma bigquery_call_unknown vendor stringify this (toolName toolArgs : jsval) log :
  (forall n, In n BigQuery.toolNames -> toolName <> JStr n) ->
  BigQuery.call_tool vendor stringify this toolName toolArgs log
  = (Thrown (Error ("Unknown tool: " +:+ js_String toolName)), log).
Proof.
  intros H. unfold BigQuery.call_tool. not_registered H. reflexivity.
Qed.

(** C1, Meta Ads dispatcher and BigQuery dispatcher: a [tools/call] request
    whose tool name is none of the registered names is answered, without
    any vendor invocation and without a throw, by the error envelope with
    code -32000, the message "Unknown tool: <name>" and the id of the
    request; the envelope has no [result]. The same envelope is what the
    [/mcp] route streams back. *)
Theorem unknown_tool_error_envelope
    (vendor : Vendor) (stringify : jsval -> string)
    (meta : MetaAds.MetaAdsMCPServer) (bq : BigQuery.BigQueryMCPServer)
    (request : jsval) (log : list VendorCall) :
  let envelope :=
    error_envelope (-32000)
      (JStr ("Unknown tool: " +:+ js_String (toolNameOf request)))
      (get request "id") in
  ((forall n, In n MetaAds.toolNames -> toolNameOf request <> JStr n) ->
     MetaAds.handleToolCall vendor stringify meta request log
       = (Returned envelope, log)
     /\ (get request "method" = JStr "tools/call" ->
         MetaAds.mcp_post vendor stringify meta request log
           = (Returned (BaseServer.EventStream envelope), log)))
  /\ ((forall n, In n BigQuery.toolNames -> toolNameOf request <> JStr n) ->
     BigQuery.tools_call vendor stringify bq request log
       = (Returned envelope, log)
     /\ (get request "method" = JStr "tools/call" ->
         BigQuery.mcp_post vendor stringify bq request log
           = (Returned (BaseServer.EventStream envelope), log)))
  /\ carries envelope "error" = true
  /\ has_field envelope "result" = false
  /\ get (get envelope "error") "code" = JNum (-32000)
  /\ get envelope "id" = get request "id".
Proof.
  intros envelope.
  assert (Hm : (forall n, In n MetaAds.toolNames -> toolNameOf request <> JStr n) ->
               MetaAds.handleToolCall vendor stringify meta request log
               = (Returned envelope, log)).
  { intros H. unfold MetaAds.handleToolCall, try_catch, bind.
    fold (toolNameOf request). fold (toolArgsOf request).
    rewrite meta_call_unknown by exact H. reflexivity. }
  assert (Hb : (forall n, In n BigQuery.toolNames -> toolNameOf request <> JStr n) ->
               BigQuery.tools_call vendor stringify bq request log
               = (Returned envelope, log)).
  { intros H. unfold BigQuery.tools_call, try_catch, bind.
    fold (toolNameOf request). fold (toolArgsOf request).
    rewrite bigquery_call_unknown by exact H. reflexivity. }
  assert (Hreq : get request "method" = JStr "tools/call" -> isNullish request = false).
  { destruct request; simpl; congruence. }
  repeat split; try reflexivity.
  - now apply Hm.
  - intros Hmeth.
    unfold MetaAds.mcp_post, BaseServer.mcp_post, try_catch, bind, prop.
    rewrite (Hreq Hmeth), Hmeth. simpl.
    change (BaseServer.handleToolCall meta request log)
      with (MetaAds.handleToolCall vendor stringify meta request log).
    rewrite Hm by assumption. reflexivity.
  - now apply Hb.
  - intros Hmeth.
    unfold BigQuery.mcp_post, try_catch, bind, prop.
    rewrite (Hreq Hmeth), Hmeth. simpl.
    rewrite Hb by assumption. reflexivity.
Qed.

Lemma unknown_tool_error_envelope_witness :
  let request := tools_call_request "drop_table" (JObj []) (JNum 7) in
  let envelope :=
    error_envelope (-32000) (JStr "Unknown tool: drop_table") (JNum 7) in
  MetaAds.handleToolCall stub_vendor stub_stringify sample_meta request []
    = (Returned envelope, [])
  /\ BigQuery.tools_call stub_vendor stub_stringify sample_bigquery request []
    = (Returned envelope, []).
Proof.
  intros request envelope.
  pose proof (unknown_tool_error_envelope stub_vendor stub_stringify
                sample_meta sample_bigquery request []) as H.
  cbv zeta in H. destruct H as (Hm & Hb & _).
  split.
  - apply Hm. intros n Hn. vm_compute in Hn.
    repeat (destruct Hn as [<-|Hn]; [discriminate|]). destruct Hn.
  - apply Hb. intros n Hn. vm_compute in Hn.
    repeat (destruct Hn as [<-|Hn]; [discriminate|]). destruct Hn.
Defined.

(** ** Response envelopes of the [/mcp] route *)

(** A tool that returns, returns a content object. *)
Lemma meta_call_tool_content vendor stringify this toolName toolArgs log r log' :
  MetaAds.call_tool vendor stringify this toolName toolArgs log = (Returned r, log') ->
  exists text, r = text_content text.
Proof.
  unfold MetaAds.call_tool, MetaAds.insight_object, bind, await, throw, ret.
  repeat match goal with
         | |- context [if ?b then _ else _] => destruct b
         | |- context [match vendor ?l ?c with _ => _ end] => destruct (vendor l c)
         end;
    intros H; inversion H; eauto.
Qed.

Lemma bigquery_call_tool_content vendor stringify this toolName toolArgs log r log' :
  BigQuery.call_tool vendor stringify this toolName toolArgs log = (Returned r, log') ->
  exists text, r = text_content text.
Proof.
  unfold BigQuery.call_tool, BigQuery.execute_query_body, BigQuery.invoke,
    bind, await, throw, ret.
  repeat match goal with
         | |- context [if ?b then _ else _] => destruct b
         | |- context [match vendor ?l ?c with _ => _ end] => destruct (vendor l c)
         | |- context [let (_, _) := ?x in _] => destruct x as [[?|?] ?]
         end;
    intros H; inversion H; eauto.
Qed.

Lemma meta_handleToolCall_envelope vendor stringify this request log :
  exists response log',
    MetaAds.handleToolCall vendor stringify this request log = (Returned response, log')
    /\ ((exists text, response = result_envelope (text_content text) (get request "id"))
        \/ (exists message, response = error_envelope (-32000) message (get request "id"))).
Proof.
  unfold MetaAds.handleToolCall, try_catch, bind.
  destruct (MetaAds.call_tool _ _ _ _ _ log) as [[result|error] log'] eqn:E.
  - apply meta_call_tool_content in E as [text ->].
    eexists _, _. split; [reflexivity|]. left. now eexists.
  - eexists _, _. split; [reflexivity|]. right. now eexists.
Qed.

Lemma bigquery_tools_call_envelope vendor stringify this request log :
  exists response log',
    BigQuery.tools_call vendor stringify this request log = (Returned response, log')
    /\ ((exists text, response = result_envelope (text_content text) (get request "id"))
        \/ (exists message, response = error_envelope (-32000) message (get request "id"))).
Proof.
  unfold BigQuery.tools_call, try_catch, bind.
  destruct (BigQuery.call_tool _ _ _ _ _ log) as [[result|error] log'] eqn:E.
  - apply bigquery_call_tool_content in E as [text ->].
    eexists _, _. split; [reflexivity|]. left. now eexists.
  - eexists _, _. split; [reflexivity|]. right. now eexists.
Qed.

Lemma envelope_correlated (request response : jsval) :
  (exists text, response = result_envelope (text_content text) (get request "id"))
  \/ (exists message, response = error_envelope (-32000) message (get request "id")) ->
  correlated_reply request (Returned (BaseServer.EventStream response)).
Proof.
  intros [[x ->]|[x ->]]; eexists; repeat split.
Qed.

(** C3, the [/mcp] routes of the Meta Ads server (base class route with the
    Meta handlers) and of the BigQuery server: for every request object,
    whatever its method, the route answers with one envelope whose [id] is
    the request's [id] and which has exactly one of [result] and [error],
    holding a defined value. *)
Theorem mcp_reply_correlated_result_xor_error
    (vendor : Vendor) (stringify : jsval -> string)
    (meta : MetaAds.MetaAdsMCPServer) (bq : BigQuery.BigQueryMCPServer)
    (request : jsval) (log : list VendorCall) :
  isNullish request = false ->
  correlated_reply request (fst (MetaAds.mcp_post vendor stringify meta request log))
  /\ correlated_reply request (fst (BigQuery.mcp_post vendor stringify bq request log)).
Proof.
  intros Hreq. split.
  - unfold MetaAds.mcp_post, BaseServer.mcp_post, try_catch, bind, prop.
    rewrite Hreq. cbn [ret].
    destruct (is_str (get request "method") "initialize").
    { cbn. eexists; repeat split. }
    destruct (is_str (get request "method") "tools/list").
    { cbn. eexists; repeat split. }
    destruct (is_str (get request "method") "tools/call").
    { change (BaseServer.handleToolCall meta request log)
        with (MetaAds.handleToolCall vendor stringify meta request log).
      destruct (meta_handleToolCall_envelope vendor stringify meta request log)
        as (response & log' & -> & Hshape).
      cbn. now apply envelope_correlated. }
    cbn. eexists; repeat split.
  - unfold BigQuery.mcp_post, try_catch, bind, prop.
    rewrite Hreq. cbn [ret].
    destruct (is_str (get request "method") "initialize").
    { cbn. eexists; repeat split. }
    destruct (is_str (get request "method") "tools/list").
    { cbn. eexists; repeat split. }
    destruct (is_str (get request "method") "tools/call").
    { destruct (bigquery_tools_call_envelope vendor stringify bq request log)
        as (response & log' & -> & Hshape).
      cbn. now apply envelope_correlated. }
    cbn. eexists; repeat split.
Qed.

Lemma mcp_reply_correlated_witness :
  let request := tools_call_request "list_campaigns" (JObj []) (JStr "req-1") in
  isNullish request = false
  /\ correlated_reply request
       (fst (MetaAds.mcp_post stub_vendor stub_stringify sample_meta request []))
  /\ correlated_reply request
       (fst (BigQuery.mcp_post stub_vendor stub_stringify sample_bigquery request [])).
Proof.
  intros request. split; [reflexivity|].
  apply (mcp_reply_correlated_result_xor_error stub_vendor stub_stringify
           sample_meta sample_bigquery request []).
  reflexivity.
Defined.

(** ** Arguments that miss a required field *)

(** The registered Google Ads handler guards the query itself: without a
    truthy [query] it answers with an error text and makes no vendor
    invocation. *)
Lemma google_execute_gaql_guards_query vendor stringify this (args : jsval) log :
  GoogleAds.googleAds this = true ->
  truthy (get args "query") = false ->
  GoogleAds.execute_gaql_query_tool vendor stringify this args log
  = (Returned (text_content "Error: Query parameter is required"), log).
Proof.
  intros Hg Hq. unfold GoogleAds.execute_gaql_query_tool. now rewrite Hg, Hq.
Qed.

(** A body on which [.method] cannot be read ends in the outer [catch]:
    the route answers 500 and makes no vendor invocation. *)
Lemma mcp_post_nullish_body vendor stringify meta bq (body : jsval) log :
  isNullish body = true ->
  (exists details,
      MetaAds.mcp_post vendor stringify meta body log
      = (Returned (BaseServer.InternalServerError details), log))
  /\ (exists details,
      BigQuery.mcp_post vendor stringify bq body log
      = (Returned (BaseServer.InternalServerError details), log)).
Proof.
  intros Hb.
  unfold MetaAds.mcp_post, BaseServer.mcp_post, BigQuery.mcp_post, try_catch, bind, prop.
  rewrite Hb. split; eexists; reflexivity.
Qed.

(** C2, evaluated: the HTTP dispatchers do not check arguments against the
    declared schema. An [execute_query] call without the required [query]
    reaches [createQueryJob] with [query: undefined] on the BigQuery
    server, and a [get_campaign] call without the required [campaignId]
    reaches [Campaign.read] with an undefined id on a Meta Ads server whose
    API handle is set. *)
Theorem http_dispatch_calls_vendor_without_required_field
    (vendor : Vendor) (stringify : jsval -> string)
    (cfg : BigQuery.BigQueryConfig) (adsCfg : MetaAds.MetaAdsConfig)
    (id : jsval) (log : list VendorCall) :
  let bq := {| BigQuery.bigquery := true; BigQuery.config := cfg |} in
  let meta := {| MetaAds.api := true; MetaAds.adsConfig := adsCfg |} in
  (In "query" (declared_required BigQuery.tools BigQuery.requiredOf "execute_query")
   /\ has_field (JObj []) "query" = false
   /\ exists rest,
       snd (BigQuery.mcp_post vendor stringify bq
              (tools_call_request "execute_query" (JObj []) id) log)
       = (log ++ BQ_createQueryJob
                   (BigQuery.query_options bq JUndefined (JBool false) (JNum 100))
                 :: rest)%list)
  /\ (In "campaignId"
         (declared_required MetaAds.tools MetaAds.requiredOf "get_campaign")
      /\ has_field (JObj []) "campaignId" = false
      /\ snd (MetaAds.mcp_post vendor stringify meta
                (tools_call_request "get_campaign" (JObj []) id) log)
         = (log ++ [FB_read CampaignCls JUndefined MetaAds.campaignReadFields])%list).
Proof.
  intros bq meta. split; (split; [vm_compute; tauto|split; [reflexivity|]]).
  - unfold BigQuery.mcp_post, try_catch, bind, prop. cbn -[BigQuery.tools_call].
    unfold BigQuery.tools_call, try_catch, bind.
    cbn -[BigQuery.execute_query_body].
    unfold BigQuery.execute_query_body, bind, await. cbn -[app].
    set (c := BQ_createQueryJob _).
    destruct (vendor log c) as [job|e]; cbn -[app].
    + unfold BigQuery.invoke, await.
      destruct (isNullish job) eqn:Hjob; cbn -[app].
      * exists []. reflexivity.
      * destruct (vendor _ _) as [rows|e]; cbn -[app].
        -- unfold prop. rewrite Hjob. cbn -[app].
           destruct rows; cbn -[app]; eexists; rewrite <- app_assoc; reflexivity.
        -- eexists; rewrite <- app_assoc; reflexivity.
    + exists []. reflexivity.
  - unfold MetaAds.mcp_post, BaseServer.mcp_post, try_catch, bind, prop.
    cbn -[app]. unfold MetaAds.handleToolCall, try_catch, bind, await.
    cbn -[app].
    match goal with |- context [vendor ?l ?c] => destruct (vendor l c) end;
      reflexivity.
Qed.

(** With a vendor that resolves, that [execute_query] call is even answered
    with a [result] envelope. *)
Example http_execute_query_without_query_on_stub :
  exists text,
    fst (BigQuery.mcp_post stub_vendor stub_stringify sample_bigquery
           (tools_call_request "execute_query" (JObj []) (JNum 1)) [])
    = Returned (BaseServer.EventStream
                  (result_envelope (text_content text) (JNum 1))).
Proof. eexists. reflexivity. Qed.

(** ** What the list handlers forward to the vendor *)

Lemma get_or_empty (args : jsval) (k : string) :
  get (js_or args (JObj [])) k = get args k.
Proof. unfold js_or. destruct (truthy args) eqn:E; [reflexivity|]. now destruct args. Qed.

Lemma list_params_limit (args : jsval) :
  get (MetaAds.list_params args) "limit" = js_or (get args "limit") (JNum 25).
Proof.
  unfold MetaAds.list_params, MetaAds.with_status_filter.
  destruct (truthy (get args "status")); reflexivity.
Qed.

Lemma list_params_or_empty (args : jsval) :
  MetaAds.list_params (js_or args (JObj [])) = MetaAds.list_params args.
Proof. unfold MetaAds.list_params. now rewrite !get_or_empty. Qed.

Ltac run_vendor vendor :=
  match goal with
  | |- context [vendor ?l ?c] => destruct (vendor l c); cbn -[app]
  end.

Section MetaCalls.
Context (vendor : Vendor) (stringify : jsval -> string).
Context (this : MetaAds.MetaAdsMCPServer) (args id : jsval) (log : list VendorCall).
Hypothesis api_set : MetaAds.api this = true.

Lemma meta_list_campaigns_tool_calls :
  truthy (meta_account this args) = true ->
  snd (MetaAds.list_campaigns_tool vendor stringify this args log)
  = (log ++ [FB_getCampaigns (JStr ("act_" +:+ js_String (meta_account this args)))
               MetaAds.campaignListFields (MetaAds.list_params args)])%list.
Proof.
  intros Hacc. unfold MetaAds.list_campaigns_tool, try_catch, bind, await.
  rewrite api_set. fold (meta_account this args). rewrite Hacc. cbn -[app].
  run_vendor vendor; reflexivity.
Qed.

Lemma meta_list_campaigns_http_calls :
  truthy (meta_account this args) = true ->
  snd (MetaAds.handleToolCall vendor stringify this
         (tools_call_request "list_campaigns" args id) log)
  = (log ++ [FB_getCampaigns (JStr ("act_" +:+ js_String (meta_account this args)))
               MetaAds.campaignListFields (MetaAds.list_params args)])%list.
Proof.
  intros Hacc. unfold MetaAds.handleToolCall, try_catch, bind.
  fold (toolArgsOf (tools_call_request "list_campaigns" args id)).
  change (toolArgsOf (tools_call_request "list_campaigns" args id))
    with (js_or args (JObj [])).
  unfold MetaAds.call_tool, bind, await. cbn [opt_get get lookup_field tools_call_request].
  cbn -[app js_or MetaAds.list_params js_String truthy].
  rewrite api_set, get_or_empty, list_params_or_empty.
  fold (meta_account this args). rewrite Hacc. cbn -[app MetaAds.list_params js_String].
  run_vendor vendor; reflexivity.
Qed.

Lemma meta_list_adsets_tool_calls :
  snd (MetaAds.list_adsets_tool vendor stringify this args log)
  = (log ++ [FB_getAdSets (get args "campaignId") MetaAds.adSetFields
               (MetaAds.list_params args)])%list.
Proof.
  unfold MetaAds.list_adsets_tool, try_catch, bind, await.
  rewrite api_set. cbn -[app]. run_vendor vendor; reflexivity.
Qed.

Lemma meta_list_adsets_http_calls :
  snd (MetaAds.handleToolCall vendor stringify this
         (tools_call_request "list_adsets" args id) log)
  = (log ++ [FB_getAdSets (get args "campaignId") MetaAds.adSetFields
               (MetaAds.list_params args)])%list.
Proof.
  unfold MetaAds.handleToolCall, try_catch, bind.
  change (js_or (opt_get (get (tools_call_request "list_adsets" args id) "params")
                   "arguments") (JObj []))
    with (js_or args (JObj [])).
  unfold MetaAds.call_tool, bind, await.
  cbn -[app js_or MetaAds.list_params].
  rewrite api_set, get_or_empty, list_params_or_empty. cbn -[app MetaAds.list_params].
  run_vendor vendor; reflexivity.
Qed.

Lemma meta_list_ads_tool_calls :
  snd (MetaAds.list_ads_tool vendor stringify this args log)
  = (log ++ [FB_getAds (get args "adSetId") MetaAds.adFields
               (MetaAds.list_params args)])%list.
Proof.
  unfold MetaAds.list_ads_tool, try_catch, bind, await.
  rewrite api_set. cbn -[app]. run_vendor vendor; reflexivity.
Qed.

Lemma meta_list_ads_http_calls :
  snd (MetaAds.handleToolCall vendor stringify this
         (tools_call_request "list_ads" args id) log)
  = (log ++ [FB_getAds (get args "adSetId") MetaAds.adFields
               (MetaAds.list_params args)])%list.
Proof.
  unfold MetaAds.handleToolCall, try_catch, bind.
  change (js_or (opt_get (get (tools_call_request "list_ads" args id) "params")
                   "arguments") (JObj []))
    with (js_or args (JObj [])).
  unfold MetaAds.call_tool, bind, await.
  cbn -[app js_or MetaAds.list_params].
  rewrite api_set, get_or_empty, list_params_or_empty. cbn -[app MetaAds.list_params].
  run_vendor vendor; reflexivity.
Qed.

End MetaCalls.

Section GoogleCalls.
Context (vendor : Vendor) (stringify : jsval -> string).
Context (this : GoogleAds.GoogleAdsMCPServer) (args : jsval) (log : list VendorCall).
Hypothesis client_set : GoogleAds.googleAds this = true.

Lemma google_error_text_log (pre : string) (error : jsval) (l : list VendorCall) :
  snd (GoogleAds.error_text pre error l) = l.
Proof.
  unfold GoogleAds.error_text, bind, GoogleAds.lift.
  destruct (GoogleAds.formatError error); reflexivity.
Qed.

Lemma google_list_campaigns_calls :
  truthy (google_customer this args) = true ->
  snd (GoogleAds.list_campaigns_tool vendor stringify this args log)
  = (log ++ [GA_query (google_customer this args)
               (ofOption (GoogleAds.refreshToken (GoogleAds.config this)))
               (GoogleAds.list_campaigns_gaql
                  (js_String (js_or (get args "limit") (JNum 50))))])%list.
Proof.
  intros Hc. unfold GoogleAds.list_campaigns_tool, try_catch, bind, await.
  rewrite client_set. fold (google_customer this args). rewrite Hc.
  cbn -[app GoogleAds.list_campaigns_gaql js_String].
  run_vendor vendor; [reflexivity|apply google_error_text_log].
Qed.

Lemma google_execute_gaql_calls (query : string) :
  get args "query" = JStr query ->
  query <> "" ->
  snd (GoogleAds.execute_gaql_query_tool vendor stringify this args log)
  = (log ++ [GA_query (get args "customerId")
               (ofOption (GoogleAds.refreshToken (GoogleAds.config this)))
               (if JsString.includes (JsString.toLowerCase (JsString.trim query)) "limit"
                then JsString.trim query
                else JsString.trim query +:+ " LIMIT "
                     +:+ js_String (js_or (get args "limit") (JNum 100)))])%list.
Proof.
  intros Hq Hne. unfold GoogleAds.execute_gaql_query_tool, try_catch, bind, await.
  rewrite client_set, Hq.
  assert (Ht : truthy (JStr query) = true).
  { simpl. destruct (String.eqb query "") eqn:E; [|reflexivity].
    apply String.eqb_eq in E. contradiction. }
  rewrite Ht. cbn -[app JsString.includes JsString.toLowerCase JsString.trim js_String].
  destruct (JsString.includes (JsString.toLowerCase (JsString.trim query)) "limit");
    cbn -[app JsString.trim js_String];
    (run_vendor vendor; [reflexivity|apply google_error_text_log]).
Qed.

End GoogleCalls.

Section BigQueryCalls.
Context (vendor : Vendor) (stringify : jsval -> string).
Context (this : BigQuery.BigQueryMCPServer) (args : jsval) (log : list VendorCall).

Lemma bigquery_execute_query_body_calls :
  let maxResults := BigQuery.or_default (get args "maxResults") (JNum 100) in
  let options :=
    BigQuery.query_options this (get args "query")
      (BigQuery.or_default (get args "dryRun") (JBool false)) maxResults in
  exists rest,
    snd (BigQuery.execute_query_body vendor stringify this args log)
    = (log ++ BQ_createQueryJob options :: rest)%list
    /\ bounded_by maxResults rest.
Proof.
  intros maxResults options.
  unfold BigQuery.execute_query_body, bind, await.
  fold maxResults. fold options.
  destruct (vendor log (BQ_createQueryJob options)) as [job|e]; cbn -[app].
  2: { exists []. split; [reflexivity|constructor]. }
  unfold BigQuery.invoke, await.
  destruct (truthy (BigQuery.or_default (get args "dryRun") (JBool false)));
    destruct (isNullish job) eqn:Hjob; cbn -[app];
    try (exists []; split; [reflexivity|constructor]).
  - exists [BQ_job_getMetadata job]. rewrite <- app_assoc. split.
    + run_vendor vendor; [|reflexivity].
      unfold prop. rewrite Hjob. cbn -[app].
      match goal with |- context [isNullish ?m] => destruct (isNullish m) end;
        reflexivity.
    + repeat constructor.
  - exists [BQ_job_getQueryResults job (JObj [("maxResults", maxResults)])].
    rewrite <- app_assoc. split.
    + run_vendor vendor; [|reflexivity].
      unfold prop. rewrite Hjob. cbn -[app].
      match goal with
      | |- context [BigQuery.js_length ?r] => destruct r; reflexivity
      end.
    + constructor; [right; reflexivity|constructor].
Qed.

Lemma bigquery_execute_query_tool_calls :
  BigQuery.bigquery this = true ->
  let maxResults := BigQuery.or_default (get args "maxResults") (JNum 100) in
  let options :=
    BigQuery.query_options this (get args "query")
      (BigQuery.or_default (get args "dryRun") (JBool false)) maxResults in
  exists rest,
    snd (BigQuery.execute_query_tool vendor stringify this args log)
    = (log ++ BQ_createQueryJob options :: rest)%list
    /\ bounded_by maxResults rest.
Proof.
  intros Hbq maxResults options.
  destruct bigquery_execute_query_body_calls as (rest & Hlog & Hrest).
  exists rest. split; [|exact Hrest].
  unfold BigQuery.execute_query_tool, try_catch. rewrite Hbq. cbn [negb].
  fold maxResults options in Hlog.
  destruct (BigQuery.execute_query_body vendor stringify this args log) as [[r|e] l];
    exact Hlog.
Qed.

End BigQueryCalls.

Lemma list_campaigns_gaql_ends (n : string) :
  ends_with_limit (GoogleAds.list_campaigns_gaql n) n.
Proof.
  exists (String.substring 0 336 (GoogleAds.list_campaigns_gaql "")).
  reflexivity.
Qed.

(** C4, list_campaigns of Meta Ads (registered tool and HTTP case),
    list_campaigns of Google Ads and execute_query of BigQuery: when the
    caller leaves the bound out, the Meta Ads invocation carries
    [limit = 25], the Google Ads query text ends in [LIMIT 50], and
    [createQueryJob] (and the [getQueryResults] that may follow) carries
    [maxResults = 100]. *)
Theorem omitted_limit_uses_documented_default
    (vendor : Vendor) (stringify : jsval -> string)
    (meta : MetaAds.MetaAdsMCPServer) (google : GoogleAds.GoogleAdsMCPServer)
    (bq : BigQuery.BigQueryMCPServer)
    (margs gargs bargs id : jsval) (log : list VendorCall) :
  MetaAds.api meta = true ->
  truthy (meta_account meta margs) = true ->
  has_field margs "limit" = false ->
  GoogleAds.googleAds google = true ->
  truthy (google_customer google gargs) = true ->
  has_field gargs "limit" = false ->
  BigQuery.bigquery bq = true ->
  has_field bargs "maxResults" = false ->
  forwards_bound (MetaAds.list_campaigns_tool vendor stringify meta margs) log (JNum 25)
  /\ forwards_bound
       (MetaAds.handleToolCall vendor stringify meta
          (tools_call_request "list_campaigns" margs id)) log (JNum 25)
  /\ forwards_gaql (GoogleAds.list_campaigns_tool vendor stringify google gargs) log
       (fun gaql => ends_with_limit gaql "50")
  /\ exists options rest,
       snd (BigQuery.execute_query_tool vendor stringify bq bargs log)
       = (log ++ BQ_createQueryJob options :: rest)%list
       /\ get options "maxResults" = JNum 100
       /\ bounded_by (JNum 100) rest.
Proof.
  intros Hapi Hacc Hm Hg Hcust Hgl Hbq Hb.
  apply get_omitted in Hm; [|discriminate].
  apply get_omitted in Hgl; [|discriminate].
  apply get_omitted in Hb; [|discriminate].
  repeat split.
  - eexists. split; [now apply meta_list_campaigns_tool_calls|].
    cbn [bound_of]. now rewrite list_params_limit, Hm.
  - eexists. split; [now apply meta_list_campaigns_http_calls|].
    cbn [bound_of]. now rewrite list_params_limit, Hm.
  - eexists _, _, _. split; [now apply google_list_campaigns_calls|].
    rewrite Hgl. apply list_campaigns_gaql_ends.
  - destruct (bigquery_execute_query_tool_calls vendor stringify bq bargs log Hbq)
      as (rest & Hlog & Hrest).
    rewrite Hb in Hlog, Hrest. eexists _, rest. split; [exact Hlog|].
    split; [reflexivity|exact Hrest].
Qed.

Lemma omitted_limit_witness :
  forwards_bound
    (MetaAds.list_campaigns_tool stub_vendor stub_stringify sample_meta (JObj []))
    [] (JNum 25)
  /\ forwards_bound
       (MetaAds.handleToolCall stub_vendor stub_stringify sample_meta
          (tools_call_request "list_campaigns" (JObj []) (JNum 1))) [] (JNum 25)
  /\ forwards_gaql
       (GoogleAds.list_campaigns_tool stub_vendor stub_stringify sample_google (JObj []))
       [] (fun gaql => ends_with_limit gaql "50")
  /\ exists options rest,
       snd (BigQuery.execute_query_tool stub_vendor stub_stringify sample_bigquery
              (JObj [("query", JStr "SELECT 1")]) [])
       = ([] ++ BQ_createQueryJob options :: rest)%list
       /\ get options "maxResults" = JNum 100
       /\ bounded_by (JNum 100) rest.
Proof.
  apply (omitted_limit_uses_documented_default stub_vendor stub_stringify
           sample_meta sample_google sample_bigquery
           (JObj []) (JObj []) (JObj [("query", JStr "SELECT 1")]) (JNum 1) []);
    reflexivity.
Defined.

(** ** Trimming does not change whether a word occurs *)

Lemma whitespace_lower (c : ascii) :
  JsString.isWhiteSpace c = true -> JsString.lowerChar c = c.
Proof.
  destruct c as [[] [] [] [] [] [] [] []]; vm_compute; intros H;
    solve [reflexivity | discriminate H].
Qed.

Lemma prefix_empty (s : string) : String.prefix "" s = true.
Proof. now destruct s. Qed.

Lemma prefix_cons (a : ascii) (m : string) (c : ascii) (s : string) :
  String.prefix (String a m) (String c s)
  = if Ascii.ascii_dec a c then String.prefix m s else false.
Proof. reflexivity. Qed.

Lemma prefix_trimEnd (s m : string) :
  no_whitespace m = true ->
  String.prefix m (JsString.toLowerCase (JsString.trimEnd s))
  = String.prefix m (JsString.toLowerCase s).
Proof.
  unfold JsString.toLowerCase.
  revert m. induction s as [|c s IH]; intros m Hm; [reflexivity|].
  destruct m as [|a m]; [now rewrite !prefix_empty|].
  cbn [no_whitespace] in Hm. apply andb_true_iff in Hm as [Ha Hm].
  apply negb_true_iff in Ha.
  specialize (IH m Hm). cbn [JsString.trimEnd].
  destruct (JsString.trimEnd s) as [|x y] eqn:Et.
  - destruct (JsString.isWhiteSpace c) eqn:Ec.
    + cbn [JsString.map]. rewrite prefix_cons.
      rewrite (whitespace_lower c Ec).
      destruct (Ascii.ascii_dec a c) as [->|_]; [congruence|reflexivity].
    + cbn [JsString.map] in *. rewrite !prefix_cons.
      now rewrite IH.
  - cbn [JsString.map] in *. rewrite !prefix_cons.
    now rewrite <- IH.
Qed.

Section TrimIncludes.
Variable n : string.
Hypothesis n_plain : no_whitespace n = true.

Lemma includes_cons (c : ascii) (s : string) :
  JsString.includes (String c s) n
  = String.prefix n (String c s) || JsString.includes s n.
Proof. reflexivity. Qed.

Lemma includes_trimEnd (s : string) :
  JsString.includes (JsString.toLowerCase (JsString.trimEnd s)) n
  = JsString.includes (JsString.toLowerCase s) n.
Proof.
  induction s as [|c s IH]; [reflexivity|].
  pose proof (prefix_trimEnd (String c s) n n_plain) as P.
  unfold JsString.toLowerCase in *.
  cbn [JsString.trimEnd] in *.
  destruct (JsString.trimEnd s) as [|x y] eqn:Et.
  - destruct (JsString.isWhiteSpace c) eqn:Ec;
      cbn [JsString.map] in *;
      rewrite !includes_cons, <- ?P, <- IH; cbn [JsString.includes].
    + now destruct (String.prefix n "").
    + reflexivity.
  - cbn [JsString.map] in *.
    rewrite !includes_cons in *. now rewrite P, IH.
Qed.

Lemma includes_trimStart (s : string) :
  JsString.includes (JsString.toLowerCase (JsString.trimStart s)) n
  = JsString.includes (JsString.toLowerCase s) n.
Proof.
  unfold JsString.toLowerCase.
  induction s as [|c s IH]; [reflexivity|].
  cbn [JsString.trimStart]. destruct (JsString.isWhiteSpace c) eqn:Ec; [|reflexivity].
  rewrite IH. cbn [JsString.map]. rewrite includes_cons.
  rewrite (whitespace_lower c Ec).
  destruct n as [|a m]; [now rewrite !prefix_empty; destruct s|].
  rewrite prefix_cons. cbn [no_whitespace] in n_plain.
  apply andb_true_iff in n_plain as [Ha _]. apply negb_true_iff in Ha.
  destruct (Ascii.ascii_dec a c) as [->|_]; [congruence|reflexivity].
Qed.

Lemma includes_trim (s : string) :
  JsString.includes (JsString.toLowerCase (JsString.trim s)) n
  = JsString.includes (JsString.toLowerCase s) n.
Proof. unfold JsString.trim. now rewrite includes_trimEnd, includes_trimStart. Qed.

End TrimIncludes.

Lemma contains_limit_trim (text : string) :
  contains_limit (JsString.trim text) = contains_limit text.
Proof. apply includes_trim. reflexivity. Qed.

(** ** A zero limit *)

Lemma zero_limit_falls_back (args : jsval) (d : jsval) :
  get args "limit" = JNum 0 -> js_or (get args "limit") d = d.
Proof. intros ->. reflexivity. Qed.

Lemma omitted_limit_falls_back (args : jsval) (d : jsval) :
  get args "limit" = JUndefined -> js_or (get args "limit") d = d.
Proof. intros ->. reflexivity. Qed.

Lemma list_params_zero_as_omitted (args args' : jsval) :
  get args "limit" = JNum 0 -> limit_omitted_from args args' ->
  MetaAds.list_params args' = MetaAds.list_params args.
Proof.
  intros H0 [Hu Hsame]. unfold MetaAds.list_params.
  rewrite (Hsame "status") by discriminate.
  now rewrite (zero_limit_falls_back args), (omitted_limit_falls_back args').
Qed.

Section ZeroLimit.
Context (vendor : Vendor) (stringify : jsval -> string).
Context (args args' : jsval).
Hypothesis limit_zero : get args "limit" = JNum 0.
Hypothesis omitted : limit_omitted_from args args'.

Lemma meta_list_campaigns_zero_as_omitted this log :
  MetaAds.list_campaigns_tool vendor stringify this args' log
  = MetaAds.list_campaigns_tool vendor stringify this args log.
Proof.
  unfold MetaAds.list_campaigns_tool.
  rewrite (list_params_zero_as_omitted args args') by assumption.
  destruct omitted as [_ Hsame]. now rewrite (Hsame "accountId") by discriminate.
Qed.

Lemma meta_list_adsets_zero_as_omitted this log :
  MetaAds.list_adsets_tool vendor stringify this args' log
  = MetaAds.list_adsets_tool vendor stringify this args log.
Proof.
  unfold MetaAds.list_adsets_tool.
  rewrite (list_params_zero_as_omitted args args') by assumption.
  destruct omitted as [_ Hsame]. now rewrite (Hsame "campaignId") by discriminate.
Qed.

Lemma meta_list_ads_zero_as_omitted this log :
  MetaAds.list_ads_tool vendor stringify this args' log
  = MetaAds.list_ads_tool vendor stringify this args log.
Proof.
  unfold MetaAds.list_ads_tool.
  rewrite (list_params_zero_as_omitted args args') by assumption.
  destruct omitted as [_ Hsame]. now rewrite (Hsame "adSetId") by discriminate.
Qed.

Lemma google_list_campaigns_zero_as_omitted this log :
  GoogleAds.list_campaigns_tool vendor stringify this args' log
  = GoogleAds.list_campaigns_tool vendor stringify this args log.
Proof.
  unfold GoogleAds.list_campaigns_tool.
  destruct omitted as [Hu Hsame].
  rewrite (Hsame "customerId") by discriminate.
  now rewrite (zero_limit_falls_back args), (omitted_limit_falls_back args').
Qed.

Lemma google_execute_gaql_zero_as_omitted this log :
  GoogleAds.execute_gaql_query_tool vendor stringify this args' log
  = GoogleAds.execute_gaql_query_tool vendor stringify this args log.
Proof.
  unfold GoogleAds.execute_gaql_query_tool.
  destruct omitted as [Hu Hsame].
  rewrite (Hsame "customerId"), (Hsame "query") by discriminate.
  now rewrite (zero_limit_falls_back args), (omitted_limit_falls_back args').
Qed.

Lemma meta_list_http_zero_as_omitted this (name : string) (id : jsval) log :
  name = "list_campaigns" \/ name = "list_adsets" \/ name = "list_ads" ->
  MetaAds.handleToolCall vendor stringify this (tools_call_request name args' id) log
  = MetaAds.handleToolCall vendor stringify this (tools_call_request name args id) log.
Proof.
  intros Hname. unfold MetaAds.handleToolCall.
  change (js_or (opt_get (get (tools_call_request name args' id) "params")
                   "arguments") (JObj []))
    with (js_or args' (JObj [])).
  change (js_or (opt_get (get (tools_call_request name args id) "params")
                   "arguments") (JObj []))
    with (js_or args (JObj [])).
  change (get (tools_call_request name args' id) "id") with id.
  change (get (tools_call_request name args id) "id") with id.
  change (opt_get (get (tools_call_request name args' id) "params") "name")
    with (JStr name).
  change (opt_get (get (tools_call_request name args id) "params") "name")
    with (JStr name).
  assert (Hcall : MetaAds.call_tool vendor stringify this (JStr name)
                    (js_or args' (JObj []))
                  = MetaAds.call_tool vendor stringify this (JStr name)
                      (js_or args (JObj []))).
  { unfold MetaAds.call_tool. destruct omitted as [_ Hsame].
    destruct Hname as [-> | [-> | ->]];
      cbn -[js_or truthy MetaAds.list_params js_String];
      rewrite !get_or_empty, !list_params_or_empty,
        (list_params_zero_as_omitted args args') by (assumption || now split);
      [rewrite (Hsame "accountId") by discriminate
      |rewrite (Hsame "campaignId") by discriminate
      |rewrite (Hsame "adSetId") by discriminate];
      reflexivity. }
  now rewrite Hcall.
Qed.

End ZeroLimit.

(** C9, the list tools of Meta Ads (registered handlers and HTTP cases),
    list_campaigns and execute_gaql_query of Google Ads: with [limit]
    supplied as 0 every invocation carries the default (25 for Meta Ads,
    [LIMIT 50] for the Google Ads campaign list, [LIMIT 100] appended to a
    free-form query that names no limit), and every handler and HTTP case
    answers exactly as it does when [limit] is left out. Each tool is
    under the conditions of its own vendor invocation only: the handle
    being set, an account or customer for the two campaign lists, and a
    query text that names no limit for the free-form query. *)
Theorem zero_limit_behaves_as_omitted
    (vendor : Vendor) (stringify : jsval -> string)
    (meta : MetaAds.MetaAdsMCPServer) (google : GoogleAds.GoogleAdsMCPServer)
    (args args' id : jsval) (log : list VendorCall) :
  get args "limit" = JNum 0 ->
  limit_omitted_from args args' ->
  let meta_http name arguments :=
    MetaAds.handleToolCall vendor stringify meta (tools_call_request name arguments id) in
  (MetaAds.api meta = true ->
   (truthy (meta_account meta args) = true ->
    forwards_bound (MetaAds.list_campaigns_tool vendor stringify meta args) log (JNum 25)
    /\ forwards_bound (meta_http "list_campaigns" args) log (JNum 25))
   /\ forwards_bound (MetaAds.list_adsets_tool vendor stringify meta args) log (JNum 25)
   /\ forwards_bound (meta_http "list_adsets" args) log (JNum 25)
   /\ forwards_bound (MetaAds.list_ads_tool vendor stringify meta args) log (JNum 25)
   /\ forwards_bound (meta_http "list_ads" args) log (JNum 25))
  /\ (GoogleAds.googleAds google = true ->
      (truthy (google_customer google args) = true ->
       forwards_gaql (GoogleAds.list_campaigns_tool vendor stringify google args) log
         (fun gaql => ends_with_limit gaql "50"))
      /\ (forall query,
            get args "query" = JStr query -> query <> "" ->
            contains_limit query = false ->
            forwards_gaql (GoogleAds.execute_gaql_query_tool vendor stringify google args)
              log (fun gaql => gaql = JsString.trim query +:+ " LIMIT 100")))
  /\ (MetaAds.list_campaigns_tool vendor stringify meta args log
      = MetaAds.list_campaigns_tool vendor stringify meta args' log
      /\ MetaAds.list_adsets_tool vendor stringify meta args log
         = MetaAds.list_adsets_tool vendor stringify meta args' log
      /\ MetaAds.list_ads_tool vendor stringify meta args log
         = MetaAds.list_ads_tool vendor stringify meta args' log
      /\ meta_http "list_campaigns" args log = meta_http "list_campaigns" args' log
      /\ meta_http "list_adsets" args log = meta_http "list_adsets" args' log
      /\ meta_http "list_ads" args log = meta_http "list_ads" args' log
      /\ GoogleAds.list_campaigns_tool vendor stringify google args log
         = GoogleAds.list_campaigns_tool vendor stringify google args' log
      /\ GoogleAds.execute_gaql_query_tool vendor stringify google args log
         = GoogleAds.execute_gaql_query_tool vendor stringify google args' log).
Proof.
  intros Hzero Hom meta_http. unfold meta_http.
  assert (Hb : get (MetaAds.list_params args) "limit" = JNum 25).
  { now rewrite list_params_limit, Hzero. }
  split; [|split].
  - intros Hapi. split; [intros Hacc; split|repeat split]; eexists.
    + split; [now apply meta_list_campaigns_tool_calls|]. cbn [bound_of]. now rewrite Hb.
    + split; [now apply meta_list_campaigns_http_calls|]. cbn [bound_of]. now rewrite Hb.
    + split; [now apply meta_list_adsets_tool_calls|]. cbn [bound_of]. now rewrite Hb.
    + split; [now apply meta_list_adsets_http_calls|]. cbn [bound_of]. now rewrite Hb.
    + split; [now apply meta_list_ads_tool_calls|]. cbn [bound_of]. now rewrite Hb.
    + split; [now apply meta_list_ads_http_calls|]. cbn [bound_of]. now rewrite Hb.
  - intros Hg. split.
    + intros Hcust. eexists _, _, _. split; [now apply google_list_campaigns_calls|].
      rewrite Hzero. apply list_campaigns_gaql_ends.
    + intros query Hq Hne Hnolimit.
      rewrite <- contains_limit_trim in Hnolimit. unfold contains_limit in Hnolimit.
      eexists _, _, _.
      split; [now apply (google_execute_gaql_calls _ _ _ _ _ Hg query)|].
      cbv beta. now rewrite Hnolimit, Hzero.
  - repeat split; symmetry.
    + now apply meta_list_campaigns_zero_as_omitted.
    + now apply meta_list_adsets_zero_as_omitted.
    + now apply meta_list_ads_zero_as_omitted.
    + apply meta_list_http_zero_as_omitted; tauto.
    + apply meta_list_http_zero_as_omitted; tauto.
    + apply meta_list_http_zero_as_omitted; tauto.
    + now apply google_list_campaigns_zero_as_omitted.
    + now apply google_execute_gaql_zero_as_omitted.
Qed.

Lemma zero_limit_witness :
  forwards_bound
    (MetaAds.list_adsets_tool stub_vendor stub_stringify sample_meta
       (sample_gaql_args [("limit", JNum 0)])) [] (JNum 25)
  /\ forwards_gaql
       (GoogleAds.execute_gaql_query_tool stub_vendor stub_stringify sample_google
          (sample_gaql_args [("limit", JNum 0)])) []
       (fun gaql => gaql = "SELECT campaign.id FROM campaign LIMIT 100")
  /\ GoogleAds.list_campaigns_tool stub_vendor stub_stringify sample_google
       (sample_gaql_args [("limit", JNum 0)]) []
     = GoogleAds.list_campaigns_tool stub_vendor stub_stringify sample_google
         (sample_gaql_args []) [].
Proof.
  assert (Hom : limit_omitted_from (sample_gaql_args [("limit", JNum 0)])
                  (sample_gaql_args [])).
  { split; [reflexivity|]. intros k Hk. cbn.
    destruct (String.eqb k "customerId"); [reflexivity|].
    destruct (String.eqb k "query"); [reflexivity|].
    destruct (String.eqb k "limit") eqn:E; [|reflexivity].
    apply String.eqb_eq in E. contradiction. }
  pose proof (zero_limit_behaves_as_omitted stub_vendor stub_stringify
                sample_meta sample_google
                (sample_gaql_args [("limit", JNum 0)]) (sample_gaql_args [])
                (JNum 1) [] eq_refl Hom) as H.
  cbv zeta in H. destruct H as (Hmeta & Hgoogle & Hsame).
  destruct (Hmeta eq_refl) as (_ & Hadsets & _).
  destruct (Hgoogle eq_refl) as (_ & Hgaql).
  destruct Hsame as (_ & _ & _ & _ & _ & _ & Heq & _).
  split; [exact Hadsets|]. split; [|exact Heq].
  apply (Hgaql "SELECT campaign.id FROM campaign"); [reflexivity|discriminate|reflexivity].
Defined.

(** ** Date selection of [get_insights] *)

Lemma insight_object_valid (objectType : jsval) (log : list VendorCall) :
  In objectType objectTypes ->
  exists cls, MetaAds.insight_object objectType log = (Returned cls, log).
Proof.
  intros [<-|[<-|[<-|[]]]]; eexists; reflexivity.
Qed.

Section Insights.
Context (vendor : Vendor) (stringify : jsval -> string).
Context (this : MetaAds.MetaAdsMCPServer) (args id : jsval) (log : list VendorCall).
Hypothesis api_set : MetaAds.api this = true.
Hypothesis valid_type : In (get args "objectType") objectTypes.

Lemma meta_get_insights_tool_calls :
  insights_requested_with (MetaAds.get_insights_tool vendor stringify this args) log
    (MetaAds.insight_params args).
Proof.
  destruct (insight_object_valid _ log valid_type) as [cls Hcls].
  unfold insights_requested_with, MetaAds.get_insights_tool, try_catch, bind, await.
  rewrite api_set. cbn [negb]. cbv beta. rewrite Hcls.
  cbn -[app MetaAds.insight_params].
  run_vendor vendor; eexists _, _, _, _; reflexivity.
Qed.

Lemma meta_get_insights_http_calls :
  insights_requested_with
    (MetaAds.handleToolCall vendor stringify this
       (tools_call_request "get_insights" args id)) log
    (MetaAds.insight_params args).
Proof.
  destruct (insight_object_valid _ log valid_type) as [cls Hcls].
  unfold insights_requested_with, MetaAds.handleToolCall, try_catch, bind.
  change (js_or (opt_get (get (tools_call_request "get_insights" args id) "params")
                   "arguments") (JObj []))
    with (js_or args (JObj [])).
  unfold MetaAds.call_tool, bind, await.
  cbn -[app js_or MetaAds.insight_params MetaAds.insight_object].
  assert (Hp : MetaAds.insight_params (js_or args (JObj [])) = MetaAds.insight_params args).
  { unfold MetaAds.insight_params. now rewrite !get_or_empty. }
  rewrite api_set, !get_or_empty, Hp. cbn [negb]. cbv beta. rewrite Hcls.
  cbn -[app MetaAds.insight_params].
  run_vendor vendor; eexists _, _, _, _; reflexivity.
Qed.

End Insights.

Lemma declared_preset_truthy (preset : string) :
  In preset MetaAds.datePresets -> truthy (JStr preset) = true.
Proof.
  intros H. repeat (destruct H as [<-|H]; [reflexivity|]). destruct H.
Qed.

(** The date parameters as a function of the truthiness of the two
    arguments. *)
Lemma insight_params_cases (args : jsval) :
  (truthy (get args "datePreset") = true ->
     MetaAds.insight_params args = JObj [("date_preset", get args "datePreset")])
  /\ (truthy (get args "datePreset") = false ->
      truthy (get args "timeRange") = true ->
      MetaAds.insight_params args = JObj [("time_range", get args "timeRange")])
  /\ (truthy (get args "datePreset") = false ->
      truthy (get args "timeRange") = false ->
      MetaAds.insight_params args = JObj [("date_preset", JStr "lifetime")]).
Proof.
  unfold MetaAds.insight_params.
  repeat split; intros; repeat match goal with H : truthy _ = _ |- _ => rewrite H end;
    reflexivity.
Qed.

(** C5, get_insights of Meta Ads (registered handler and HTTP case), on a
    server whose API handle is set and for an accepted object type: a
    supplied datePreset is forwarded as [date_preset], also when a
    timeRange comes with it; without a datePreset a supplied timeRange is
    forwarded as [time_range]; with neither, [date_preset] is "lifetime".
    In each case the handler returns normally after one [getInsights]
    invocation whose parameters hold exactly one of the two keys. *)
Theorem get_insights_date_selection
    (vendor : Vendor) (stringify : jsval -> string)
    (this : MetaAds.MetaAdsMCPServer) (args id : jsval) (log : list VendorCall) :
  MetaAds.api this = true ->
  In (get args "objectType") objectTypes ->
  let tool := MetaAds.get_insights_tool vendor stringify this args in
  let http :=
    MetaAds.handleToolCall vendor stringify this
      (tools_call_request "get_insights" args id) in
  (forall preset, preset_supplied args preset ->
     insights_requested_with tool log (JObj [("date_preset", JStr preset)])
     /\ insights_requested_with http log (JObj [("date_preset", JStr preset)]))
  /\ (forall range, has_field args "datePreset" = false -> range_supplied args range ->
     insights_requested_with tool log (JObj [("time_range", range)])
     /\ insights_requested_with http log (JObj [("time_range", range)]))
  /\ (has_field args "datePreset" = false -> has_field args "timeRange" = false ->
     insights_requested_with tool log (JObj [("date_preset", JStr "lifetime")])
     /\ insights_requested_with http log (JObj [("date_preset", JStr "lifetime")]))
  /\ (forall preset range, preset_supplied args preset -> range_supplied args range ->
     exists params,
       insights_requested_with tool log params
       /\ insights_requested_with http log params
       /\ has_field params "date_preset" = true
       /\ has_field params "time_range" = false)
  /\ xorb (has_field (MetaAds.insight_params args) "date_preset")
          (has_field (MetaAds.insight_params args) "time_range") = true.
Proof.
  intros Hapi Htype tool http.
  pose proof (meta_get_insights_tool_calls vendor stringify this args log Hapi Htype) as Ht.
  pose proof (meta_get_insights_http_calls vendor stringify this args id log Hapi Htype) as Hh.
  fold tool in Ht. fold http in Hh.
  destruct (insight_params_cases args) as (Hp & Hr & Hl).
  assert (Hpre : forall preset, preset_supplied args preset ->
            MetaAds.insight_params args = JObj [("date_preset", JStr preset)]).
  { intros preset [Hget Hin]. rewrite Hp; rewrite Hget; [reflexivity|].
    now apply declared_preset_truthy. }
  split; [|split; [|split; [|split]]].
  - intros preset Hps. rewrite <- (Hpre _ Hps). now split.
  - intros range Hno [Hget [fields ->]].
    apply get_omitted in Hno; [|discriminate].
    assert (E : MetaAds.insight_params args = JObj [("time_range", JObj fields)]).
    { rewrite Hr; rewrite ?Hno, ?Hget; reflexivity. }
    rewrite <- E. now split.
  - intros Hno1 Hno2.
    apply get_omitted in Hno1; [|discriminate].
    apply get_omitted in Hno2; [|discriminate].
    assert (E : MetaAds.insight_params args = JObj [("date_preset", JStr "lifetime")]).
    { rewrite Hl; rewrite ?Hno1, ?Hno2; reflexivity. }
    rewrite <- E. now split.
  - intros preset range Hps _. exists (MetaAds.insight_params args).
    split; [exact Ht|split; [exact Hh|]].
    rewrite (Hpre _ Hps). split; reflexivity.
  - unfold MetaAds.insight_params.
    destruct (truthy (get args "datePreset")); [reflexivity|].
    destruct (truthy (get args "timeRange")); reflexivity.
Qed.

Lemma get_insights_default_witness :
  insights_requested_with
    (MetaAds.get_insights_tool stub_vendor stub_stringify sample_meta
       sample_insights_args)
    [] (JObj [("date_preset", JStr "lifetime")])
  /\ insights_requested_with
       (MetaAds.handleToolCall stub_vendor stub_stringify sample_meta
          (tools_call_request "get_insights" sample_insights_args (JNum 2)))
       [] (JObj [("date_preset", JStr "lifetime")]).
Proof.
  pose proof (get_insights_date_selection stub_vendor stub_stringify sample_meta
                sample_insights_args (JNum 2) []) as H.
  cbv zeta in H. destruct H as (_ & _ & Hdefault & _).
  - reflexivity.
  - left. reflexivity.
  - apply Hdefault; reflexivity.
Defined.

(** ** Free-form GAQL queries *)




(** ** The Google Ads error formatter *)

(** C7 as stated fails: a plain object with a message and no [errors]
    array is neither an [Error] nor a carrier of sub-errors, yet the
    formatter returns its message, not its string form. *)
Lemma formatError_plain_object_message_is_not_string_form :
  let error := JObj [("message", JStr "Quota exceeded")] in
  instanceofError error = false
  /\ isArray (get error "errors") = false
  /\ GoogleAds.formatError error = Returned (JStr "Quota exceeded")
  /\ js_String error = "[object Object]"
  /\ GoogleAds.formatError error <> Returned (JStr (js_String error)).
Proof.
  cbv zeta. repeat split. discriminate.
Qed.

Lemma sub_message_text (e : jsval) :
  isNullish e = false ->
  exists m, GoogleAds.sub_message e = Returned m /\ join_elem m = sub_error_text e.
Proof.
  intros He. unfold GoogleAds.sub_message, sub_error_text, js_or. rewrite He.
  destruct (truthy (get e "message")) eqn:Ht.
  - eexists. split; [reflexivity|]. unfold join_elem.
    destruct (get e "message"); try discriminate; reflexivity.
  - eexists. split; reflexivity.
Qed.

Lemma map_sub_messages (errors : list jsval) :
  Forall (fun e => isNullish e = false) errors ->
  exists messages,
    GoogleAds.map_outcome GoogleAds.sub_message errors = Returned messages
    /\ List.map join_elem messages = List.map sub_error_text errors.
Proof.
  induction 1 as [|e errors He _ IH]; [exists []; split; reflexivity|].
  destruct (sub_message_text e He) as (m & Hm & Ht).
  destruct IH as (ms & Hms & Hts).
  exists (m :: ms). cbn [GoogleAds.map_outcome]. rewrite Hm, Hms.
  split; [reflexivity|]. cbn [List.map]. now rewrite Ht, Hts.
Qed.

(** C7, amended: [formatError] returns the message of an [Error]
    instance; for a plain object with an [errors] array whose elements are
    neither [null] nor [undefined], the sub-errors' messages joined with
    "; ", "Unknown error" standing for a sub-error without a message;
    otherwise, for an object with a truthy [message], that message; and
    otherwise the string form of the value. *)
Theorem formatError_by_cases (error : jsval) :
  (forall m, error = JError m -> GoogleAds.formatError error = Returned (JStr m))
  /\ (forall errors,
        carries_errors error errors ->
        Forall (fun e => isNullish e = false) errors ->
        GoogleAds.formatError error
        = Returned (JStr (JsString.join "; " (List.map sub_error_text errors))))
  /\ (instanceofError error = false ->
      isArray (get error "errors") = false ->
      truthy (get error "message") = true ->
      GoogleAds.formatError error = Returned (get error "message"))
  /\ (instanceofError error = false ->
      isArray (get error "errors") = false ->
      truthy (get error "message") = false ->
      GoogleAds.formatError error = Returned (JStr (js_String error))).
Proof.
  split; [|split; [|split]].
  - intros m ->. reflexivity.
  - intros errors [[fields ->] Hget] Hall.
    destruct (map_sub_messages errors Hall) as (ms & Hms & Hts).
    unfold GoogleAds.formatError. cbn [instanceofError truthy GoogleAds.typeof_object andb].
    rewrite Hget. cbn [truthy isArray andb elements]. now rewrite Hms, Hts.
  - intros Hi Ha Hm. unfold GoogleAds.formatError. rewrite Hi, Ha, Hm, andb_false_r.
    destruct error; try discriminate; try reflexivity.
  - intros Hi Ha Hm. unfold GoogleAds.formatError. rewrite Hi, Ha, Hm, andb_false_r.
    destruct (truthy error && GoogleAds.typeof_object error); reflexivity.
Qed.

Lemma formatError_sub_errors_witness :
  GoogleAds.formatError (JObj [("errors", JArr sample_sub_errors)])
  = Returned (JStr "Invalid customer; Unknown error").
Proof.
  destruct (formatError_by_cases (JObj [("errors", JArr sample_sub_errors)]))
    as (_ & Hjoin & _).
  apply (Hjoin sample_sub_errors).
  - split; [now eexists|reflexivity].
  - repeat constructor.
Defined.

(** ** Substrings *)

Lemma prefix_append_l (n a b : string) :
  String.prefix n a = true -> String.prefix n (a +:+ b) = true.
Proof.
  revert a. induction n as [|c n IH]; intros a; simpl.
  - intros _. now destruct (a +:+ b).
  - destruct a as [|c' a]; [discriminate|]. simpl.
    destruct (Ascii.ascii_dec c c'); [apply IH|discriminate].
Qed.

Lemma includes_prefix (s n : string) :
  String.prefix n s = true -> JsString.includes s n = true.
Proof. intros H. destruct s; cbn [JsString.includes]; rewrite H; reflexivity. Qed.

Lemma includes_append_r (a b n : string) :
  JsString.includes b n = true -> JsString.includes (a +:+ b) n = true.
Proof.
  intros H. induction a as [|c a IH]; simpl; [exact H|].
  rewrite IH. apply orb_true_r.
Qed.

Lemma includes_append_l (a b n : string) :
  JsString.includes a n = true -> JsString.includes (a +:+ b) n = true.
Proof.
  induction a as [|c a IH]; simpl.
  - intros H. rewrite orb_false_r in H. apply includes_prefix.
    exact (prefix_append_l n "" b H).
  - intros H. apply orb_true_iff in H as [H|H].
    + apply (prefix_append_l n (String c a) b) in H. simpl in H. now rewrite H.
    + rewrite (IH H). apply orb_true_r.
Qed.

Lemma includes_join (sep n : string) (xs : list string) (x : string) :
  In x xs -> JsString.includes x n = true ->
  JsString.includes (JsString.join sep xs) n = true.
Proof.
  intros Hin Hx. induction xs as [|y ys IH]; [destruct Hin|].
  destruct ys as [|z zs].
  - destruct Hin as [->|[]]. exact Hx.
  - change (JsString.join sep (y :: z :: zs))
      with (y +:+ sep +:+ JsString.join sep (z :: zs)).
    destruct Hin as [->|Hin].
    + now apply includes_append_l.
    + apply includes_append_r, includes_append_r. now apply IH.
Qed.

(** ** Missing configuration *)

Lemma google_config_field_env (env : Env) (field : string) :
  In field GoogleAds.requiredFields ->
  GoogleAds.config_field (GoogleAds.read_config env) field
  = getenv env (GoogleAds.env_var_name field).
Proof.
  intros H. repeat (destruct H as [<-|H]; [reflexivity|]). destruct H.
Qed.

Lemma meta_config_field_env (env : Env) (field : string) :
  In field MetaAds.requiredFields ->
  MetaAds.config_field (MetaAds.read_config env) field
  = getenv env (MetaAds.env_var_name field).
Proof.
  intros H. repeat (destruct H as [<-|H]; [reflexivity|]). destruct H.
Qed.

Lemma google_message_names (missing : list string) (field : string) :
  In field missing ->
  JsString.includes (GoogleAds.missing_message missing) (GoogleAds.env_var_name field)
  = true.
Proof.
  intros Hin. unfold GoogleAds.missing_message.
  apply includes_append_r, includes_append_r, includes_append_l.
  apply includes_join with (x := "- " +:+ GoogleAds.env_var_name field).
  - apply in_map_iff. now exists field.
  - apply includes_append_r, includes_prefix.
    generalize (GoogleAds.env_var_name field). intros n.
    induction n as [|c n IH]; [reflexivity|].
    simpl. destruct (Ascii.ascii_dec c c); [exact IH|contradiction].
Qed.

Lemma meta_message_names (missing : list string) (field : string) :
  In field missing ->
  JsString.includes (MetaAds.missing_message missing) (MetaAds.env_var_name field)
  = true.
Proof.
  intros Hin. unfold MetaAds.missing_message.
  apply includes_append_r, includes_append_r.
  apply includes_join with (x := "- " +:+ MetaAds.env_var_name field).
  - apply in_map_iff. now exists field.
  - apply includes_append_r, includes_prefix.
    generalize (MetaAds.env_var_name field). intros n.
    induction n as [|c n IH]; [reflexivity|].
    simpl. destruct (Ascii.ascii_dec c c); [exact IH|contradiction].
Qed.

Lemma google_missing_listed (env : Env) (field : string) :
  google_missing env field ->
  In field (GoogleAds.missingFields (GoogleAds.read_config env)).
Proof.
  intros [Hin Habsent]. unfold GoogleAds.missingFields.
  apply filter_In. split; [exact Hin|].
  now rewrite google_config_field_env, Habsent.
Qed.

Lemma meta_missing_listed (env : Env) (field : string) :
  meta_missing env field ->
  In field (MetaAds.missingFields (MetaAds.read_config env)).
Proof.
  intros [Hin Habsent]. unfold MetaAds.missingFields.
  apply filter_In. split; [exact Hin|].
  now rewrite meta_config_field_env, Habsent.
Qed.

Lemma nonempty_length_pos {A} (l : list A) (x : A) :
  In x l -> (0 <? Z.of_nat (List.length l)) = true.
Proof. destruct l; [intros []|reflexivity]. Qed.

(** C8, Google Ads and Meta Ads: when the variable of at least one
    required field is absent, the constructor throws an [Error] whose
    message contains the name of every absent required variable, and
    [main] exits with status 1 instead of serving. The variables are
    GOOGLE_ADS_CUSTOMER_ID, _DEVELOPER_TOKEN, _CLIENT_ID, _CLIENT_SECRET and
    _REFRESH_TOKEN, and META_ADS_ACCESS_TOKEN, _APP_ID and _APP_SECRET. *)
Theorem missing_configuration_refuses_to_start
    (genv menv : Env) (parseInt : jsval -> option Z) (argv : list string) :
  (exists field, google_missing genv field) ->
  (exists field, meta_missing menv field) ->
  (exists message,
      GoogleAds.construct genv = Thrown (JError message)
      /\ GoogleAds.main genv = GoogleAds.Exit1 (JError message)
      /\ forall field, google_missing genv field ->
           JsString.includes message (GoogleAds.env_var_name field) = true)
  /\ (exists message,
      MetaAds.construct menv = Thrown (JError message)
      /\ MetaAds.main parseInt menv argv = MetaAds.Exit1 (JError message)
      /\ forall field, meta_missing menv field ->
           JsString.includes message (MetaAds.env_var_name field) = true)
  /\ List.map GoogleAds.env_var_name GoogleAds.requiredFields
     = ["GOOGLE_ADS_CUSTOMER_ID"; "GOOGLE_ADS_DEVELOPER_TOKEN";
        "GOOGLE_ADS_CLIENT_ID"; "GOOGLE_ADS_CLIENT_SECRET";
        "GOOGLE_ADS_REFRESH_TOKEN"]
  /\ List.map MetaAds.env_var_name MetaAds.requiredFields
     = ["META_ADS_ACCESS_TOKEN"; "META_ADS_APP_ID"; "META_ADS_APP_SECRET"].
Proof.
  intros [gf Hg] [mf Hm]. split; [|split; [|split; reflexivity]].
  - exists (GoogleAds.missing_message (GoogleAds.missingFields (GoogleAds.read_config genv))).
    assert (Hc : GoogleAds.construct genv
                 = Thrown (JError (GoogleAds.missing_message
                     (GoogleAds.missingFields (GoogleAds.read_config genv))))).
    { unfold GoogleAds.construct, GoogleAds.initializeGoogleAds.
      now rewrite (nonempty_length_pos _ gf (google_missing_listed _ _ Hg)). }
    split; [exact Hc|]. split.
    + unfold GoogleAds.main. now rewrite Hc.
    + intros field Hf. apply google_message_names. now apply google_missing_listed.
  - exists (MetaAds.missing_message (MetaAds.missingFields (MetaAds.read_config menv))).
    assert (Hc : MetaAds.construct menv
                 = Thrown (JError (MetaAds.missing_message
                     (MetaAds.missingFields (MetaAds.read_config menv))))).
    { unfold MetaAds.construct, MetaAds.initialize, MetaAds.initializeMetaAds.
      now rewrite (nonempty_length_pos _ mf (meta_missing_listed _ _ Hm)). }
    split; [exact Hc|]. split.
    + unfold MetaAds.main. now rewrite Hc.
    + intros field Hf. apply meta_message_names. now apply meta_missing_listed.
Qed.

Lemma missing_configuration_witness :
  exists gmessage mmessage,
    GoogleAds.main sample_env = GoogleAds.Exit1 (JError gmessage)
    /\ JsString.includes gmessage "GOOGLE_ADS_REFRESH_TOKEN" = true
    /\ MetaAds.main (fun _ => None) sample_env ["node"; "index.js"]
        = MetaAds.Exit1 (JError mmessage)
    /\ JsString.includes mmessage "META_ADS_APP_SECRET" = true.
Proof.
  assert (Hg : google_missing sample_env "refreshToken").
  { split; [vm_compute; tauto|reflexivity]. }
  assert (Hm : meta_missing sample_env "appSecret").
  { split; [vm_compute; tauto|reflexivity]. }
  destruct (missing_configuration_refuses_to_start sample_env sample_env
              (fun _ => None) ["node"; "index.js"])
    as ((gmessage & _ & Hgmain & Hgnames) & (mmessage & _ & Hmmain & Hmnames) & _).
  - now exists "refreshToken".
  - now exists "appSecret".
  - exists gmessage, mmessage. split; [exact Hgmain|].
    split; [exact (Hgnames _ Hg)|]. split; [exact Hmmain|exact (Hmnames _ Hm)].
Defined.

(** ** Transport selection *)

Lemma find_skip {A} (p : A -> bool) (before : list A) (x : A) (after : list A) :
  Forall (fun a => p a = false) before -> p x = true ->
  List.find p (before ++ x :: after)%list = Some x.
Proof.
  intros Hb Hx. induction Hb as [|a before Ha _ IH]; simpl.
  - now rewrite Hx.
  - now rewrite Ha.
Qed.

Lemma indexOf_skip (x : string) (before after : list string) :
  Forall (fun a => a <> x) before ->
  BaseServer.indexOf x (before ++ x :: after)%list = Z.of_nat (List.length before).
Proof.
  induction 1 as [|a before Ha _ IH]; cbn [app BaseServer.indexOf List.length].
  - now rewrite String.eqb_refl.
  - apply String.eqb_neq in Ha. rewrite Ha, IH.
    destruct (Z.of_nat (List.length before) <? 0) eqn:E; [apply Z.ltb_lt in E; lia|lia].
Qed.

Lemma at_index_after (before : list string) (x y : string) (after : list string) :
  BaseServer.at_index (before ++ x :: y :: after)%list (Z.of_nat (List.length before) + 1)
  = JStr y.
Proof.
  unfold BaseServer.at_index.
  destruct (Z.of_nat (List.length before) + 1 <? 0) eqn:E; [apply Z.ltb_lt in E; lia|].
  replace (Z.to_nat (Z.of_nat (List.length before) + 1)) with (S (List.length before)) by lia.
  clear E. induction before as [|a before IH]; [reflexivity|exact IH].
Qed.

Lemma split_without_separator (sep : ascii) (s : string) :
  JsString.includes s (String sep "") = false -> JsString.split sep s = [s].
Proof.
  induction s as [|c s IH]; [reflexivity|].
  cbn [JsString.includes String.prefix]. intros H.
  apply orb_false_iff in H as [Hc Hs].
  destruct (Ascii.ascii_dec sep c) as [->|Hne].
  - now destruct s.
  - cbn [JsString.split]. destruct (Ascii.eqb c sep) eqn:E.
    + apply Ascii.eqb_eq in E. congruence.
    + now rewrite (IH Hs).
Qed.

Lemma no_flag_differs (before : list string) :
  no_transport_flag before -> Forall (fun a => a <> "--transport") before.
Proof.
  intros H. induction H as [|a before Ha _ IH]; constructor; [|exact IH].
  intros ->. discriminate.
Qed.

Lemma append_cons (c : ascii) (a b : string) :
  String c a +:+ b = String c (a +:+ b).
Proof. reflexivity. Qed.

Lemma append_empty (b : string) : "" +:+ b = b.
Proof. reflexivity. Qed.

Lemma argv_args {A} (node script : A) (args : list A) :
  skipn 2 (node :: script :: args) = args.
Proof. reflexivity. Qed.

Lemma is_str_other (value lit : string) :
  value <> lit -> is_str (JStr value) lit = false.
Proof. intros H. apply is_str_false. congruence. Qed.

(** C10, [BaseMCPServer.getTransportMode] and [run]: whatever the argument
    vector, the mode is "stdio" or "http", so [run] never takes its
    "Unknown transport mode" branch. In particular a first transport flag
    written [--transport=value] or [--transport value] with a value other
    than "http" gives "stdio". *)
Theorem transport_mode_is_stdio_or_http
    (parseInt : jsval -> option Z) (argv : list string) :
  (BaseServer.getTransportMode argv = "stdio"
   \/ BaseServer.getTransportMode argv = "http")
  /\ (forall mode, BaseServer.run parseInt argv <> BaseServer.ExitUnknownTransport mode)
  /\ (forall node script before value after,
        argv = (node :: script :: before ++ ("--transport=" +:+ value) :: after)%list ->
        no_transport_flag before ->
        JsString.includes value "=" = false ->
        value <> "http" ->
        BaseServer.getTransportMode argv = "stdio")
  /\ (forall node script before value after,
        argv = (node :: script :: before ++ "--transport" :: value :: after)%list ->
        no_transport_flag before ->
        value <> "http" ->
        BaseServer.getTransportMode argv = "stdio").
Proof.
  assert (Hmode : BaseServer.getTransportMode argv = "stdio"
                  \/ BaseServer.getTransportMode argv = "http").
  { unfold BaseServer.getTransportMode.
    repeat match goal with
           | |- context [if ?b then _ else _] => destruct b
           end; auto. }
  split; [exact Hmode|]. split; [|split].
  - intros mode. unfold BaseServer.run.
    destruct Hmode as [-> | ->]; discriminate.
  - intros node script before value after -> Hbefore Hnoeq Hvalue.
    unfold BaseServer.getTransportMode. rewrite !argv_args.
    rewrite (find_skip _ before ("--transport=" +:+ value) after Hbefore)
      by (apply (prefix_append_l "--transport" "--transport=" value); reflexivity).
    cbn [ofOption truthy js_String].
    assert (Hinc : JsString.includes ("--transport=" +:+ value) "=" = true).
    { apply (includes_append_r "--transport" (String "=" value)).
      apply includes_prefix. now destruct value. }
    rewrite Hinc.
    assert (Hsplit : JsString.split "=" ("--transport=" +:+ value)
                     = ["--transport"; value]).
    { rewrite !append_cons, append_empty.
      cbn [JsString.split Ascii.eqb Bool.eqb].
      now rewrite (split_without_separator "=" value Hnoeq). }
    rewrite Hsplit.
    change (BaseServer.at_index ["--transport"; value] 1) with (JStr value).
    rewrite is_str_other by assumption. reflexivity.
  - intros node script before value after -> Hbefore Hvalue.
    unfold BaseServer.getTransportMode. rewrite !argv_args.
    rewrite (find_skip _ before "--transport" (value :: after) Hbefore) by reflexivity.
    cbn [ofOption truthy js_String].
    rewrite (indexOf_skip "--transport" before (value :: after)
               (no_flag_differs before Hbefore)).
    rewrite at_index_after, is_str_other by assumption.
    reflexivity.
Qed.

Lemma transport_mode_witness :
  BaseServer.getTransportMode ["node"; "index.js"; "--transport=sse"] = "stdio"
  /\ BaseServer.getTransportMode ["node"; "index.js"; "--transport"; "websocket"]
     = "stdio".
Proof.
  split.
  - destruct (transport_mode_is_stdio_or_http (fun _ => None)
                ["node"; "index.js"; "--transport=sse"]) as (_ & _ & Heq & _).
    apply (Heq "node" "index.js" [] "sse" []);
      [reflexivity|constructor|reflexivity|discriminate].
  - destruct (transport_mode_is_stdio_or_http (fun _ => None)
                ["node"; "index.js"; "--transport"; "websocket"]) as (_ & _ & _ & Hsp).
    apply (Hsp "node" "index.js" [] "websocket" []);
      [reflexivity|constructor|discriminate].
Defined.

(** * Further properties *)

(** ** Port and transport selection *)

Lemma find_none {A} (p : A -> bool) (l : list A) :
  Forall (fun a => p a = false) l -> List.find p l = None.
Proof.
  induction 1 as [|a l Ha _ IH]; [reflexivity|]. simpl. now rewrite Ha.
Qed.

Lemma or3000_nonzero (n : option Z) : BaseServer.or3000 n <> 0.
Proof.
  destruct n as [z|]; simpl; [|discriminate].
  destruct (z =? 0) eqn:E; [discriminate|]. now apply Z.eqb_neq.
Qed.

Lemma split_flag_value (flag value : string) :
  JsString.includes flag "=" = false ->
  JsString.includes value "=" = false ->
  JsString.split "=" (flag +:+ String "=" value) = [flag; value].
Proof.
  intros Hf Hv. induction flag as [|c flag IH].
  - rewrite append_empty. cbn [JsString.split Ascii.eqb Bool.eqb].
    now rewrite (split_without_separator "=" value Hv).
  - cbn [JsString.includes String.prefix] in Hf.
    apply orb_false_iff in Hf as [Hc Hf].
    rewrite append_cons. cbn [JsString.split].
    destruct (Ascii.eqb c "=") eqn:E.
    + apply Ascii.eqb_eq in E. subst c. now destruct flag.
    + now rewrite (IH Hf).
Qed.

(** X1, [getPort] of the base class: the port is never 0; it is 3000 when
    no argument starts with "--port" and when the value of the first port
    flag is not a numeral [parseInt] reads (or reads as 0); otherwise it is
    the number read from [--port=value] or from the argument after
    [--port]. *)
Theorem getPort_default_and_value
    (parseInt : jsval -> option Z) (argv : list string) :
  BaseServer.getPort parseInt argv <> 0
  /\ (forall node script args,
        argv = (node :: script :: args)%list ->
        no_port_flag args ->
        BaseServer.getPort parseInt argv = 3000)
  /\ (forall node script before value after,
        argv = (node :: script :: before ++ ("--port=" +:+ value) :: after)%list ->
        no_port_flag before ->
        JsString.includes value "=" = false ->
        BaseServer.getPort parseInt argv = BaseServer.or3000 (parseInt (JStr value)))
  /\ (forall node script before value after,
        argv = (node :: script :: before ++ "--port" :: value :: after)%list ->
        no_port_flag before ->
        BaseServer.getPort parseInt argv = BaseServer.or3000 (parseInt (JStr value)))
  /\ (forall n, n <> 0 -> BaseServer.or3000 (Some n) = n)
  /\ BaseServer.or3000 (Some 0) = 3000
  /\ BaseServer.or3000 None = 3000.
Proof.
  split; [|split; [|split; [|split; [|split; [|split]]]]]; try reflexivity.
  - unfold BaseServer.getPort.
    repeat match goal with
           | |- context [if ?b then _ else _] => destruct b
           end; try apply or3000_nonzero; discriminate.
  - intros node script args -> Hnone. unfold BaseServer.getPort.
    rewrite argv_args, (find_none _ args Hnone). reflexivity.
  - intros node script before value after -> Hbefore Hnoeq.
    unfold BaseServer.getPort. rewrite !argv_args.
    rewrite (find_skip _ before ("--port=" +:+ value) after Hbefore)
      by (apply (prefix_append_l "--port" "--port=" value); reflexivity).
    cbn [ofOption js_String].
    assert (Hinc : JsString.includes ("--port=" +:+ value) "=" = true).
    { apply (includes_append_r "--port" (String "=" value)).
      apply includes_prefix. now destruct value. }
    rewrite Hinc.
    change ("--port=" +:+ value) with ("--port" +:+ String "=" value).
    rewrite (split_flag_value "--port" value) by (reflexivity || assumption).
    reflexivity.
  - intros node script before value after -> Hbefore.
    unfold BaseServer.getPort. rewrite !argv_args.
    rewrite (find_skip _ before "--port" (value :: after) Hbefore) by reflexivity.
    cbn [ofOption truthy js_String].
    assert (Hne : Forall (fun a => a <> "--port") before).
    { clear -Hbefore. induction Hbefore as [|a l Ha _ IH]; constructor; [|exact IH].
      intros ->. discriminate. }
    rewrite (indexOf_skip "--port" before (value :: after) Hne), at_index_after.
    reflexivity.
  - intros n Hn. simpl. apply Z.eqb_neq in Hn. now rewrite Hn.
Qed.

Lemma getPort_witness :
  BaseServer.getPort sample_parseInt ["node"; "index.js"; "--transport"; "http";
                                      "--port=8080"] = 8080
  /\ BaseServer.getPort sample_parseInt ["node"; "index.js"; "--port"; "0"] = 3000
  /\ BaseServer.getPort sample_parseInt ["node"; "index.js"; "--port"] = 3000.
Proof.
  split; [|split].
  - destruct (getPort_default_and_value sample_parseInt
                ["node"; "index.js"; "--transport"; "http"; "--port=8080"])
      as (_ & _ & Heq & _).
    rewrite (Heq "node" "index.js" ["--transport"; "http"] "8080" []);
      [reflexivity|reflexivity|repeat constructor|reflexivity].
  - destruct (getPort_default_and_value sample_parseInt
                ["node"; "index.js"; "--port"; "0"]) as (_ & _ & _ & Hsp & _).
    rewrite (Hsp "node" "index.js" [] "0" []); [reflexivity|reflexivity|constructor].
  - reflexivity.
Defined.

(** X2, [getTransportMode] of the base class without a transport flag: the
    mode is "http" exactly when some argument starts with "--port" or is
    the word "http", and "stdio" otherwise. *)
Theorem transport_mode_without_flag (node script : string) (args : list string) :
  no_transport_flag args ->
  (BaseServer.getTransportMode (node :: script :: args) = "http"
   <-> Exists http_hint args)
  /\ (BaseServer.getTransportMode (node :: script :: args) = "stdio"
      <-> Forall (fun arg => ~ http_hint arg) args).
Proof.
  intros Hnone. unfold BaseServer.getTransportMode.
  rewrite argv_args, (find_none _ args Hnone). cbn [ofOption truthy].
  assert (Hex : existsb (fun arg => JsString.startsWith arg "--port"
                                    || String.eqb arg "http") args = true
                <-> Exists http_hint args).
  { rewrite existsb_exists, List.Exists_exists. unfold http_hint.
    split; intros (a & Hin & Ha); exists a; (split; [exact Hin|]).
    - apply orb_true_iff in Ha as [Ha|Ha]; [now left|right; now apply String.eqb_eq].
    - apply orb_true_iff. destruct Ha as [Ha| ->]; [now left|right; apply String.eqb_refl]. }
  destruct (existsb _ args) eqn:E.
  - split; split; try discriminate; intros H.
    + now apply Hex.
    + reflexivity.
    + exfalso. assert (Hx : Exists http_hint args) by now apply Hex.
      apply List.Exists_exists in Hx as (a & Hin & Ha).
      rewrite List.Forall_forall in H. exact (H a Hin Ha).
  - split; split; try discriminate; intros H.
    + apply Hex in H. discriminate.
    + apply List.Forall_forall. intros a Hin Ha.
      assert (Hx : Exists http_hint args) by (apply List.Exists_exists; eauto).
      apply Hex in Hx. discriminate.
    + reflexivity.
Qed.

Lemma transport_mode_without_flag_witness :
  BaseServer.getTransportMode ["node"; "index.js"; "--port=8080"] = "http".
Proof.
  apply (transport_mode_without_flag "node" "index.js" ["--port=8080"]).
  - repeat constructor.
  - constructor. left. reflexivity.
Defined.

(** X3, [getTransportMode] and [run] of the BigQuery server: the value of
    the first transport flag is handed back as it is, so any value other
    than "stdio" and "http" ends in the "Unknown transport mode" exit; a
    flag with nothing after it means "stdio". *)
Theorem bigquery_transport_value_is_not_normalized
    (parseInt : jsval -> option Z) (node script : string)
    (before after : list string) (value : string) :
  no_transport_flag before ->
  (JsString.includes value "=" = false ->
     BigQuery.getTransportMode
       (node :: script :: before ++ ("--transport=" +:+ value) :: after)
     = JStr value
     /\ (value <> "stdio" -> value <> "http" ->
         BigQuery.run parseInt
           (node :: script :: before ++ ("--transport=" +:+ value) :: after)
         = BaseServer.ExitUnknownTransport value))
  /\ (value <> "" ->
      BigQuery.getTransportMode
        (node :: script :: before ++ "--transport" :: value :: after)
      = JStr value
      /\ (value <> "stdio" -> value <> "http" ->
          BigQuery.run parseInt
            (node :: script :: before ++ "--transport" :: value :: after)
          = BaseServer.ExitUnknownTransport value))
  /\ BigQuery.getTransportMode (node :: script :: before ++ ["--transport"])
     = JStr "stdio".
Proof.
  intros Hbefore.
  assert (Hne : Forall (fun a => a <> "--transport") before)
    by now apply no_flag_differs.
  assert (Hexit : forall argv,
             BigQuery.getTransportMode argv = JStr value ->
             value <> "stdio" -> value <> "http" ->
             BigQuery.run parseInt argv = BaseServer.ExitUnknownTransport value).
  { intros argv Hmode H1 H2. unfold BigQuery.run. rewrite Hmode.
    now rewrite !is_str_other by assumption. }
  split; [|split].
  - intros Hnoeq.
    assert (Hmode : BigQuery.getTransportMode
              (node :: script :: before ++ ("--transport=" +:+ value) :: after)
            = JStr value).
    { unfold BigQuery.getTransportMode. rewrite !argv_args.
      rewrite (find_skip _ before ("--transport=" +:+ value) after Hbefore)
        by (apply (prefix_append_l "--transport" "--transport=" value); reflexivity).
      cbn [ofOption js_String].
      assert (Hinc : JsString.includes ("--transport=" +:+ value) "=" = true).
      { apply (includes_append_r "--transport" (String "=" value)).
        apply includes_prefix. now destruct value. }
      rewrite Hinc.
      change ("--transport=" +:+ value) with ("--transport" +:+ String "=" value).
      rewrite (split_flag_value "--transport" value) by (reflexivity || assumption).
      reflexivity. }
    split; [exact Hmode|]. now apply Hexit.
  - intros Hvalue.
    assert (Hmode : BigQuery.getTransportMode
              (node :: script :: before ++ "--transport" :: value :: after)
            = JStr value).
    { unfold BigQuery.getTransportMode. rewrite !argv_args.
      rewrite (find_skip _ before "--transport" (value :: after) Hbefore) by reflexivity.
      cbn [ofOption truthy js_String].
      rewrite (indexOf_skip "--transport" before (value :: after) Hne), at_index_after.
      unfold js_or. cbn [truthy]. apply String.eqb_neq in Hvalue. now rewrite Hvalue. }
    split; [exact Hmode|]. now apply Hexit.
  - unfold BigQuery.getTransportMode. rewrite !argv_args.
    rewrite (find_skip _ before "--transport" [] Hbefore) by reflexivity.
    cbn [ofOption truthy js_String].
    rewrite (indexOf_skip "--transport" before [] Hne).
    assert (Hend : BaseServer.at_index (before ++ ["--transport"])%list
                     (Z.of_nat (List.length before) + 1) = JUndefined).
    { unfold BaseServer.at_index.
      destruct (Z.of_nat (List.length before) + 1 <? 0) eqn:E; [reflexivity|].
      replace (Z.to_nat (Z.of_nat (List.length before) + 1))
        with (S (List.length before)) by lia.
      clear. induction before as [|a before IH]; [reflexivity|exact IH]. }
    now rewrite Hend.
Qed.

Lemma bigquery_transport_witness :
  BigQuery.run sample_parseInt ["node"; "index.js"; "--transport=sse"]
  = BaseServer.ExitUnknownTransport "sse"
  /\ BaseServer.run sample_parseInt ["node"; "index.js"; "--transport=sse"]
     = BaseServer.RunStdio.
Proof.
  split; [|reflexivity].
  destruct (bigquery_transport_value_is_not_normalized sample_parseInt
              "node" "index.js" [] [] "sse") as (Heq & _).
  - constructor.
  - destruct Heq as [_ Hrun]; [reflexivity|].
    apply Hrun; discriminate.
Defined.

(** ** The [/mcp] route of the base class, for any subclass *)

(** X4, [runHTTP] of the base class with arbitrary subclass handlers:
    [initialize] is answered with the protocol version and the configured
    server name and version, and every method other than "initialize",
    "tools/list" and "tools/call" (an absent method too) with the error
    -32601 "Method not found"; both echo the request id and run no
    handler, so the log of vendor invocations is untouched. *)
Theorem base_route_initialize_and_unknown_method
    {S : Type} `{BaseServer.Handlers S} (this : S) (request : jsval)
    (log : list VendorCall) :
  isNullish request = false ->
  (get request "method" = JStr "initialize" ->
     exists result,
       BaseServer.mcp_post this request log
       = (Returned (BaseServer.EventStream
                      (result_envelope result (get request "id"))), log)
       /\ get result "protocolVersion" = JStr "2024-11-05"
       /\ get (get result "serverInfo") "name"
          = JStr (BaseServer.name (BaseServer.config this))
       /\ get (get result "serverInfo") "version"
          = JStr (BaseServer.version (BaseServer.config this)))
  /\ (get request "method" <> JStr "initialize" ->
      get request "method" <> JStr "tools/list" ->
      get request "method" <> JStr "tools/call" ->
      BaseServer.mcp_post this request log
      = (Returned (BaseServer.EventStream
                     (error_envelope (-32601) (JStr "Method not found")
                        (get request "id"))), log)).
Proof.
  intros Hreq. unfold BaseServer.mcp_post, try_catch, bind, prop. rewrite Hreq.
  split.
  - intros Hm. rewrite Hm. cbn. eexists. split; [reflexivity|]. repeat split.
  - intros H1 H2 H3. cbn [ret]. now rewrite !is_str_false by assumption.
Qed.

Lemma base_route_witness :
  MetaAds.mcp_post stub_vendor stub_stringify sample_meta
    (JObj [("jsonrpc", JStr "2.0"); ("method", JStr "Initialize"); ("id", JNum 3)]) []
  = (Returned (BaseServer.EventStream
                 (error_envelope (-32601) (JStr "Method not found") (JNum 3))), []).
Proof.
  unfold MetaAds.mcp_post.
  apply (base_route_initialize_and_unknown_method
           (H := MetaAds.handlers stub_vendor stub_stringify) sample_meta);
    try reflexivity; discriminate.
Defined.

(** ** Credential loading *)

Lemma env_value_some (env : Env) (name value : string) :
  getenv env name = Some value -> GoogleAuth.env_value env name = JStr value.
Proof. unfold GoogleAuth.env_value. now intros ->. Qed.

Lemma truthy_nonempty (s : string) : s <> "" -> truthy (JStr s) = true.
Proof. intros H. simpl. apply String.eqb_neq in H. now rewrite H. Qed.



Section AuthManager.
Context (readFileSync : string -> outcome string) (JSON_parse : string -> outcome jsval).
Context (env : Env).

Lemma js_or_truthy_r (a b : jsval) : truthy b = true -> truthy (js_or a b) = true.
Proof. intros Hb. unfold js_or. destruct (truthy a) eqn:E; assumption. Qed.

Lemma location_from_env_truthy : truthy (location_from_env env) = true.
Proof. apply js_or_truthy_r. reflexivity. Qed.

(** X6, [GoogleAuthManager.initializeFromEnvironment]: the location left
    in the manager is BQ_LOCATION, else GOOGLE_CLOUD_LOCATION, else "US",
    also when the call throws; a readable service-account file with a
    project id decides the project and the key file; the call returns the
    manager's configuration, with a truthy project id, or throws "Project
    ID is required" leaving a configuration without one. *)
Theorem auth_manager_initialization (config : GoogleAuth.GoogleAuthConfig) :
  let run := GoogleAuth.initializeFromEnvironment readFileSync JSON_parse env config in
  GoogleAuth.location (snd run) = location_from_env env
  /\ (forall l, getenv env "BQ_LOCATION" = Some l -> l <> "" ->
        GoogleAuth.location (snd run) = JStr l)
  /\ (forall l, present (getenv env "BQ_LOCATION") = false ->
        getenv env "GOOGLE_CLOUD_LOCATION" = Some l -> l <> "" ->
        GoogleAuth.location (snd run) = JStr l)
  /\ (present (getenv env "BQ_LOCATION") = false ->
      present (getenv env "GOOGLE_CLOUD_LOCATION") = false ->
      GoogleAuth.location (snd run) = JStr "US")
  /\ (forall path project,
        getenv env "GOOGLE_APPLICATION_CREDENTIALS" = Some path -> path <> "" ->
        project_in_file readFileSync JSON_parse path project ->
        fst run = Returned (snd run)
        /\ GoogleAuth.projectId (snd run) = project
        /\ GoogleAuth.keyFilename (snd run) = JStr path)
  /\ (forall returned, fst run = Returned returned ->
        returned = snd run /\ truthy (GoogleAuth.projectId returned) = true)
  /\ (forall error, fst run = Thrown error ->
        error = Error GoogleAuth.project_required
        /\ truthy (GoogleAuth.projectId (snd run)) = false).
Proof.
  intros run.
  assert (Hloc : GoogleAuth.location (snd run) = location_from_env env).
  { unfold run, GoogleAuth.initializeFromEnvironment.
    match goal with |- context [if ?b then (Thrown _, _) else _] => destruct b end;
      reflexivity. }
  split; [exact Hloc|]. rewrite Hloc. unfold location_from_env, js_or.
  split; [|split; [|split; [|split; [|split]]]].
  - intros l Hl Hne. rewrite (env_value_some _ _ _ Hl), !(truthy_nonempty l Hne).
    reflexivity.
  - intros l Hb Hl Hne. unfold present in Hb.
    fold (GoogleAuth.env_value env "BQ_LOCATION") in Hb.
    rewrite Hb, (env_value_some _ _ _ Hl), !(truthy_nonempty l Hne). reflexivity.
  - intros Hb Hg. unfold present in Hb, Hg.
    fold (GoogleAuth.env_value env "BQ_LOCATION") in Hb.
    fold (GoogleAuth.env_value env "GOOGLE_CLOUD_LOCATION") in Hg.
    now rewrite Hb, Hg.
  - intros path project Hpath Hne [Hread Htruthy].
    unfold run, GoogleAuth.initializeFromEnvironment.
    rewrite (env_value_some _ _ _ Hpath), (truthy_nonempty path Hne).
    cbn [js_String]. rewrite Hread.
    cbn [GoogleAuth.projectId GoogleAuth.keyFilename GoogleAuth.location].
    rewrite Htruthy. cbn [negb GoogleAuth.projectId GoogleAuth.keyFilename].
    rewrite Htruthy. cbn [negb fst snd GoogleAuth.projectId GoogleAuth.keyFilename].
    repeat split.
  - intros returned. unfold run, GoogleAuth.initializeFromEnvironment.
    match goal with
    | |- context [if negb (truthy ?p) then (Thrown _, _) else _] =>
        destruct (truthy p) eqn:E
    end; cbn [negb fst snd]; intros Hr; [|discriminate].
    injection Hr as <-. split; [reflexivity|exact E].
  - intros error. unfold run, GoogleAuth.initializeFromEnvironment.
    match goal with
    | |- context [if negb (truthy ?p) then (Thrown _, _) else _] =>
        destruct (truthy p) eqn:E
    end; cbn [negb fst snd]; intros Hr; [discriminate|].
    injection Hr as <-. split; [reflexivity|exact E].
Qed.

(** X7, [initializeFromEnvironment] is idempotent: run again on the
    configuration it left in the manager, with the same environment and
    files, it has the same outcome and leaves the same configuration. *)
Theorem auth_manager_initialization_idempotent (config : GoogleAuth.GoogleAuthConfig) :
  let run := GoogleAuth.initializeFromEnvironment readFileSync JSON_parse env config in
  GoogleAuth.initializeFromEnvironment readFileSync JSON_parse env (snd run) = run.
Proof.
  intros run. unfold run, GoogleAuth.initializeFromEnvironment.
  destruct (truthy (GoogleAuth.env_value env "GOOGLE_APPLICATION_CREDENTIALS"));
    [destruct (GoogleAuth.read_project_id readFileSync JSON_parse _) as [project|error]|];
    repeat (cbn [negb fst snd GoogleAuth.projectId GoogleAuth.keyFilename
                 GoogleAuth.location];
            try reflexivity;
            match goal with
            | H : truthy ?x = _ |- context [truthy ?x] => rewrite H
            | |- context [truthy (GoogleAuth.projectId config)] =>
                destruct (truthy (GoogleAuth.projectId config)) eqn:?
            | |- context [truthy (GoogleAuth.project_from_env env)] =>
                destruct (truthy (GoogleAuth.project_from_env env)) eqn:?
            | |- context [truthy ?x] => is_var x; destruct (truthy x) eqn:?
            end).
Qed.

(** X8, after a successful [initializeFromEnvironment] on a new manager:
    [createClientOptions] always carries the project id and a location,
    and a [keyFilename] exactly when the configuration has one;
    [validateAuth] answers whether GOOGLE_APPLICATION_CREDENTIALS is set
    to a non-empty value, so it is [false] for a project that came from a
    project variable alone, and [true] for a credentials file that could
    not be read. *)
Theorem auth_manager_options_and_validation (returned : GoogleAuth.GoogleAuthConfig) :
  fst (GoogleAuth.initializeFromEnvironment readFileSync JSON_parse env GoogleAuth.initial)
  = Returned returned ->
  let options := GoogleAuth.createClientOptions returned in
  get options "projectId" = GoogleAuth.projectId returned
  /\ truthy (get options "projectId") = true
  /\ get options "location" = location_from_env env
  /\ has_field options "keyFilename" = truthy (GoogleAuth.keyFilename returned)
  /\ GoogleAuth.validateAuth env returned
     = present (getenv env "GOOGLE_APPLICATION_CREDENTIALS").
Proof.
  intros Hrun options.
  destruct (auth_manager_initialization GoogleAuth.initial)
    as (Hloc & _ & _ & _ & _ & Hret & _).
  destruct (Hret returned Hrun) as [Heq Hproject].
  rewrite <- Heq in Hloc.
  assert (Hkey : truthy (GoogleAuth.keyFilename returned) = true ->
                 truthy (GoogleAuth.env_value env "GOOGLE_APPLICATION_CREDENTIALS") = true).
  { rewrite Heq. unfold GoogleAuth.initializeFromEnvironment.
    destruct (truthy (GoogleAuth.env_value env "GOOGLE_APPLICATION_CREDENTIALS"));
      [reflexivity|].
    cbn [GoogleAuth.initial GoogleAuth.projectId GoogleAuth.keyFilename truthy negb].
    destruct (negb (truthy (GoogleAuth.project_from_env env))); cbn; discriminate. }
  unfold options, GoogleAuth.createClientOptions.
  pose proof location_from_env_truthy as Hl. rewrite <- Hloc in Hl. rewrite Hl.
  unfold GoogleAuth.validateAuth, present. rewrite Hproject.
  fold (GoogleAuth.env_value env "GOOGLE_APPLICATION_CREDENTIALS").
  destruct (truthy (GoogleAuth.keyFilename returned)) eqn:Ek.
  - rewrite (Hkey eq_refl). cbn. rewrite Hloc. repeat split; assumption.
  - cbn. rewrite Hloc. repeat split; assumption.
Qed.

End AuthManager.

Lemma auth_manager_initialization_witness :
  let run :=
    GoogleAuth.initializeFromEnvironment sample_readFileSync sample_JSON_parse
      credentials_env GoogleAuth.initial in
  fst run = Returned (snd run)
  /\ GoogleAuth.projectId (snd run) = JStr "file-project"
  /\ GoogleAuth.keyFilename (snd run) = JStr "/keys/sa.json".
Proof.
  intros run.
  pose proof (auth_manager_initialization sample_readFileSync sample_JSON_parse
                credentials_env GoogleAuth.initial) as H.
  cbv zeta in H. destruct H as (_ & _ & _ & _ & Hfile & _).
  apply (Hfile "/keys/sa.json" (JStr "file-project"));
    [reflexivity|discriminate|split; reflexivity].
Defined.

Lemma auth_manager_validation_witness :
  GoogleAuth.validateAuth broken_credentials_env
    {| GoogleAuth.projectId := JStr "bq-project";
       GoogleAuth.keyFilename := JUndefined;
       GoogleAuth.location := JStr "US" |}
  = true.
Proof.
  destruct (auth_manager_options_and_validation sample_readFileSync sample_JSON_parse
              broken_credentials_env
              {| GoogleAuth.projectId := JStr "bq-project";
                 GoogleAuth.keyFilename := JUndefined;
                 GoogleAuth.location := JStr "US" |} eq_refl)
    as (_ & _ & _ & _ & Hvalid).
  exact Hvalid.
Defined.

(** ** The Meta Ads server after construction *)

Lemma meta_construct_fields (env : Env) (server : MetaAds.MetaAdsMCPServer) :
  MetaAds.construct env = Returned server ->
  MetaAds.api server = false
  /\ MetaAds.initializeMetaAds env
     = Returned {| MetaAds.api := true; MetaAds.adsConfig := MetaAds.read_config env |}.
Proof.
  unfold MetaAds.construct, MetaAds.initialize, MetaAds.initializeMetaAds.
  destruct (0 <? Z.of_nat (List.length (MetaAds.missingFields (MetaAds.read_config env))));
    [discriminate|].
  intros H. injection H as <-. split; reflexivity.
Qed.

(** X9, a Meta Ads server as its constructor leaves it: the property
    initializers of the subclass run after the base constructor has called
    [initialize], so the API handle is [null] again; every [tools/call]
    for a catalogued tool is then answered over HTTP with the error -32000
    "Meta Ads API not initialized", and no vendor invocation is made. *)
Theorem meta_http_after_construction
    (vendor : Vendor) (stringify : jsval -> string)
    (env : Env) (server : MetaAds.MetaAdsMCPServer)
    (name : string) (args id : jsval) (log : list VendorCall) :
  MetaAds.construct env = Returned server ->
  In name MetaAds.toolNames ->
  MetaAds.api server = false
  /\ MetaAds.handleToolCall vendor stringify server (tools_call_request name args id) log
     = (Returned (error_envelope (-32000) (JStr "Meta Ads API not initialized") id), log)
  /\ MetaAds.mcp_post vendor stringify server (tools_call_request name args id) log
     = (Returned (BaseServer.EventStream
                    (error_envelope (-32000) (JStr "Meta Ads API not initialized") id)),
        log).
Proof.
  intros Hc Hname. destruct (meta_construct_fields env server Hc) as [Hapi _].
  split; [exact Hapi|].
  assert (Hcall : MetaAds.handleToolCall vendor stringify server
                    (tools_call_request name args id) log
                  = (Returned (error_envelope (-32000)
                                 (JStr "Meta Ads API not initialized") id), log)).
  { vm_compute in Hname.
    repeat (destruct Hname as [<-|Hname];
            [unfold MetaAds.handleToolCall, MetaAds.call_tool, try_catch, bind;
             cbn -[js_or]; rewrite Hapi; reflexivity|]).
    destruct Hname. }
  split; [exact Hcall|].
  unfold MetaAds.mcp_post, BaseServer.mcp_post, try_catch, bind, prop. cbn.
  change (BaseServer.handleToolCall server (tools_call_request name args id) log)
    with (MetaAds.handleToolCall vendor stringify server
            (tools_call_request name args id) log).
  now rewrite Hcall.
Qed.

Lemma meta_http_after_construction_witness :
  exists server,
    MetaAds.construct meta_env = Returned server
    /\ MetaAds.handleToolCall stub_vendor stub_stringify server
         (tools_call_request "list_campaigns" (JObj []) (JNum 5)) []
       = (Returned (error_envelope (-32000) (JStr "Meta Ads API not initialized")
                      (JNum 5)), []).
Proof.
  eexists. split; [reflexivity|].
  eapply (meta_http_after_construction stub_vendor stub_stringify meta_env).
  - reflexivity.
  - vm_compute. tauto.
Defined.

(** X10, [get_account_info] over stdio repairs that: called on the server
    the constructor leaves, with the environment unchanged, it
    re-initializes, so afterwards the API handle is set and the
    configuration is the one read from the environment; [list_campaigns],
    which threw "Meta Ads API not initialized" before, now asks the vendor
    for the campaigns of the configured account. *)
Theorem meta_get_account_info_reinitializes
    (vendor : Vendor) (stringify : jsval -> string)
    (env : Env) (server : MetaAds.MetaAdsMCPServer)
    (args largs : jsval) (log : list VendorCall) :
  MetaAds.construct env = Returned server ->
  let after :=
    MetaAds.get_account_info_tool vendor stringify env server args log in
  let server' := snd (fst after) in
  MetaAds.list_campaigns_tool vendor stringify server largs log
    = (Thrown (Error "Meta Ads API not initialized"), log)
  /\ (exists result, fst (fst after) = Returned result)
  /\ MetaAds.api server' = true
  /\ MetaAds.adsConfig server' = MetaAds.read_config env
  /\ (truthy (meta_account server' largs) = true ->
      snd (MetaAds.list_campaigns_tool vendor stringify server' largs (snd after))
      = (snd after
           ++ [FB_getCampaigns (JStr ("act_" +:+ js_String (meta_account server' largs)))
                 MetaAds.campaignListFields (MetaAds.list_params largs)])%list).
Proof.
  intros Hc after server'.
  destruct (meta_construct_fields env server Hc) as [Hapi Hinit].
  assert (Hre : MetaAds.reinitialize env server
                = (Returned tt, {| MetaAds.api := true;
                                   MetaAds.adsConfig := MetaAds.read_config env |})).
  { unfold MetaAds.reinitialize. now rewrite Hapi, Hinit. }
  assert (Hs : server' = {| MetaAds.api := true;
                            MetaAds.adsConfig := MetaAds.read_config env |}).
  { unfold server', after, MetaAds.get_account_info_tool. rewrite Hre.
    now destruct (try_catch _ _ log). }
  split; [|split; [|split; [|split]]].
  - unfold MetaAds.list_campaigns_tool. now rewrite Hapi.
  - unfold after, MetaAds.get_account_info_tool. rewrite Hre.
    unfold try_catch, bind, await.
    destruct (negb (truthy _)); cbn; [now eexists|].
    run_vendor vendor; now eexists.
  - now rewrite Hs.
  - now rewrite Hs.
  - intros Hacc. apply meta_list_campaigns_tool_calls; [now rewrite Hs|exact Hacc].
Qed.

Lemma meta_get_account_info_reinitializes_witness :
  exists server,
    MetaAds.construct meta_env = Returned server
    /\ MetaAds.api
         (snd (fst (MetaAds.get_account_info_tool stub_vendor stub_stringify meta_env
                      server (JObj []) []))) = true.
Proof.
  eexists. split; [reflexivity|].
  pose proof (meta_get_account_info_reinitializes stub_vendor stub_stringify meta_env
                _ (JObj []) (JObj []) [] eq_refl) as H.
  cbv zeta in H. destruct H as (_ & _ & Hapi & _). exact Hapi.
Defined.

(** ** Parameters of the Meta Ads tools *)

Lemma list_params_filtering (args : jsval) :
  (truthy (get args "status") = true ->
     get (MetaAds.list_params args) "filtering" = status_filter (get args "status"))
  /\ (truthy (get args "status") = false ->
      has_field (MetaAds.list_params args) "filtering" = false).
Proof.
  unfold MetaAds.list_params, MetaAds.with_status_filter.
  split; intros ->; reflexivity.
Qed.

(** X11, the list tools of Meta Ads (registered handlers and HTTP cases):
    the parameters sent to the vendor hold a [filtering] entry exactly
    when the caller gives a status, and then it is the one filter
    "status IN [<status>]"; without a status no filter is sent. This
    holds for [list_adsets] and [list_ads] on every server whose API
    handle is set, and for [list_campaigns] when an account resolves, the
    condition of its invocation. *)
Theorem meta_status_filter_only_when_supplied
    (vendor : Vendor) (stringify : jsval -> string)
    (this : MetaAds.MetaAdsMCPServer) (args id : jsval) (log : list VendorCall) :
  MetaAds.api this = true ->
  let expected (params : jsval) :=
    (forall status, get args "status" = JStr status -> status <> "" ->
       get params "filtering" = status_filter (JStr status))
    /\ (has_field args "status" = false -> has_field params "filtering" = false) in
  (truthy (meta_account this args) = true ->
   forwards_params (MetaAds.list_campaigns_tool vendor stringify this args) log expected
   /\ forwards_params
        (MetaAds.handleToolCall vendor stringify this
           (tools_call_request "list_campaigns" args id)) log expected)
  /\ forwards_params (MetaAds.list_adsets_tool vendor stringify this args) log expected
  /\ forwards_params (MetaAds.list_ads_tool vendor stringify this args) log expected
  /\ forwards_params
       (MetaAds.handleToolCall vendor stringify this
          (tools_call_request "list_adsets" args id)) log expected
  /\ forwards_params
       (MetaAds.handleToolCall vendor stringify this
          (tools_call_request "list_ads" args id)) log expected.
Proof.
  intros Hapi expected.
  assert (He : expected (MetaAds.list_params args)).
  { destruct (list_params_filtering args) as [Hyes Hno]. split.
    - intros status Hs Hne. rewrite <- Hs. apply Hyes. rewrite Hs.
      now apply truthy_nonempty.
    - intros Hom. apply Hno. apply get_omitted in Hom; [|discriminate].
      now rewrite Hom. }
  split; [intros Hacc; split|repeat split]; eexists.
  - split; [now apply meta_list_campaigns_tool_calls|exact He].
  - split; [now apply meta_list_campaigns_http_calls|exact He].
  - split; [now apply meta_list_adsets_tool_calls|exact He].
  - split; [now apply meta_list_ads_tool_calls|exact He].
  - split; [now apply meta_list_adsets_http_calls|exact He].
  - split; [now apply meta_list_ads_http_calls|exact He].
Qed.

Lemma meta_status_filter_witness :
  forwards_params
    (MetaAds.list_adsets_tool stub_vendor stub_stringify sample_meta
       (JObj [("campaignId", JStr "9"); ("status", JStr "PAUSED")])) []
    (fun params => get params "filtering" = status_filter (JStr "PAUSED")).
Proof.
  pose proof (meta_status_filter_only_when_supplied stub_vendor stub_stringify
                sample_meta (JObj [("campaignId", JStr "9"); ("status", JStr "PAUSED")])
                (JNum 1) [] eq_refl) as H.
  cbv zeta in H. destruct H as (_ & (c & Hlog & Hyes & _) & _).
  exists c. split; [exact Hlog|]. apply (Hyes "PAUSED"); [reflexivity|discriminate].
Defined.

Lemma meta_no_account_tool vendor stringify this (args : jsval) log :
  MetaAds.api this = true ->
  truthy (meta_account this args) = false ->
  MetaAds.list_campaigns_tool vendor stringify this args log
  = (Returned (text_content
       "Error listing campaigns: No account ID provided and no default account ID configured"),
     log).
Proof.
  intros Hapi Hacc. unfold MetaAds.list_campaigns_tool, try_catch.
  rewrite Hapi. fold (meta_account this args). now rewrite Hacc.
Qed.

Lemma meta_no_account_http vendor stringify this (name : string) (args id : jsval) log :
  name = "list_campaigns" \/ name = "get_account_info" ->
  MetaAds.api this = true ->
  truthy (meta_account this args) = false ->
  MetaAds.handleToolCall vendor stringify this (tools_call_request name args id) log
  = (Returned (error_envelope (-32000)
       (JStr "No account ID provided and no default account ID configured") id),
     log).
Proof.
  intros Hname Hapi Hacc. unfold MetaAds.handleToolCall, try_catch, bind.
  change (js_or (opt_get (get (tools_call_request name args id) "params")
                   "arguments") (JObj []))
    with (js_or args (JObj [])).
  unfold MetaAds.call_tool.
  destruct Hname as [-> | ->];
    cbn -[js_or truthy]; rewrite Hapi, get_or_empty;
    fold (meta_account this args); rewrite Hacc; reflexivity.
Qed.

(** X12, the account of [list_campaigns] and [get_account_info]: an
    [accountId] argument wins over the configured default, which is used
    when the argument is absent; the vendor object is "act_" followed by
    the id. With neither, no vendor invocation is made: the registered
    handler returns the text "Error listing campaigns: No account ID
    provided and no default account ID configured" and the HTTP cases the
    error -32000 with that message. *)
Theorem meta_account_resolution
    (vendor : Vendor) (stringify : jsval -> string)
    (this : MetaAds.MetaAdsMCPServer) (args id : jsval) (log : list VendorCall) :
  MetaAds.api this = true ->
  (forall account, get args "accountId" = JStr account -> account <> "" ->
     meta_account this args = JStr account)
  /\ (forall account, has_field args "accountId" = false ->
      MetaAds.accountId (MetaAds.adsConfig this) = Some account ->
      meta_account this args = JStr account)
  /\ (truthy (meta_account this args) = true ->
      snd (MetaAds.list_campaigns_tool vendor stringify this args log)
      = (log ++ [FB_getCampaigns (JStr ("act_" +:+ js_String (meta_account this args)))
                   MetaAds.campaignListFields (MetaAds.list_params args)])%list
      /\ snd (MetaAds.handleToolCall vendor stringify this
                (tools_call_request "get_account_info" args id) log)
         = (log ++ [FB_read AdAccountCls
                      (JStr ("act_" +:+ js_String (meta_account this args)))
                      MetaAds.accountFields])%list)
  /\ (truthy (meta_account this args) = false ->
      MetaAds.list_campaigns_tool vendor stringify this args log
      = (Returned (text_content
           "Error listing campaigns: No account ID provided and no default account ID configured"),
         log)
      /\ (forall name, name = "list_campaigns" \/ name = "get_account_info" ->
          MetaAds.handleToolCall vendor stringify this (tools_call_request name args id) log
          = (Returned (error_envelope (-32000)
               (JStr "No account ID provided and no default account ID configured") id),
             log))).
Proof.
  intros Hapi. split; [|split; [|split]].
  - intros account Hget Hne. unfold meta_account, js_or.
    now rewrite Hget, (truthy_nonempty account Hne).
  - intros account Hom Hcfg. apply get_omitted in Hom; [|discriminate].
    unfold meta_account, js_or. now rewrite Hom, Hcfg.
  - intros Hacc. split; [now apply meta_list_campaigns_tool_calls|].
    unfold MetaAds.handleToolCall, try_catch, bind.
    change (js_or (opt_get (get (tools_call_request "get_account_info" args id) "params")
                     "arguments") (JObj []))
      with (js_or args (JObj [])).
    unfold MetaAds.call_tool, bind, await.
    cbn -[app js_or js_String truthy].
    rewrite Hapi, get_or_empty. fold (meta_account this args). rewrite Hacc.
    cbn -[app js_String]. run_vendor vendor; reflexivity.
  - intros Hacc. split; [now apply meta_no_account_tool|].
    intros name Hname. now apply meta_no_account_http.
Qed.

Lemma meta_account_resolution_witness :
  snd (MetaAds.list_campaigns_tool stub_vendor stub_stringify sample_meta
         (JObj [("accountId", JStr "77")]) [])
  = [FB_getCampaigns (JStr "act_77") MetaAds.campaignListFields
       (JObj [("limit", JNum 25)])].
Proof.
  destruct (meta_account_resolution stub_vendor stub_stringify sample_meta
              (JObj [("accountId", JStr "77")]) (JNum 1) [] eq_refl)
    as (_ & _ & Hcall & _).
  destruct Hcall as [Htool _]; [reflexivity|]. exact Htool.
Defined.

(** X13, [get_insights] with an object type other than "campaign",
    "adset" and "ad" (an absent one too): no vendor invocation is made; the
    registered handler returns the text "Error getting insights: Invalid
    object type" and the HTTP case the error -32000 "Invalid object
    type". *)
Theorem meta_get_insights_invalid_object_type
    (vendor : Vendor) (stringify : jsval -> string)
    (this : MetaAds.MetaAdsMCPServer) (args id : jsval) (log : list VendorCall) :
  MetaAds.api this = true ->
  ~ In (get args "objectType") objectTypes ->
  MetaAds.get_insights_tool vendor stringify this args log
  = (Returned (text_content "Error getting insights: Invalid object type"), log)
  /\ MetaAds.handleToolCall vendor stringify this
       (tools_call_request "get_insights" args id) log
     = (Returned (error_envelope (-32000) (JStr "Invalid object type") id), log).
Proof.
  intros Hapi Htype.
  assert (Hobj : MetaAds.insight_object (get args "objectType") log
                 = (Thrown (Error "Invalid object type"), log)).
  { unfold MetaAds.insight_object.
    rewrite !is_str_false; [reflexivity| | |];
      intros E; apply Htype; rewrite E; cbn; tauto. }
  split.
  - unfold MetaAds.get_insights_tool, try_catch, bind. rewrite Hapi.
    cbn [negb]. cbv beta. now rewrite Hobj.
  - unfold MetaAds.handleToolCall, try_catch, bind.
    change (js_or (opt_get (get (tools_call_request "get_insights" args id) "params")
                     "arguments") (JObj []))
      with (js_or args (JObj [])).
    unfold MetaAds.call_tool, bind.
    cbn -[js_or MetaAds.insight_params MetaAds.insight_object].
    rewrite Hapi, !get_or_empty. cbn [negb]. cbv beta. now rewrite Hobj.
Qed.

Lemma meta_get_insights_invalid_object_type_witness :
  MetaAds.get_insights_tool stub_vendor stub_stringify sample_meta
    (JObj [("objectId", JStr "42"); ("objectType", JStr "account")]) []
  = (Returned (text_content "Error getting insights: Invalid object type"), []).
Proof.
  apply (meta_get_insights_invalid_object_type stub_vendor stub_stringify sample_meta
           (JObj [("objectId", JStr "42"); ("objectType", JStr "account")]) (JNum 1) []).
  - reflexivity.
  - cbn. intros [H|[H|[H|[]]]]; discriminate H.
Defined.

Section InsightFields.
Context (vendor : Vendor) (stringify : jsval -> string).
Context (this : MetaAds.MetaAdsMCPServer) (args id : jsval) (log : list VendorCall).
Hypothesis api_set : MetaAds.api this = true.
Hypothesis valid_type : In (get args "objectType") objectTypes.

Lemma meta_get_insights_tool_fields :
  insights_fields_requested (MetaAds.get_insights_tool vendor stringify this args) log
    (js_or (get args "metrics") MetaAds.defaultMetrics).
Proof.
  destruct (insight_object_valid _ log valid_type) as [cls Hcls].
  unfold insights_fields_requested, MetaAds.get_insights_tool, try_catch, bind, await.
  rewrite api_set. cbn [negb]. cbv beta. rewrite Hcls.
  cbn -[app MetaAds.insight_params js_or].
  run_vendor vendor; eexists _, _, _, _; reflexivity.
Qed.

Lemma meta_get_insights_http_fields :
  insights_fields_requested
    (MetaAds.handleToolCall vendor stringify this
       (tools_call_request "get_insights" args id)) log
    (js_or (get args "metrics") MetaAds.defaultMetrics).
Proof.
  destruct (insight_object_valid _ log valid_type) as [cls Hcls].
  unfold insights_fields_requested, MetaAds.handleToolCall, try_catch, bind.
  change (js_or (opt_get (get (tools_call_request "get_insights" args id) "params")
                   "arguments") (JObj []))
    with (js_or args (JObj [])).
  unfold MetaAds.call_tool, bind, await.
  cbn -[app js_or MetaAds.insight_params MetaAds.insight_object].
  rewrite api_set, !get_or_empty. cbn [negb]. cbv beta. rewrite Hcls.
  cbn -[app MetaAds.insight_params js_or].
  run_vendor vendor; eexists _, _, _, _; reflexivity.
Qed.

End InsightFields.

(** X14, the metrics of [get_insights]: without a [metrics] argument the
    vendor is asked for the ten default metrics; a [metrics] list is passed
    on as it is, an empty list too (it does not bring the defaults
    back). *)
Theorem meta_get_insights_metrics
    (vendor : Vendor) (stringify : jsval -> string)
    (this : MetaAds.MetaAdsMCPServer) (args id : jsval) (log : list VendorCall) :
  MetaAds.api this = true ->
  In (get args "objectType") objectTypes ->
  let tool := MetaAds.get_insights_tool vendor stringify this args in
  let http :=
    MetaAds.handleToolCall vendor stringify this
      (tools_call_request "get_insights" args id) in
  (has_field args "metrics" = false ->
     insights_fields_requested tool log MetaAds.defaultMetrics
     /\ insights_fields_requested http log MetaAds.defaultMetrics)
  /\ (forall metrics, get args "metrics" = JArr metrics ->
      insights_fields_requested tool log (JArr metrics)
      /\ insights_fields_requested http log (JArr metrics))
  /\ List.length (elements MetaAds.defaultMetrics) = 10%nat.
Proof.
  intros Hapi Htype tool http.
  pose proof (meta_get_insights_tool_fields vendor stringify this args log Hapi Htype) as Ht.
  pose proof (meta_get_insights_http_fields vendor stringify this args id log Hapi Htype)
    as Hh.
  fold tool in Ht. fold http in Hh.
  split; [|split; [|reflexivity]].
  - intros Hom. apply get_omitted in Hom; [|discriminate].
    rewrite Hom in Ht, Hh. now split.
  - intros metrics Hm. rewrite Hm in Ht, Hh. now split.
Qed.

Lemma meta_get_insights_metrics_witness :
  insights_fields_requested
    (MetaAds.get_insights_tool stub_vendor stub_stringify sample_meta
       (JObj [("objectId", JStr "42"); ("objectType", JStr "ad"); ("metrics", JArr [])]))
    [] (JArr []).
Proof.
  pose proof (meta_get_insights_metrics stub_vendor stub_stringify sample_meta
                (JObj [("objectId", JStr "42"); ("objectType", JStr "ad");
                       ("metrics", JArr [])]) (JNum 1) []) as H.
  cbv zeta in H. destruct H as (_ & Hlist & _).
  - reflexivity.
  - right. right. left. reflexivity.
  - apply (Hlist []). reflexivity.
Defined.

(** ** Registered handlers and HTTP cases agree *)

Ltac agree_by_cases vendor :=
  first
    [ run_vendor vendor;
      eexists; [left|right]; eexists; split; reflexivity
    | eexists; right; eexists; split; reflexivity
    | eexists; left; eexists; split; reflexivity ].

Section MetaAgreement.
Context (vendor : Vendor) (stringify : jsval -> string).
Context (this : MetaAds.MetaAdsMCPServer) (args id : jsval) (log : list VendorCall).
Hypothesis api_set : MetaAds.api this = true.

Ltac http_case name :=
  unfold MetaAds.handleToolCall, try_catch, bind;
  change (js_or (opt_get (get (tools_call_request name args id) "params")
                   "arguments") (JObj []))
    with (js_or args (JObj []));
  unfold MetaAds.call_tool, bind, await;
  cbn -[app js_or js_String truthy MetaAds.list_params MetaAds.insight_params
        MetaAds.insight_object];
  rewrite api_set, ?get_or_empty, ?list_params_or_empty;
  cbn [negb]; cbv beta.

Lemma meta_list_campaigns_agree :
  transports_agree (MetaAds.list_campaigns_tool vendor stringify this args)
    (MetaAds.handleToolCall vendor stringify this
       (tools_call_request "list_campaigns" args id))
    "Error listing campaigns: " id log.
Proof.
  unfold transports_agree. http_case "list_campaigns".
  unfold MetaAds.list_campaigns_tool, try_catch, bind, await. rewrite api_set.
  cbn [negb]. cbv beta.
  destruct (negb (truthy (js_or (get args "accountId") _))); cbn -[app js_String].
  - eexists. right. exists (Error MetaAds.no_account). split; reflexivity.
  - agree_by_cases vendor.
Qed.

Lemma meta_get_campaign_agree :
  transports_agree (MetaAds.get_campaign_tool vendor stringify this args)
    (MetaAds.handleToolCall vendor stringify this
       (tools_call_request "get_campaign" args id))
    "Error getting campaign: " id log.
Proof.
  unfold transports_agree. http_case "get_campaign".
  unfold MetaAds.get_campaign_tool, try_catch, bind, await. rewrite api_set.
  cbn -[app]. agree_by_cases vendor.
Qed.

Lemma meta_list_adsets_agree :
  transports_agree (MetaAds.list_adsets_tool vendor stringify this args)
    (MetaAds.handleToolCall vendor stringify this
       (tools_call_request "list_adsets" args id))
    "Error listing ad sets: " id log.
Proof.
  unfold transports_agree. http_case "list_adsets".
  unfold MetaAds.list_adsets_tool, try_catch, bind, await. rewrite api_set.
  cbn -[app MetaAds.list_params]. agree_by_cases vendor.
Qed.

Lemma meta_list_ads_agree :
  transports_agree (MetaAds.list_ads_tool vendor stringify this args)
    (MetaAds.handleToolCall vendor stringify this
       (tools_call_request "list_ads" args id))
    "Error listing ads: " id log.
Proof.
  unfold transports_agree. http_case "list_ads".
  unfold MetaAds.list_ads_tool, try_catch, bind, await. rewrite api_set.
  cbn -[app MetaAds.list_params]. agree_by_cases vendor.
Qed.

Lemma meta_get_insights_agree :
  transports_agree (MetaAds.get_insights_tool vendor stringify this args)
    (MetaAds.handleToolCall vendor stringify this
       (tools_call_request "get_insights" args id))
    "Error getting insights: " id log.
Proof.
  unfold transports_agree. http_case "get_insights".
  assert (Hp : MetaAds.insight_params (js_or args (JObj [])) = MetaAds.insight_params args).
  { unfold MetaAds.insight_params. now rewrite !get_or_empty. }
  rewrite Hp.
  unfold MetaAds.get_insights_tool, try_catch, bind, await. rewrite api_set.
  cbn [negb]. cbv beta.
  destruct (MetaAds.insight_object (get args "objectType") log) as [[cls|error] log'];
    cbn -[app MetaAds.insight_params js_or].
  - agree_by_cases vendor.
  - eexists. right. exists error. split; reflexivity.
Qed.

Lemma meta_get_account_info_agree (env : Env) :
  transports_agree
    (fun l =>
       let after := MetaAds.get_account_info_tool vendor stringify env this args l in
       (fst (fst after), snd after))
    (MetaAds.handleToolCall vendor stringify this
       (tools_call_request "get_account_info" args id))
    "Error getting account info: " id log.
Proof.
  unfold transports_agree. http_case "get_account_info".
  unfold MetaAds.get_account_info_tool, MetaAds.reinitialize. rewrite api_set.
  cbn [negb]. unfold try_catch, bind, await.
  destruct (negb (truthy (js_or (get args "accountId") _))); cbn -[app js_String].
  - eexists. right. exists (Error MetaAds.no_account). split; reflexivity.
  - agree_by_cases vendor.
Qed.

End MetaAgreement.

(** X15, a Meta Ads server whose API handle is set: for each of the six
    tools the registered handler and the HTTP case make the same vendor
    invocations; when the vendor resolves both deliver the same content,
    and when anything fails the handler returns the text "Error <doing>:
    <message>" where the HTTP case returns the error -32000 with the same
    message. Neither throws. *)
Theorem meta_transports_agree
    (vendor : Vendor) (stringify : jsval -> string)
    (this : MetaAds.MetaAdsMCPServer) (env : Env) (args id : jsval)
    (log : list VendorCall) :
  MetaAds.api this = true ->
  let http name :=
    MetaAds.handleToolCall vendor stringify this (tools_call_request name args id) in
  transports_agree
    (fun l =>
       let after := MetaAds.get_account_info_tool vendor stringify env this args l in
       (fst (fst after), snd after))
    (http "get_account_info") "Error getting account info: " id log
  /\ transports_agree (MetaAds.list_campaigns_tool vendor stringify this args)
       (http "list_campaigns") "Error listing campaigns: " id log
  /\ transports_agree (MetaAds.get_campaign_tool vendor stringify this args)
       (http "get_campaign") "Error getting campaign: " id log
  /\ transports_agree (MetaAds.list_adsets_tool vendor stringify this args)
       (http "list_adsets") "Error listing ad sets: " id log
  /\ transports_agree (MetaAds.list_ads_tool vendor stringify this args)
       (http "list_ads") "Error listing ads: " id log
  /\ transports_agree (MetaAds.get_insights_tool vendor stringify this args)
       (http "get_insights") "Error getting insights: " id log.
Proof.
  intros Hapi http. unfold http.
  split; [now apply meta_get_account_info_agree|].
  split; [now apply meta_list_campaigns_agree|].
  split; [now apply meta_get_campaign_agree|].
  split; [now apply meta_list_adsets_agree|].
  split; [now apply meta_list_ads_agree|].
  now apply meta_get_insights_agree.
Qed.

Lemma meta_transports_agree_witness :
  transports_agree
    (MetaAds.get_campaign_tool stub_vendor stub_stringify sample_meta
       (JObj [("campaignId", JStr "9")]))
    (MetaAds.handleToolCall stub_vendor stub_stringify sample_meta
       (tools_call_request "get_campaign" (JObj [("campaignId", JStr "9")]) (JNum 4)))
    "Error getting campaign: " (JNum 4) [].
Proof.
  pose proof (meta_transports_agree stub_vendor stub_stringify sample_meta meta_env
                (JObj [("campaignId", JStr "9")]) (JNum 4) [] eq_refl) as H.
  cbv zeta in H. destruct H as (_ & _ & Hcampaign & _). exact Hcampaign.
Defined.

(** ** BigQuery queries *)

Section BigQueryQueries.
Context (vendor : Vendor) (stringify : jsval -> string).
Context (this : BigQuery.BigQueryMCPServer) (args id : jsval) (log : list VendorCall).

Lemma execute_query_body_or_empty :
  BigQuery.execute_query_body vendor stringify this (js_or args (JObj []))
  = BigQuery.execute_query_body vendor stringify this args.
Proof. unfold BigQuery.execute_query_body. now rewrite !get_or_empty. Qed.

Lemma bigquery_execute_query_http :
  BigQuery.bigquery this = true ->
  snd (BigQuery.tools_call vendor stringify this
         (tools_call_request "execute_query" args id) log)
  = snd (BigQuery.execute_query_body vendor stringify this args log).
Proof.
  intros Hbq. unfold BigQuery.tools_call, try_catch, bind.
  change (js_or (opt_get (get (tools_call_request "execute_query" args id) "params")
                   "arguments") (JObj []))
    with (js_or args (JObj [])).
  unfold BigQuery.call_tool. cbn -[js_or BigQuery.execute_query_body].
  rewrite Hbq. cbn [negb]. rewrite execute_query_body_or_empty.
  now destruct (BigQuery.execute_query_body vendor stringify this args log) as [[r|e] l].
Qed.

Lemma bigquery_execute_query_tool_log :
  BigQuery.bigquery this = true ->
  snd (BigQuery.execute_query_tool vendor stringify this args log)
  = snd (BigQuery.execute_query_body vendor stringify this args log).
Proof.
  intros Hbq. unfold BigQuery.execute_query_tool, try_catch. rewrite Hbq. cbn [negb].
  now destruct (BigQuery.execute_query_body vendor stringify this args log) as [[r|e] l].
Qed.

(** What follows [createQueryJob]: at most the metadata read of a dry
    run, or at most the row fetch of a real run. *)
Lemma bigquery_execute_query_body_kinds :
  let dryRun := BigQuery.or_default (get args "dryRun") (JBool false) in
  let maxResults := BigQuery.or_default (get args "maxResults") (JNum 100) in
  exists rest,
    adds_calls (BigQuery.execute_query_body vendor stringify this args) log
      (BQ_createQueryJob (BigQuery.query_options this (get args "query") dryRun maxResults)
       :: rest)
    /\ (truthy dryRun = true -> Forall (fun c => fetches_rows c = false) rest)
    /\ (truthy dryRun = false -> Forall (fun c => reads_job_metadata c = false) rest)
    /\ bounded_by maxResults rest.
Proof.
  intros dryRun maxResults.
  unfold adds_calls, BigQuery.execute_query_body, bind, await.
  fold dryRun maxResults.
  set (options := BigQuery.query_options this (get args "query") dryRun maxResults).
  destruct (vendor log (BQ_createQueryJob options)) as [job|e]; cbn -[app].
  2: { exists []. repeat split; constructor. }
  unfold BigQuery.invoke, await.
  destruct (truthy dryRun); destruct (isNullish job) eqn:Hjob; cbn -[app];
    try (exists []; repeat split; constructor).
  - exists [BQ_job_getMetadata job]. rewrite <- app_assoc. split.
    + run_vendor vendor; [|reflexivity].
      unfold prop. rewrite Hjob. cbn -[app].
      match goal with |- context [isNullish ?m] => destruct (isNullish m) end;
        reflexivity.
    + split; [intros _; repeat constructor|].
      split; [intros Hd; discriminate Hd|].
      constructor; [left; reflexivity|constructor].
  - exists [BQ_job_getQueryResults job (JObj [("maxResults", maxResults)])].
    rewrite <- app_assoc. split.
    + run_vendor vendor; [|reflexivity].
      unfold prop. rewrite Hjob. cbn -[app].
      match goal with
      | |- context [BigQuery.js_length ?r] => destruct r; reflexivity
      end.
    + split; [intros Hd; discriminate Hd|].
      split; [intros _; repeat constructor|].
      constructor; [right; reflexivity|constructor].
Qed.

End BigQueryQueries.

(** X16, [execute_query] of the BigQuery server (registered handler and
    HTTP case): the default 100 replaces an absent [maxResults] only. A
    supplied value, 0 and [null] included, is what [createQueryJob] and
    the row fetch receive. *)
Theorem bigquery_supplied_max_results_is_forwarded
    (vendor : Vendor) (stringify : jsval -> string)
    (this : BigQuery.BigQueryMCPServer) (args id : jsval) (maxResults : jsval)
    (log : list VendorCall) :
  BigQuery.bigquery this = true ->
  get args "maxResults" = maxResults ->
  maxResults <> JUndefined ->
  exists options rest,
    adds_calls (BigQuery.execute_query_tool vendor stringify this args) log
      (BQ_createQueryJob options :: rest)
    /\ adds_calls
         (BigQuery.tools_call vendor stringify this
            (tools_call_request "execute_query" args id)) log
         (BQ_createQueryJob options :: rest)
    /\ get options "maxResults" = maxResults
    /\ bounded_by maxResults rest.
Proof.
  intros Hbq Hget Hdef.
  destruct (bigquery_execute_query_body_kinds vendor stringify this args log)
    as (rest & Hcalls & _ & _ & Hbound).
  assert (Hor : BigQuery.or_default (get args "maxResults") (JNum 100) = maxResults).
  { rewrite Hget. now destruct maxResults. }
  rewrite Hor in Hcalls, Hbound.
  eexists _, rest. unfold adds_calls in *.
  rewrite bigquery_execute_query_tool_log, bigquery_execute_query_http by assumption.
  split; [exact Hcalls|]. split; [exact Hcalls|]. split; [reflexivity|exact Hbound].
Qed.

Lemma bigquery_zero_max_results_witness :
  exists options rest,
    adds_calls
      (BigQuery.execute_query_tool stub_vendor stub_stringify sample_bigquery
         (JObj [("query", JStr "SELECT 1"); ("maxResults", JNum 0)])) []
      (BQ_createQueryJob options :: rest)
    /\ get options "maxResults" = JNum 0.
Proof.
  destruct (bigquery_supplied_max_results_is_forwarded stub_vendor stub_stringify
              sample_bigquery
              (JObj [("query", JStr "SELECT 1"); ("maxResults", JNum 0)])
              (JNum 1) (JNum 0) [])
    as (options & rest & Htool & _ & Hmax & _);
    [reflexivity|reflexivity|discriminate|].
  exists options, rest. split; [exact Htool|exact Hmax].
Defined.

(** X17, [execute_query] of the BigQuery server (registered handler and
    HTTP case): a dry run never fetches rows, and a real run never reads
    the job metadata; either way the first invocation is
    [createQueryJob], carrying the [dryRun] flag. *)
Theorem bigquery_dry_run_fetches_no_rows
    (vendor : Vendor) (stringify : jsval -> string)
    (this : BigQuery.BigQueryMCPServer) (args id : jsval) (log : list VendorCall) :
  BigQuery.bigquery this = true ->
  let dryRun := BigQuery.or_default (get args "dryRun") (JBool false) in
  exists options rest,
    adds_calls (BigQuery.execute_query_tool vendor stringify this args) log
      (BQ_createQueryJob options :: rest)
    /\ adds_calls
         (BigQuery.tools_call vendor stringify this
            (tools_call_request "execute_query" args id)) log
         (BQ_createQueryJob options :: rest)
    /\ get options "dryRun" = dryRun
    /\ (truthy dryRun = true -> Forall (fun c => fetches_rows c = false) rest)
    /\ (truthy dryRun = false -> Forall (fun c => reads_job_metadata c = false) rest)
    /\ (has_field args "dryRun" = false -> dryRun = JBool false).
Proof.
  intros Hbq dryRun.
  destruct (bigquery_execute_query_body_kinds vendor stringify this args log)
    as (rest & Hcalls & Hdry & Hreal & _).
  eexists _, rest. unfold adds_calls in *.
  rewrite bigquery_execute_query_tool_log, bigquery_execute_query_http by assumption.
  split; [exact Hcalls|]. split; [exact Hcalls|]. split; [reflexivity|].
  split; [exact Hdry|]. split; [exact Hreal|].
  intros Hom. apply get_omitted in Hom; [|discriminate]. unfold dryRun. now rewrite Hom.
Qed.

Lemma bigquery_dry_run_witness :
  adds_calls
    (BigQuery.execute_query_tool stub_vendor stub_stringify sample_bigquery
       (JObj [("query", JStr "SELECT 1"); ("dryRun", JBool true)])) []
    [BQ_createQueryJob
       (BigQuery.query_options sample_bigquery (JStr "SELECT 1") (JBool true) (JNum 100));
     BQ_job_getMetadata (JArr [])].
Proof.
  pose proof (bigquery_dry_run_fetches_no_rows stub_vendor stub_stringify sample_bigquery
                (JObj [("query", JStr "SELECT 1"); ("dryRun", JBool true)]) (JNum 1) []
                eq_refl) as H.
  cbv zeta in H. destruct H as (options & rest & Htool & _).
  reflexivity.
Defined.

Section BigQueryAgreement.
Context (vendor : Vendor) (stringify : jsval -> string).
Context (this : BigQuery.BigQueryMCPServer) (args id : jsval) (log : list VendorCall).
Hypothesis client_set : BigQuery.bigquery this = true.

Ltac bq_http_case name :=
  unfold BigQuery.tools_call, try_catch, bind;
  change (js_or (opt_get (get (tools_call_request name args id) "params")
                   "arguments") (JObj []))
    with (js_or args (JObj []));
  unfold BigQuery.call_tool, bind, await;
  cbn -[app js_or js_String BigQuery.js_map BigQuery.js_length
        BigQuery.execute_query_body prop BigQuery.or_default];
  rewrite client_set, ?get_or_empty, ?execute_query_body_or_empty;
  cbn [negb]; cbv beta.

Ltac failed := eexists; right; eexists; split; reflexivity.
Ltac delivered := eexists; left; eexists; split; reflexivity.

Ltac by_outcome m :=
  destruct m as [[?|?] ?]; cbn -[app js_String]; [|failed].

Lemma bigquery_list_datasets_agree :
  transports_agree (BigQuery.list_datasets_tool vendor stringify this)
    (BigQuery.tools_call vendor stringify this
       (tools_call_request "list_datasets" args id))
    "Error listing datasets: " id log.
Proof.
  unfold transports_agree. bq_http_case "list_datasets".
  unfold BigQuery.list_datasets_tool, try_catch, bind, await. rewrite client_set.
  cbn [negb]. cbv beta.
  destruct (vendor log BQ_getDatasets) as [datasets|error]; cbn -[app js_String];
    [|failed].
  by_outcome (BigQuery.js_map (BigQuery.dataset_entry) datasets
                (log ++ [BQ_getDatasets])%list).
  delivered.
Qed.

Lemma bigquery_list_tables_agree :
  transports_agree (BigQuery.list_tables_tool vendor stringify this args)
    (BigQuery.tools_call vendor stringify this
       (tools_call_request "list_tables" args id))
    ("Error listing tables in dataset " +:+ js_String (get args "datasetId") +:+ ": ")
    id log.
Proof.
  unfold transports_agree. bq_http_case "list_tables".
  unfold BigQuery.list_tables_tool, try_catch, bind, await. rewrite client_set.
  cbn [negb]. cbv beta.
  destruct (vendor log (BQ_getTables (get args "datasetId"))) as [tables|error];
    cbn -[app js_String]; [|failed].
  by_outcome (BigQuery.js_map (BigQuery.table_entry) tables
                (log ++ [BQ_getTables (get args "datasetId")])%list).
  delivered.
Qed.

Lemma bigquery_get_table_schema_agree :
  transports_agree (BigQuery.get_table_schema_tool vendor stringify this args)
    (BigQuery.tools_call vendor stringify this
       (tools_call_request "get_table_schema" args id))
    ("Error getting schema for table " +:+ js_String (get args "datasetId")
     +:+ "." +:+ js_String (get args "tableId") +:+ ": ")
    id log.
Proof.
  unfold transports_agree. bq_http_case "get_table_schema".
  unfold BigQuery.get_table_schema_tool, try_catch, bind, await. rewrite client_set.
  cbn [negb]. cbv beta.
  destruct (vendor log (BQ_table_getMetadata (get args "datasetId") (get args "tableId")))
    as [metadata|error]; cbn -[app js_String prop]; [|failed].
  unfold prop. destruct (isNullish metadata); cbn -[app js_String]; [|delivered].
  eexists. right. exists (Error ("Cannot read properties of " +:+ js_String metadata)).
  split; reflexivity.
Qed.

Lemma bigquery_execute_query_agree :
  transports_agree (BigQuery.execute_query_tool vendor stringify this args)
    (BigQuery.tools_call vendor stringify this
       (tools_call_request "execute_query" args id))
    "Error executing query: " id log.
Proof.
  unfold transports_agree. bq_http_case "execute_query".
  unfold BigQuery.execute_query_tool, try_catch. rewrite client_set. cbn [negb].
  destruct (BigQuery.execute_query_body vendor stringify this args log)
    as [[content|error] log'] eqn:E; [|failed].
  assert (Hc : exists text, content = text_content text).
  { apply (bigquery_call_tool_content vendor stringify this (JStr "execute_query")
             args log content log').
    unfold BigQuery.call_tool. cbn -[BigQuery.execute_query_body].
    now rewrite client_set. }
  destruct Hc as [text ->]. delivered.
Qed.

Lemma bigquery_get_query_results_agree :
  transports_agree (BigQuery.get_query_results_tool vendor stringify this args)
    (BigQuery.tools_call vendor stringify this
       (tools_call_request "get_query_results" args id))
    ("Error getting query results for job " +:+ js_String (get args "jobId") +:+ ": ")
    id log.
Proof.
  unfold transports_agree. bq_http_case "get_query_results".
  unfold BigQuery.get_query_results_tool, try_catch, bind, await. rewrite client_set.
  cbn [negb]. cbv beta.
  match goal with
  | |- context [vendor ?l ?c] => destruct (vendor l c) as [rows|error]
  end; cbn -[app js_String BigQuery.js_length]; [|failed].
  destruct rows; cbn -[app js_String]; try delivered;
    eexists; right;
    match goal with
    | |- context [js_String (JStr ?m)] => exists (Error m)
    end; split; reflexivity.
Qed.

End BigQueryAgreement.

(** X18, a BigQuery server whose client is set: for each of the five
    tools the registered handler and the HTTP case make the same vendor
    invocations; when everything resolves both deliver the same content,
    and when anything fails the handler returns a text that ends in the
    message which the HTTP case returns as error -32000. Neither throws. *)
Theorem bigquery_transports_agree
    (vendor : Vendor) (stringify : jsval -> string)
    (this : BigQuery.BigQueryMCPServer) (args id : jsval) (log : list VendorCall) :
  BigQuery.bigquery this = true ->
  let http name :=
    BigQuery.tools_call vendor stringify this (tools_call_request name args id) in
  transports_agree (BigQuery.list_datasets_tool vendor stringify this)
    (http "list_datasets") "Error listing datasets: " id log
  /\ transports_agree (BigQuery.list_tables_tool vendor stringify this args)
       (http "list_tables")
       ("Error listing tables in dataset " +:+ js_String (get args "datasetId") +:+ ": ")
       id log
  /\ transports_agree (BigQuery.get_table_schema_tool vendor stringify this args)
       (http "get_table_schema")
       ("Error getting schema for table " +:+ js_String (get args "datasetId")
        +:+ "." +:+ js_String (get args "tableId") +:+ ": ")
       id log
  /\ transports_agree (BigQuery.execute_query_tool vendor stringify this args)
       (http "execute_query") "Error executing query: " id log
  /\ transports_agree (BigQuery.get_query_results_tool vendor stringify this args)
       (http "get_query_results")
       ("Error getting query results for job " +:+ js_String (get args "jobId") +:+ ": ")
       id log.
Proof.
  intros Hbq http. unfold http.
  split; [now apply bigquery_list_datasets_agree|].
  split; [now apply bigquery_list_tables_agree|].
  split; [now apply bigquery_get_table_schema_agree|].
  split; [now apply bigquery_execute_query_agree|].
  now apply bigquery_get_query_results_agree.
Qed.

Lemma bigquery_transports_agree_witness :
  transports_agree
    (BigQuery.list_tables_tool stub_vendor stub_stringify sample_bigquery
       (JObj [("datasetId", JStr "sales")]))
    (BigQuery.tools_call stub_vendor stub_stringify sample_bigquery
       (tools_call_request "list_tables" (JObj [("datasetId", JStr "sales")]) (JNum 6)))
    "Error listing tables in dataset sales: " (JNum 6) [].
Proof.
  pose proof (bigquery_transports_agree stub_vendor stub_stringify sample_bigquery
                (JObj [("datasetId", JStr "sales")]) (JNum 6) [] eq_refl) as H.
  cbv zeta in H. destruct H as (_ & Htables & _). exact Htables.
Defined.

(** ** The listing of datasets *)

Lemma js_or_null_defined (v : jsval) : js_or v JNull <> JUndefined.
Proof. unfold js_or. destruct (truthy v) eqn:E; [|discriminate]. now intros ->. Qed.

Lemma bigquery_dataset_entry_lists (dataset : jsval) (log : list VendorCall) :
  isNullish dataset = false ->
  exists entry,
    BigQuery.dataset_entry dataset log = (Returned entry, log)
    /\ lists_dataset dataset entry.
Proof.
  intros Hd. unfold BigQuery.dataset_entry, bind, prop. rewrite Hd.
  eexists. split; [reflexivity|].
  split; [reflexivity|].
  intros k Hk.
  repeat (destruct Hk as [<-|Hk]; [split; [reflexivity|apply js_or_null_defined]|]).
  destruct Hk.
Qed.

Lemma bigquery_dataset_entries (datasets : list jsval) (log : list VendorCall) :
  Forall (fun dataset => isNullish dataset = false) datasets ->
  exists entries,
    mapM BigQuery.dataset_entry datasets log = (Returned entries, log)
    /\ Forall2 lists_dataset datasets entries.
Proof.
  induction 1 as [|dataset rest Hd _ IH].
  - exists []. split; [reflexivity|constructor].
  - destruct (bigquery_dataset_entry_lists dataset log Hd) as (entry & He & Hl).
    destruct IH as (entries & Hm & Hf).
    exists (entry :: entries). split; [|now constructor].
    cbn [mapM]. unfold bind. rewrite He, Hm. reflexivity.
Qed.

(** X19, [list_datasets] of the BigQuery server: when the client resolves
    with a list of datasets, the handler makes that one invocation and
    returns the serialised list of one entry per dataset, in the same
    order; an entry carries the dataset's id and, for friendlyName,
    description, location and creationTime, the metadata's value when
    there is a truthy one and [null] otherwise, never [undefined]. *)
Theorem bigquery_list_datasets_entries
    (vendor : Vendor) (stringify : jsval -> string)
    (this : BigQuery.BigQueryMCPServer) (log : list VendorCall) (datasets : list jsval) :
  BigQuery.bigquery this = true ->
  vendor log BQ_getDatasets = Returned (JArr datasets) ->
  Forall (fun dataset => isNullish dataset = false) datasets ->
  exists entries,
    BigQuery.list_datasets_tool vendor stringify this log
    = (Returned (text_content (stringify (JArr entries))), (log ++ [BQ_getDatasets])%list)
    /\ Forall2 lists_dataset datasets entries.
Proof.
  intros Hbq Hv Hd.
  destruct (bigquery_dataset_entries datasets (log ++ [BQ_getDatasets])%list Hd)
    as (entries & Hm & Hf).
  exists entries. split; [|exact Hf].
  unfold BigQuery.list_datasets_tool, try_catch, bind, await, BigQuery.js_map.
  rewrite Hbq. cbn [negb]. rewrite Hv. unfold bind. rewrite Hm. reflexivity.
Qed.

Lemma bigquery_list_datasets_witness :
  exists entries,
    BigQuery.list_datasets_tool datasets_vendor stub_stringify sample_bigquery []
    = (Returned (text_content (stub_stringify (JArr entries))), [BQ_getDatasets])
    /\ Forall2 lists_dataset two_datasets entries.
Proof.
  apply (bigquery_list_datasets_entries datasets_vendor stub_stringify sample_bigquery
           [] two_datasets); [reflexivity|reflexivity|].
  repeat constructor.
Defined.

(** ** Google Ads: customer, query text and failures *)

Lemma google_constructed (env : Env) (this : GoogleAds.GoogleAdsMCPServer) :
  GoogleAds.construct env = Returned this ->
  this = {| GoogleAds.googleAds := true; GoogleAds.config := GoogleAds.read_config env |}
  /\ present (getenv env "GOOGLE_ADS_CUSTOMER_ID") = true.
Proof.
  unfold GoogleAds.construct, GoogleAds.initializeGoogleAds, GoogleAds.missingFields.
  cbn -[present getenv Z.ltb Z.of_nat].
  destruct (present (getenv env "GOOGLE_ADS_CUSTOMER_ID")) eqn:Hc.
  - destruct (0 <? _); [discriminate|]. intros [= <-]. split; reflexivity.
  - cbn [negb List.length]. rewrite Nat2Z.inj_succ.
    destruct (0 <? _) eqn:E; [discriminate|].
    apply Z.ltb_ge in E. lia.
Qed.

Lemma present_some (o : option string) :
  present o = true -> exists s, o = Some s /\ s <> "".
Proof.
  destruct o as [s|]; [|discriminate]. intros H. exists s. split; [reflexivity|].
  intros ->. discriminate.
Qed.

(** X20, a Google Ads server that the constructor returned: every
    [list_campaigns] call reaches the vendor client, for the caller's
    customer id when a truthy one is given and for the id of
    GOOGLE_ADS_CUSTOMER_ID otherwise; the reply "Customer ID is required"
    cannot occur. *)
Theorem google_list_campaigns_after_construction
    (vendor : Vendor) (stringify : jsval -> string) (env : Env)
    (this : GoogleAds.GoogleAdsMCPServer) (args : jsval) (log : list VendorCall) :
  GoogleAds.construct env = Returned this ->
  exists configured,
    getenv env "GOOGLE_ADS_CUSTOMER_ID" = Some configured
    /\ configured <> ""
    /\ adds_calls (GoogleAds.list_campaigns_tool vendor stringify this args) log
         [GA_query (js_or (get args "customerId") (JStr configured))
            (ofOption (getenv env "GOOGLE_ADS_REFRESH_TOKEN"))
            (GoogleAds.list_campaigns_gaql
               (js_String (js_or (get args "limit") (JNum 50))))].
Proof.
  intros Hc. destruct (google_constructed env this Hc) as [-> Hp].
  destruct (present_some _ Hp) as (configured & Hs & Hne).
  exists configured. split; [exact Hs|]. split; [exact Hne|].
  unfold adds_calls.
  rewrite google_list_campaigns_calls; [|reflexivity|].
  - unfold google_customer. cbn [GoogleAds.config GoogleAds.customerId
      GoogleAds.refreshToken GoogleAds.read_config]. now rewrite Hs.
  - unfold google_customer, js_or.
    cbn [GoogleAds.config GoogleAds.customerId GoogleAds.read_config].
    rewrite Hs. destruct (truthy (get args "customerId")) eqn:Ht; [exact Ht|].
    cbn. destruct (String.eqb configured "") eqn:E; [|reflexivity].
    apply String.eqb_eq in E. contradiction.
Qed.

Lemma google_list_campaigns_after_construction_witness :
  exists configured,
    getenv google_env "GOOGLE_ADS_CUSTOMER_ID" = Some configured
    /\ configured <> ""
    /\ adds_calls (GoogleAds.list_campaigns_tool stub_vendor stub_stringify
                     sample_google (JObj [])) []
         [GA_query (js_or (get (JObj []) "customerId") (JStr configured))
            (ofOption (getenv google_env "GOOGLE_ADS_REFRESH_TOKEN"))
            (GoogleAds.list_campaigns_gaql
               (js_String (js_or (get (JObj []) "limit") (JNum 50))))].
Proof.
  apply (google_list_campaigns_after_construction stub_vendor stub_stringify
           google_env sample_google (JObj []) []).
  vm_compute. reflexivity.
Defined.

Section Performance.
Context (vendor : Vendor) (stringify : jsval -> string).
Context (positive_numeral : string -> bool).
Context (this : GoogleAds.GoogleAdsMCPServer) (args : jsval) (log : list VendorCall).
Hypothesis client_set : GoogleAds.googleAds this = true.

Lemma google_performance_calls (clause : string) :
  GoogleAds.where_clause positive_numeral (get args "campaignIds") log
  = (Returned clause, log) ->
  adds_calls (GoogleAds.get_campaign_performance_tool vendor stringify positive_numeral
                this args) log
    [GA_query (get args "customerId")
       (ofOption (GoogleAds.refreshToken (GoogleAds.config this)))
       (GoogleAds.performance_gaql clause
          (js_String (js_or (get args "dateRange") (JStr "LAST_7_DAYS"))))].
Proof.
  intros Hw. unfold adds_calls, GoogleAds.get_campaign_performance_tool, try_catch,
    bind, await.
  rewrite client_set. cbn [negb]. rewrite Hw.
  cbn -[app GoogleAds.performance_gaql js_String].
  run_vendor vendor; [reflexivity|apply google_error_text_log].
Qed.

End Performance.

(** X21, [get_campaign_performance] on a server whose client is set: the
    handler sends one query, for the caller's customerId as given (the
    configured id is not used), over the date range given or LAST_7_DAYS;
    without campaignIds or with an empty list the condition is the bare
    WHERE, and with a non-empty list it restricts to the ids, each
    between single quotes and separated by commas, as given. *)
Theorem google_campaign_performance_query
    (vendor : Vendor) (stringify : jsval -> string) (positive_numeral : string -> bool)
    (this : GoogleAds.GoogleAdsMCPServer) (args : jsval) (log : list VendorCall) :
  GoogleAds.googleAds this = true ->
  let asks clause :=
    adds_calls (GoogleAds.get_campaign_performance_tool vendor stringify positive_numeral
                  this args) log
      [GA_query (get args "customerId")
         (ofOption (GoogleAds.refreshToken (GoogleAds.config this)))
         (GoogleAds.performance_gaql clause
            (js_String (js_or (get args "dateRange") (JStr "LAST_7_DAYS"))))] in
  (get args "campaignIds" = JUndefined \/ get args "campaignIds" = JArr [] ->
   asks "WHERE")
  /\ (forall id ids,
        get args "campaignIds" = JArr (id :: ids) ->
        asks ("WHERE campaign.id IN ("
              +:+ JsString.join "," (List.map quoted (id :: ids)) +:+ ") AND")).
Proof.
  intros Hc asks. unfold asks. split.
  - intros [H|H]; apply google_performance_calls; try exact Hc; now rewrite H.
  - intros id ids H. apply google_performance_calls; [exact Hc|]. rewrite H.
    unfold GoogleAds.where_clause.
    cbn [truthy GoogleAds.length_of GoogleAds.gt_zero andb List.length].
    rewrite Nat2Z.inj_succ.
    replace (0 <? Z.succ (Z.of_nat (List.length ids))) with true
      by (symmetry; apply Z.ltb_lt; lia).
    reflexivity.
Qed.

Lemma google_campaign_performance_witness :
  adds_calls (GoogleAds.get_campaign_performance_tool stub_vendor stub_stringify
                sample_positive_numeral sample_google
                (JObj [("customerId", JStr "42");
                       ("campaignIds", JArr [JStr "7"; JStr "9"])])) []
    [GA_query (JStr "42") (JStr "refresh")
       (GoogleAds.performance_gaql "WHERE campaign.id IN ('7','9') AND" "LAST_7_DAYS")].
Proof.
  pose proof (google_campaign_performance_query stub_vendor stub_stringify
                sample_positive_numeral sample_google
                (JObj [("customerId", JStr "42");
                       ("campaignIds", JArr [JStr "7"; JStr "9"])]) [] eq_refl) as H.
  cbv zeta in H. destruct H as [_ H].
  exact (H (JStr "7") [JStr "9"] eq_refl).
Defined.

Lemma some_sub_message_throws (errors : list jsval) :
  null_sub_error errors ->
  exists thrown, GoogleAds.map_outcome GoogleAds.sub_message errors = Thrown thrown.
Proof.
  induction 1 as [e rest He|e rest _ [thrown IH]]; cbn [GoogleAds.map_outcome].
  - unfold GoogleAds.sub_message. rewrite He. eexists. reflexivity.
  - destruct (GoogleAds.sub_message e); [|eexists; reflexivity].
    rewrite IH. eexists. reflexivity.
Qed.

Lemma nullish_or_not (errors : list jsval) :
  Forall (fun e => isNullish e = false) errors \/ null_sub_error errors.
Proof.
  induction errors as [|e rest [IH|IH]].
  - left. constructor.
  - destruct (isNullish e) eqn:He.
    + right. now constructor.
    + left. now constructor.
  - right. now constructor 2.
Qed.

Lemma formatError_null_sub_error (error : jsval) (errors : list jsval) :
  carries_errors error errors -> null_sub_error errors ->
  exists thrown, GoogleAds.formatError error = Thrown thrown.
Proof.
  intros ([fields ->] & He) Hn.
  destruct (some_sub_message_throws errors Hn) as [thrown Ht].
  exists thrown. unfold GoogleAds.formatError. cbn in He |- *. rewrite He.
  cbn. now rewrite Ht.
Qed.

(** X22, [formatError] throws exactly when the value is a plain object
    whose [errors] array holds a [null] or [undefined] sub-error; on every
    other value it returns. *)
Theorem formatError_throws_on_null_sub_error (error : jsval) :
  (exists thrown, GoogleAds.formatError error = Thrown thrown)
  <-> exists errors, carries_errors error errors /\ null_sub_error errors.
Proof.
  split.
  - intros [thrown H]. unfold GoogleAds.formatError in H.
    destruct error as [| |b|z|s|l|fields|m]; cbn in H; try discriminate.
    + destruct b; discriminate.
    + destruct (negb (z =? 0)); discriminate.
    + destruct (negb (String.eqb s "")); discriminate.
    + destruct (lookup_field "errors" fields) as [| |b|z|s|errors|fs|m] eqn:He;
        cbn in H;
        try (destruct (truthy (lookup_field "message" fields)); discriminate);
        try (destruct b; cbn in H;
             destruct (truthy (lookup_field "message" fields)); discriminate);
        try (destruct (negb _); cbn in H;
             destruct (truthy (lookup_field "message" fields)); discriminate).
      exists errors. split; [split; [now exists fields|exact He]|].
      destruct (nullish_or_not errors) as [Hall|Hex]; [|exact Hex].
      destruct (map_sub_messages errors Hall) as (messages & Hm & _).
      rewrite Hm in H. discriminate.
  - intros (errors & He & Hn). exact (formatError_null_sub_error error errors He Hn).
Qed.

(** X23, a vendor failure in [list_campaigns]: the handler answers with
    the text "Error listing campaigns: <formatted failure>" when
    [formatError] returns, and itself throws when [formatError] throws,
    which it does for a failure whose [errors] array holds a [null] or
    [undefined] entry. *)
Theorem google_list_campaigns_failure
    (vendor : Vendor) (stringify : jsval -> string)
    (this : GoogleAds.GoogleAdsMCPServer) (args : jsval) (log : list VendorCall)
    (error : jsval) :
  GoogleAds.googleAds this = true ->
  truthy (google_customer this args) = true ->
  rejects vendor log error ->
  (forall message,
      GoogleAds.formatError error = Returned message ->
      fst (GoogleAds.list_campaigns_tool vendor stringify this args log)
      = Returned (text_content ("Error listing campaigns: " +:+ js_String message)))
  /\ (forall errors,
        carries_errors error errors -> null_sub_error errors ->
        exists thrown,
          fst (GoogleAds.list_campaigns_tool vendor stringify this args log)
          = Thrown thrown).
Proof.
  intros Hc Ht Hv.
  assert (Hrun : GoogleAds.list_campaigns_tool vendor stringify this args log
                 = GoogleAds.error_text "Error listing campaigns: " error
                     (log ++ [GA_query (google_customer this args)
                                (ofOption (GoogleAds.refreshToken (GoogleAds.config this)))
                                (GoogleAds.list_campaigns_gaql
                                   (js_String (js_or (get args "limit") (JNum 50))))])%list).
  { unfold GoogleAds.list_campaigns_tool, try_catch, bind, await.
    rewrite Hc. fold (google_customer this args). rewrite Ht.
    cbn -[app GoogleAds.list_campaigns_gaql js_String GoogleAds.error_text].
    rewrite Hv. reflexivity. }
  rewrite Hrun. unfold GoogleAds.error_text, bind, GoogleAds.lift. split.
  - intros message Hm. now rewrite Hm.
  - intros errors He Hn.
    destruct (formatError_null_sub_error error errors He Hn) as [thrown Hthrown].
    exists thrown. now rewrite Hthrown.
Qed.

Lemma google_list_campaigns_failure_witness :
  exists thrown,
    fst (GoogleAds.list_campaigns_tool
           (rejecting_vendor (JObj [("errors", JArr [JNull])])) stub_stringify
           sample_google (JObj []) [])
    = Thrown thrown.
Proof.
  pose proof (google_list_campaigns_failure
                (rejecting_vendor (JObj [("errors", JArr [JNull])])) stub_stringify
                sample_google (JObj []) [] (JObj [("errors", JArr [JNull])])
                eq_refl eq_refl (fun c => eq_refl)) as [_ H].
  apply (H [JNull]).
  - split; [now eexists|reflexivity].
  - constructor. reflexivity.
Defined.

Lemma trim_blank (s : string) : blank s = true -> JsString.trim s = "".
Proof.
  unfold JsString.trim. induction s as [|c s IH]; [reflexivity|].
  cbn [blank JsString.trimStart]. intros H. apply andb_prop in H as [Hc Hs].
  rewrite Hc. now apply IH.
Qed.

(** X24, [execute_gaql_query] with a query of white space only: the text
    is not empty, so the handler does not answer "Query parameter is
    required"; it sends the vendor client the text " LIMIT 100" when the
    limit is omitted, zero or otherwise falsy, and " LIMIT <limit>" in
    decimal digits for a non-zero safe integer (magnitude at most
    2^53 - 1). *)
Theorem gaql_blank_query_is_forwarded
    (vendor : Vendor) (stringify : jsval -> string)
    (this : GoogleAds.GoogleAdsMCPServer) (args : jsval) (log : list VendorCall)
    (query : string) :
  GoogleAds.googleAds this = true ->
  get args "query" = JStr query ->
  query <> "" ->
  blank query = true ->
  let sends text :=
    adds_calls (GoogleAds.execute_gaql_query_tool vendor stringify this args) log
      [GA_query (get args "customerId")
         (ofOption (GoogleAds.refreshToken (GoogleAds.config this))) text] in
  (truthy (get args "limit") = false -> sends " LIMIT 100")
  /\ (forall n, get args "limit" = JNum n -> n <> 0 -> isSafeInteger n = true ->
        sends (" LIMIT " +:+ JsString.ofZ n)).
Proof.
  intros Hc Hq Hne Hb sends. unfold sends, adds_calls.
  rewrite (google_execute_gaql_calls vendor stringify this args log Hc query Hq Hne).
  rewrite (trim_blank query Hb). split.
  - intros Hfalsy. unfold js_or. now rewrite Hfalsy.
  - intros n Hn Hnz _. rewrite Hn. unfold js_or. cbn [truthy].
    apply Z.eqb_neq in Hnz. now rewrite Hnz.
Qed.

Lemma gaql_blank_query_witness :
  adds_calls (GoogleAds.execute_gaql_query_tool stub_vendor stub_stringify sample_google
                (JObj [("customerId", JStr "42"); ("query", JStr "  ")])) []
    [GA_query (JStr "42") (JStr "refresh") " LIMIT 100"].
Proof.
  pose proof (gaql_blank_query_is_forwarded stub_vendor stub_stringify sample_google
                (JObj [("customerId", JStr "42"); ("query", JStr "  ")]) [] "  ") as H.
  cbv zeta in H. destruct H as [H _];
    [reflexivity|reflexivity|discriminate|reflexivity|].
  apply H. reflexivity.
Defined.

(** ** The stdio-only BigQuery server *)

Lemma prop_log (v : jsval) (k : string) (l : list VendorCall) : snd (prop v k l) = l.
Proof. unfold prop. now destruct (isNullish v). Qed.

Lemma js_length_log (v : jsval) (l : list VendorCall) : snd (BigQuery.js_length v l) = l.
Proof. destruct v; try reflexivity. Qed.

Lemma mapM_log {A B} (f : A -> M B) (xs : list A) :
  (forall x l, snd (f x l) = l) -> forall l, snd (mapM f xs l) = l.
Proof.
  intros Hf. induction xs as [|x xs IH]; intros l; [reflexivity|].
  cbn [mapM]. unfold bind. specialize (Hf x l).
  destruct (f x l) as [[y|e] l1]; cbn in Hf; subst l1; [|reflexivity].
  specialize (IH l). destruct (mapM f xs l) as [[ys|e] l2]; cbn in IH; subst l2;
    reflexivity.
Qed.

Lemma js_map_log (f : jsval -> M jsval) (v : jsval) :
  (forall x l, snd (f x l) = l) -> forall l, snd (BigQuery.js_map f v l) = l.
Proof.
  intros Hf l. destruct v as [| | | | |xs| |]; try reflexivity.
  unfold BigQuery.js_map, bind.
  pose proof (mapM_log f xs Hf l) as H.
  destruct (mapM f xs l) as [[ys|e] l1]; cbn in H; subst l1; reflexivity.
Qed.

Lemma try_catch_ret_log {A} (m : M A) (h : jsval -> A) (l : list VendorCall) :
  snd (try_catch m (fun error => ret (h error)) l) = snd (m l).
Proof. unfold try_catch. now destruct (m l) as [[r|e] l1]. Qed.

Section LegacyCalls.
Context (vendor : Vendor) (stringify : jsval -> string).
Context (this : BigQueryLegacy.BigQueryMCPServer) (log : list VendorCall).

Lemma legacy_dataset_entry_log (x : jsval) (l : list VendorCall) :
  snd (BigQueryLegacy.dataset_entry x l) = l.
Proof. unfold BigQueryLegacy.dataset_entry, bind, prop. now destruct (isNullish x). Qed.

Lemma legacy_table_entry_log (x : jsval) (l : list VendorCall) :
  snd (BigQueryLegacy.table_entry x l) = l.
Proof. unfold BigQueryLegacy.table_entry, bind, prop. now destruct (isNullish x). Qed.

Ltac thread m Hlog :=
  let H := fresh in
  pose proof Hlog as H;
  destruct m as [[?|?] ?]; cbn in H; subst; cbn -[app]; try reflexivity.

Lemma legacy_listDatasets_calls :
  adds_calls (BigQueryLegacy.listDatasets vendor stringify this) log [BQ_getDatasets].
Proof.
  unfold adds_calls, BigQueryLegacy.listDatasets. rewrite try_catch_ret_log.
  unfold bind, await.
  destruct (vendor log BQ_getDatasets) as [datasets|e]; cbn -[app]; [|reflexivity].
  thread (BigQuery.js_length datasets (log ++ [BQ_getDatasets])%list)
         (js_length_log datasets (log ++ [BQ_getDatasets])%list).
  thread (BigQuery.js_map BigQueryLegacy.dataset_entry datasets
            (log ++ [BQ_getDatasets])%list)
         (js_map_log BigQueryLegacy.dataset_entry datasets legacy_dataset_entry_log
            (log ++ [BQ_getDatasets])%list).
  match goal with
  | |- context [BigQuery.js_length ?v ?l] =>
      thread (BigQuery.js_length v l) (js_length_log v l)
  end.
Qed.

Lemma legacy_listTables_calls (datasetId : jsval) :
  truthy datasetId = true ->
  adds_calls (BigQueryLegacy.listTables vendor stringify this datasetId) log
    [BQ_getTables datasetId].
Proof.
  intros Hd. unfold adds_calls, BigQueryLegacy.listTables. rewrite Hd. cbn [negb].
  unfold bind, await.
  destruct (vendor log (BQ_getTables datasetId)) as [tables|e]; cbn -[app];
    [|reflexivity].
  thread (BigQuery.js_map BigQueryLegacy.table_entry tables
            (log ++ [BQ_getTables datasetId])%list)
         (js_map_log BigQueryLegacy.table_entry tables legacy_table_entry_log
            (log ++ [BQ_getTables datasetId])%list).
  match goal with
  | |- context [BigQuery.js_length ?v ?l] =>
      thread (BigQuery.js_length v l) (js_length_log v l)
  end.
Qed.

Lemma legacy_getTableSchema_calls (datasetId tableId : jsval) :
  truthy datasetId = true -> truthy tableId = true ->
  adds_calls (BigQueryLegacy.getTableSchema vendor stringify this datasetId tableId) log
    [BQ_table_getMetadata datasetId tableId].
Proof.
  intros Hd Ht. unfold adds_calls, BigQueryLegacy.getTableSchema. rewrite Hd, Ht.
  cbn [negb]. unfold bind, await.
  destruct (vendor log (BQ_table_getMetadata datasetId tableId)) as [metadata|e];
    cbn -[app]; [|reflexivity].
  unfold prop. destruct (isNullish metadata); reflexivity.
Qed.

Lemma legacy_executeQuery_calls (query maxResults dryRun : jsval) :
  truthy query = true ->
  let bound := BigQuery.or_default maxResults (JNum 100) in
  let dry := BigQuery.or_default dryRun (JBool false) in
  exists rest,
    adds_calls (BigQueryLegacy.executeQuery vendor stringify this query maxResults dryRun)
      log
      (BQ_createQueryJob
         (JObj [("query", query);
                ("location", JStr (BigQueryLegacy.location (BigQueryLegacy.config this)));
                ("maxResults", bound);
                ("dryRun", dry)])
       :: rest)
    /\ (truthy dry = true -> Forall (fun c => fetches_rows c = false) rest)
    /\ (truthy dry = false -> Forall (fun c => reads_job_metadata c = false) rest)
    /\ bounded_by bound rest.
Proof.
  intros Hq bound dry. unfold adds_calls, BigQueryLegacy.executeQuery.
  fold bound dry. rewrite Hq. cbn [negb].
  set (options := JObj [("query", query);
                        ("location",
                         JStr (BigQueryLegacy.location (BigQueryLegacy.config this)));
                        ("maxResults", bound); ("dryRun", dry)]).
  unfold bind, await, BigQueryLegacy.invoke.
  destruct (truthy dry);
    (destruct (vendor log (BQ_createQueryJob options)) as [job|e]; cbn -[app];
     [|exists []; repeat split; constructor]);
    (destruct (isNullish job) eqn:Hjob; cbn -[app];
     [exists []; repeat split; constructor|]).
  - exists [BQ_job_getMetadata job]. rewrite <- app_assoc. split.
    + unfold await. run_vendor vendor; [|reflexivity].
      unfold prop.
      match goal with |- context [isNullish ?m] => destruct (isNullish m) end;
        reflexivity.
    + split; [intros _; repeat constructor|].
      split; [intros Hd; discriminate Hd|].
      constructor; [left; reflexivity|constructor].
  - exists [BQ_job_getQueryResults job (JObj [("maxResults", bound)])].
    rewrite <- app_assoc. split.
    + unfold await. run_vendor vendor; [|reflexivity].
      match goal with
      | |- context [BigQuery.js_length ?r] => destruct r; reflexivity
      end.
    + split; [intros Hd; discriminate Hd|].
      split; [intros _; repeat constructor|].
      constructor; [right; reflexivity|constructor].
Qed.

Lemma legacy_getQueryResults_calls (jobId maxResults : jsval) :
  truthy jobId = true ->
  let bound := BigQuery.or_default maxResults (JNum 100) in
  exists rest,
    adds_calls (BigQueryLegacy.getQueryResults vendor stringify this jobId maxResults) log
      (BQ_job_getQueryResults (JObj [("id", jobId)]) (JObj [("maxResults", bound)])
       :: rest)
    /\ bounded_by bound rest.
Proof.
  intros Hj bound. unfold adds_calls, BigQueryLegacy.getQueryResults.
  fold bound. rewrite Hj. cbn [negb]. unfold bind, await.
  match goal with
  | |- context [vendor log ?c] => destruct (vendor log c) as [rows|e]; cbn -[app]
  end; [|exists []; split; [reflexivity|constructor]].
  exists [BQ_job_getMetadata (JObj [("id", jobId)])]. rewrite <- app_assoc. split.
  - run_vendor vendor; [|reflexivity]. unfold prop.
    match goal with |- context [isNullish ?m] => destruct (isNullish m) end;
      cbn -[app]; [reflexivity|].
    match goal with
    | |- context [BigQuery.js_length ?r] => destruct r; reflexivity
    end.
  - constructor; [left; reflexivity|constructor].
Qed.

Lemma or_default_or (v d : jsval) :
  truthy d = true -> BigQuery.or_default (js_or v d) d = js_or v d.
Proof.
  intros Hd. unfold js_or. destruct (truthy v) eqn:Hv.
  - destruct v; try reflexivity; discriminate.
  - destruct d; try reflexivity; discriminate.
Qed.

Lemma or_default_or_false (v : jsval) :
  BigQuery.or_default (js_or v (JBool false)) (JBool false) = js_or v (JBool false).
Proof.
  unfold js_or. destruct (truthy v) eqn:Hv; [|reflexivity].
  destruct v; try reflexivity; discriminate.
Qed.

Lemma legacy_callTool_dispatch (name args : jsval) :
  BigQueryLegacy.callTool vendor stringify this (call_tool_request name args) log
  = try_catch (BigQueryLegacy.dispatch vendor stringify this name args)
      (fun error => ret (BigQueryLegacy.error_reply error)) log.
Proof. reflexivity. Qed.

Lemma legacy_callTool_log (name args : jsval) :
  snd (BigQueryLegacy.callTool vendor stringify this (call_tool_request name args) log)
  = snd (BigQueryLegacy.dispatch vendor stringify this name args log).
Proof. rewrite legacy_callTool_dispatch. apply try_catch_ret_log. Qed.

End LegacyCalls.

Section LegacyTools.
Context (vendor : Vendor) (stringify : jsval -> string).
Context (this : BigQueryLegacy.BigQueryMCPServer) (args : jsval) (log : list VendorCall).

Lemma legacy_list_datasets_reaches :
  adds_calls (BigQueryLegacy.callTool vendor stringify this
                (call_tool_request (JStr "list_datasets") args)) log [BQ_getDatasets].
Proof.
  unfold adds_calls. rewrite legacy_callTool_log.
  apply legacy_listDatasets_calls.
Qed.

Lemma legacy_list_tables_reaches :
  truthy (opt_get args "datasetId") = true ->
  adds_calls (BigQueryLegacy.callTool vendor stringify this
                (call_tool_request (JStr "list_tables") args)) log
    [BQ_getTables (opt_get args "datasetId")].
Proof.
  intros Hd. unfold adds_calls. rewrite legacy_callTool_log.
  now apply legacy_listTables_calls.
Qed.

Lemma legacy_get_table_schema_reaches :
  truthy (opt_get args "datasetId") = true ->
  truthy (opt_get args "tableId") = true ->
  adds_calls (BigQueryLegacy.callTool vendor stringify this
                (call_tool_request (JStr "get_table_schema") args)) log
    [BQ_table_getMetadata (opt_get args "datasetId") (opt_get args "tableId")].
Proof.
  intros Hd Ht. unfold adds_calls. rewrite legacy_callTool_log.
  now apply legacy_getTableSchema_calls.
Qed.

Lemma legacy_execute_query_reaches :
  truthy (opt_get args "query") = true ->
  let bound := js_or (opt_get args "maxResults") (JNum 100) in
  let dry := js_or (opt_get args "dryRun") (JBool false) in
  exists rest,
    adds_calls (BigQueryLegacy.callTool vendor stringify this
                  (call_tool_request (JStr "execute_query") args)) log
      (BQ_createQueryJob
         (JObj [("query", opt_get args "query");
                ("location", JStr (BigQueryLegacy.location (BigQueryLegacy.config this)));
                ("maxResults", bound);
                ("dryRun", dry)])
       :: rest)
    /\ (truthy dry = true -> Forall (fun c => fetches_rows c = false) rest)
    /\ (truthy dry = false -> Forall (fun c => reads_job_metadata c = false) rest)
    /\ bounded_by bound rest.
Proof.
  intros Hq bound dry.
  destruct (legacy_executeQuery_calls vendor stringify this log
              (opt_get args "query") bound dry Hq) as (rest & Hcalls & Hrest).
  cbv zeta in Hcalls, Hrest. unfold bound, dry in Hcalls, Hrest.
  rewrite ?(or_default_or _ (JNum 100) eq_refl), ?or_default_or_false in Hcalls, Hrest.
  exists rest. split; [|exact Hrest].
  unfold adds_calls. rewrite legacy_callTool_log. exact Hcalls.
Qed.

Lemma legacy_get_query_results_reaches :
  truthy (opt_get args "jobId") = true ->
  let bound := js_or (opt_get args "maxResults") (JNum 100) in
  exists rest,
    adds_calls (BigQueryLegacy.callTool vendor stringify this
                  (call_tool_request (JStr "get_query_results") args)) log
      (BQ_job_getQueryResults (JObj [("id", opt_get args "jobId")])
         (JObj [("maxResults", bound)])
       :: rest)
    /\ bounded_by bound rest.
Proof.
  intros Hj bound.
  destruct (legacy_getQueryResults_calls vendor stringify this log
              (opt_get args "jobId") bound Hj) as (rest & Hcalls & Hrest).
  cbv zeta in Hcalls, Hrest. unfold bound in Hcalls, Hrest.
  rewrite ?(or_default_or _ (JNum 100) eq_refl) in Hcalls, Hrest.
  exists rest. split; [|exact Hrest].
  unfold adds_calls. rewrite legacy_callTool_log. exact Hcalls.
Qed.

End LegacyTools.

(** X25, the stdio-only BigQuery server: the call handler checks the
    fields its catalogue declares as required. When one of them has no
    truthy value in the arguments, the reply is flagged [isError] with the
    text "Error: <field> is required", naming the first such field, and
    the vendor client is not invoked; when all of them have one, the
    vendor client is invoked. *)
Theorem legacy_required_arguments_are_checked
    (vendor : Vendor) (stringify : jsval -> string)
    (this : BigQueryLegacy.BigQueryMCPServer) (tool : string) (fields : list string)
    (args : jsval) (log : list VendorCall) :
  In (tool, fields) BigQueryLegacy.required ->
  let call :=
    BigQueryLegacy.callTool vendor stringify this (call_tool_request (JStr tool) args) in
  match first_missing fields args with
  | Some field =>
      call log = (Returned (error_result ("Error: " +:+ field +:+ " is required")), log)
  | None => reaches_vendor call log
  end.
Proof.
  intros Hin. cbn in Hin.
  repeat (destruct Hin as [Hin|Hin]; [injection Hin as <- <-|]); [..|destruct Hin];
    cbv zeta; unfold first_missing; cbn [List.find].
  - eexists _, _. apply legacy_list_datasets_reaches.
  - destruct (truthy (opt_get args "datasetId")) eqn:Hd; cbn [negb].
    + eexists _, _. now apply legacy_list_tables_reaches.
    + rewrite legacy_callTool_dispatch.
      change (BigQueryLegacy.dispatch vendor stringify this (JStr "list_tables") args)
        with (BigQueryLegacy.listTables vendor stringify this (opt_get args "datasetId")).
      unfold BigQueryLegacy.listTables, try_catch. now rewrite Hd.
  - destruct (truthy (opt_get args "datasetId")) eqn:Hd; cbn [negb];
      [destruct (truthy (opt_get args "tableId")) eqn:Ht; cbn [negb]|].
    + eexists _, _. now apply legacy_get_table_schema_reaches.
    + rewrite legacy_callTool_dispatch.
      change (BigQueryLegacy.dispatch vendor stringify this (JStr "get_table_schema") args)
        with (BigQueryLegacy.getTableSchema vendor stringify this
                (opt_get args "datasetId") (opt_get args "tableId")).
      unfold BigQueryLegacy.getTableSchema, try_catch. now rewrite Hd, Ht.
    + rewrite legacy_callTool_dispatch.
      change (BigQueryLegacy.dispatch vendor stringify this (JStr "get_table_schema") args)
        with (BigQueryLegacy.getTableSchema vendor stringify this
                (opt_get args "datasetId") (opt_get args "tableId")).
      unfold BigQueryLegacy.getTableSchema, try_catch. now rewrite Hd.
  - destruct (truthy (opt_get args "query")) eqn:Hq; cbn [negb].
    + destruct (legacy_execute_query_reaches vendor stringify this args log Hq)
        as (rest & Hcalls & _).
      eexists _, _. exact Hcalls.
    + rewrite legacy_callTool_dispatch.
      change (BigQueryLegacy.dispatch vendor stringify this (JStr "execute_query") args)
        with (BigQueryLegacy.executeQuery vendor stringify this (opt_get args "query")
                (js_or (opt_get args "maxResults") (JNum 100))
                (js_or (opt_get args "dryRun") (JBool false))).
      unfold BigQueryLegacy.executeQuery, try_catch. now rewrite Hq.
  - destruct (truthy (opt_get args "jobId")) eqn:Hj; cbn [negb].
    + destruct (legacy_get_query_results_reaches vendor stringify this args log Hj)
        as (rest & Hcalls & _).
      eexists _, _. exact Hcalls.
    + rewrite legacy_callTool_dispatch.
      change (BigQueryLegacy.dispatch vendor stringify this (JStr "get_query_results") args)
        with (BigQueryLegacy.getQueryResults vendor stringify this (opt_get args "jobId")
                (js_or (opt_get args "maxResults") (JNum 100))).
      unfold BigQueryLegacy.getQueryResults, try_catch. now rewrite Hj.
Qed.

Lemma legacy_required_arguments_witness :
  BigQueryLegacy.callTool stub_vendor stub_stringify sample_legacy
    (call_tool_request (JStr "get_table_schema") (JObj [("datasetId", JStr "sales")])) []
  = (Returned (error_result "Error: tableId is required"), []).
Proof.
  exact (legacy_required_arguments_are_checked stub_vendor stub_stringify sample_legacy
           "get_table_schema" ["datasetId"; "tableId"]
           (JObj [("datasetId", JStr "sales")]) []
           (or_intror (or_intror (or_introl eq_refl)))).
Defined.

(** X26, the stdio-only BigQuery server: a call that names none of the
    five tools is answered, without any vendor invocation and without a
    throw, by a reply flagged [isError] whose text is
    "Error: Unknown tool: <name>". *)
Theorem legacy_unknown_tool_reply
    (vendor : Vendor) (stringify : jsval -> string)
    (this : BigQueryLegacy.BigQueryMCPServer) (name args : jsval)
    (log : list VendorCall) :
  (forall tool fields, In (tool, fields) BigQueryLegacy.required -> name <> JStr tool) ->
  BigQueryLegacy.callTool vendor stringify this (call_tool_request name args) log
  = (Returned (error_result ("Error: Unknown tool: " +:+ js_String name)), log).
Proof.
  intros Hname. rewrite legacy_callTool_dispatch.
  unfold BigQueryLegacy.dispatch, try_catch.
  repeat match goal with
  | |- context [is_str name ?lit] =>
      rewrite (is_str_false name lit)
        by (intros ->; eapply Hname; [|reflexivity]; cbn; tauto)
  end.
  reflexivity.
Qed.

Lemma legacy_unknown_tool_witness :
  BigQueryLegacy.callTool stub_vendor stub_stringify sample_legacy
    (call_tool_request (JStr "drop_table") (JObj [])) []
  = (Returned (error_result "Error: Unknown tool: drop_table"), []).
Proof.
  apply (legacy_unknown_tool_reply stub_vendor stub_stringify sample_legacy
           (JStr "drop_table") (JObj []) []).
  intros tool fields Hin. cbn in Hin.
  repeat (destruct Hin as [Hin|Hin]; [injection Hin as <- <-; discriminate|]).
  destruct Hin.
Defined.

(** X27, the stdio-only BigQuery server: a [maxResults] of 0 (or any
    other falsy value) is replaced by 100 before [execute_query] and
    [get_query_results] invoke the vendor client, unlike in the HTTP-capable
    server, where only an absent value is replaced. *)
Theorem legacy_falsy_max_results_becomes_100
    (vendor : Vendor) (stringify : jsval -> string)
    (this : BigQueryLegacy.BigQueryMCPServer) (args : jsval) (log : list VendorCall) :
  truthy (opt_get args "maxResults") = false ->
  let call name :=
    BigQueryLegacy.callTool vendor stringify this (call_tool_request (JStr name) args) in
  (truthy (opt_get args "query") = true ->
   exists options rest,
     adds_calls (call "execute_query") log (BQ_createQueryJob options :: rest)
     /\ get options "maxResults" = JNum 100
     /\ bounded_by (JNum 100) rest)
  /\ (truthy (opt_get args "jobId") = true ->
      exists job rest,
        adds_calls (call "get_query_results") log
          (BQ_job_getQueryResults job (JObj [("maxResults", JNum 100)]) :: rest)
        /\ bounded_by (JNum 100) rest).
Proof.
  intros Hm call. unfold call. split.
  - intros Hq.
    destruct (legacy_execute_query_reaches vendor stringify this args log Hq)
      as (rest & Hcalls & _ & _ & Hbound).
    unfold js_or in Hcalls, Hbound. rewrite Hm in Hcalls, Hbound.
    eexists _, rest. split; [exact Hcalls|]. split; [reflexivity|exact Hbound].
  - intros Hj.
    destruct (legacy_get_query_results_reaches vendor stringify this args log Hj)
      as (rest & Hcalls & Hbound).
    unfold js_or in Hcalls, Hbound. rewrite Hm in Hcalls, Hbound.
    eexists _, rest. split; [exact Hcalls|exact Hbound].
Qed.

Lemma legacy_zero_max_results_witness :
  exists options rest,
    adds_calls
      (BigQueryLegacy.callTool stub_vendor stub_stringify sample_legacy
         (call_tool_request (JStr "execute_query")
            (JObj [("query", JStr "SELECT 1"); ("maxResults", JNum 0)]))) []
      (BQ_createQueryJob options :: rest)
    /\ get options "maxResults" = JNum 100.
Proof.
  pose proof (legacy_falsy_max_results_becomes_100 stub_vendor stub_stringify
                sample_legacy
                (JObj [("query", JStr "SELECT 1"); ("maxResults", JNum 0)]) []
                eq_refl) as H.
  cbv zeta in H. destruct H as [H _].
  destruct (H eq_refl) as (options & rest & Hcalls & Hmax & _).
  exists options, rest. split; [exact Hcalls|exact Hmax].
Defined.

(** X28, [execute_query] of the stdio-only BigQuery server, given a
    query: the first invocation is [createQueryJob] with the [dryRun] flag
    (false when the argument is falsy); after it a dry run reads at most
    the job metadata and never fetches rows, and a real run fetches rows
    and never reads the job metadata. *)
Theorem legacy_dry_run_fetches_no_rows
    (vendor : Vendor) (stringify : jsval -> string)
    (this : BigQueryLegacy.BigQueryMCPServer) (args : jsval) (log : list VendorCall) :
  truthy (opt_get args "query") = true ->
  let dryRun := js_or (opt_get args "dryRun") (JBool false) in
  exists options rest,
    adds_calls
      (BigQueryLegacy.callTool vendor stringify this
         (call_tool_request (JStr "execute_query") args)) log
      (BQ_createQueryJob options :: rest)
    /\ get options "dryRun" = dryRun
    /\ get options "query" = opt_get args "query"
    /\ (truthy dryRun = true -> Forall (fun c => fetches_rows c = false) rest)
    /\ (truthy dryRun = false -> Forall (fun c => reads_job_metadata c = false) rest).
Proof.
  intros Hq dryRun.
  destruct (legacy_execute_query_reaches vendor stringify this args log Hq)
    as (rest & Hcalls & Hdry & Hreal & _).
  eexists _, rest. split; [exact Hcalls|].
  split; [reflexivity|]. split; [reflexivity|]. split; assumption.
Qed.

Lemma legacy_dry_run_witness :
  exists options rest,
    adds_calls
      (BigQueryLegacy.callTool stub_vendor stub_stringify sample_legacy
         (call_tool_request (JStr "execute_query")
            (JObj [("query", JStr "SELECT 1"); ("dryRun", JBool true)]))) []
      (BQ_createQueryJob options :: rest)
    /\ get options "dryRun" = JBool true
    /\ Forall (fun c => fetches_rows c = false) rest.
Proof.
  pose proof (legacy_dry_run_fetches_no_rows stub_vendor stub_stringify sample_legacy
                (JObj [("query", JStr "SELECT 1"); ("dryRun", JBool true)]) []
                eq_refl) as H.
  cbv zeta in H. destruct H as (options & rest & Hcalls & Hflag & _ & Hdry & _).
  exists options, rest. split; [exact Hcalls|]. split; [exact Hflag|].
  apply Hdry. reflexivity.
Defined.

(** X29, failures of the vendor client in the stdio-only BigQuery server:
    [list_datasets], whatever its arguments, catches the failure itself
    and answers with an ordinary text reply, not flagged [isError]; for
    [list_tables] with a dataset id the failure reaches the call handler,
    whose reply is flagged [isError] and carries "Error: <message>".
    Neither throws. *)
Theorem legacy_vendor_failure_replies
    (vendor : Vendor) (stringify : jsval -> string)
    (this : BigQueryLegacy.BigQueryMCPServer) (args : jsval) (log : list VendorCall)
    (error : jsval) :
  rejects vendor log error ->
  let call name :=
    BigQueryLegacy.callTool vendor stringify this (call_tool_request (JStr name) args) in
  (exists text,
      fst (call "list_datasets" log) = Returned (text_content text)
      /\ has_field (text_content text) "isError" = false)
  /\ (truthy (opt_get args "datasetId") = true ->
      fst (call "list_tables" log)
      = Returned (error_result ("Error: " +:+ js_String (caught_message error)))).
Proof.
  intros Hv call. unfold call. rewrite !legacy_callTool_dispatch. split.
  - change (BigQueryLegacy.dispatch vendor stringify this (JStr "list_datasets") args)
      with (BigQueryLegacy.listDatasets vendor stringify this).
    unfold BigQueryLegacy.listDatasets, try_catch, bind, await. rewrite Hv.
    eexists. split; reflexivity.
  - intros Hd.
    change (BigQueryLegacy.dispatch vendor stringify this (JStr "list_tables") args)
      with (BigQueryLegacy.listTables vendor stringify this (opt_get args "datasetId")).
    unfold BigQueryLegacy.listTables, try_catch, bind, await. rewrite Hd.
    cbn [negb]. rewrite Hv. reflexivity.
Qed.

Lemma legacy_vendor_failure_witness :
  fst (BigQueryLegacy.callTool (rejecting_vendor (Error "quota")) stub_stringify
         sample_legacy
         (call_tool_request (JStr "list_tables") (JObj [("datasetId", JStr "sales")])) [])
  = Returned (error_result "Error: quota").
Proof.
  pose proof (legacy_vendor_failure_replies (rejecting_vendor (Error "quota"))
                stub_stringify sample_legacy (JObj [("datasetId", JStr "sales")]) []
                (Error "quota") (fun c => eq_refl)) as H.
  cbv zeta in H. destruct H as [_ H]. exact (H eq_refl).
Defined.

(** ** Start-up of the Google Ads server *)

Lemma filter_none {A} (f : A -> bool) (l : list A) :
  List.filter f l = [] <-> (forall x, In x l -> f x = false).
Proof.
  split.
  - intros H x Hin. destruct (f x) eqn:E; [|reflexivity].
    assert (Hx : In x (List.filter f l)) by (apply List.filter_In; now split).
    rewrite H in Hx. destruct Hx.
  - induction l as [|y l IH]; intros H; [reflexivity|]. cbn [List.filter].
    rewrite (H y (or_introl eq_refl)). apply IH. intros x Hin. apply H. now right.
Qed.

Lemma present_iff (o : option string) :
  present o = true <-> exists value, o = Some value /\ value <> "".
Proof.
  split; [apply present_some|]. intros (value & -> & Hne). cbn.
  destruct (String.eqb value "") eqn:E; [|reflexivity].
  apply String.eqb_eq in E. contradiction.
Qed.

(** X30, start-up of the Google Ads server: [main] serves, with the client
    set and the configuration read from the environment, exactly when each
    of the five required variables holds a non-empty value; a variable set
    to the empty string counts as missing. In every other case [main]
    exits with status 1. *)
Theorem google_main_serves_iff_configured (env : Env) :
  (google_configured env <->
   GoogleAds.main env
   = GoogleAds.Serving {| GoogleAds.googleAds := true;
                          GoogleAds.config := GoogleAds.read_config env |})
  /\ (~ google_configured env <-> exists fatal, GoogleAds.main env = GoogleAds.Exit1 fatal).
Proof.
  assert (Hnone : google_configured env
                  <-> GoogleAds.missingFields (GoogleAds.read_config env) = []).
  { unfold GoogleAds.missingFields. rewrite filter_none. unfold google_configured.
    split; intros H field Hin; specialize (H field Hin);
      rewrite (google_config_field_env env field Hin) in *.
    - apply present_iff in H. now rewrite H.
    - apply present_iff. now destruct (present _). }
  unfold GoogleAds.main, GoogleAds.construct, GoogleAds.initializeGoogleAds.
  rewrite Hnone.
  destruct (GoogleAds.missingFields (GoogleAds.read_config env)) as [|field rest].
  - cbn. split; split; try reflexivity; try congruence.
    intros [fatal H]. discriminate.
  - cbn [List.length]. rewrite Nat2Z.inj_succ.
    replace (0 <? Z.succ (Z.of_nat (List.length rest))) with true
      by (symmetry; apply Z.ltb_lt; lia).
    split; split; try discriminate.
    intros _. eexists. reflexivity.
Qed.
